(** * KULA backend: order, inventory and payment reconciliation

    A shallow embedding of the order routes (POST /api/v1/orders and
    /:id/cancel), the business routes (PATCH /orders/:id/status and
    POST /orders/:id/scan), the payment routes (the three redirect callbacks
    and the Yoco webhook) and the Yoco adapter (src/services/yoco.ts).

    - The relational store is a record of tables; a table is the list of
      its rows in insertion order, because [findFirst] without [orderBy]
      depends on it.  [update] and [delete] act on every row with the key,
      as the SQL statement does, and throw P2025 when there is none.
    - Numbers and timestamps are [Z], identifiers are strings, a value that
      may be [undefined] is an [option].
    - A handler is a function from the store and its inputs (request,
      authenticated user, clock, generated identifiers, answers of the
      payment provider) to the new store and the response; an exception
      that leaves the handler is the response [Rejected].
    - A transaction either yields the store after all its operations or
      throws and leaves the store it started from.
    - The handlers run one after the other: interleavings of concurrent
      requests are outside the model. *)

From Stdlib Require Import ZArith List String Ascii Bool Lia.
Import ListNotations.
Local Open Scope string_scope.
Local Open Scope list_scope.
Local Open Scope Z_scope.

(** ** Errors and the error monad *)

(** What the code throws.  [ApiError] is the class of src/types/index.ts;
    [PrismaError] carries the client's error code ("P2025": record to
    update or delete not found, "P2002": unique constraint, "P2003":
    foreign key constraint). *)
Inductive Error : Type :=
| ApiError (message : string) (statusCode : Z)
| PrismaError (code : string)
| TypeError (message : string)
| RangeError (message : string)
| GatewayError.

Inductive result (A : Type) : Type :=
| Ok (a : A)
| Throw (e : Error).
Arguments Ok {A} a.
Arguments Throw {A} e.

Definition bind {A B : Type} (m : result A) (k : A -> result B) : result B :=
  match m with
  | Ok a => k a
  | Throw e => Throw e
  end.

Notation "x <- m ;; k" := (bind m (fun x => k))
  (at level 61, m at next level, right associativity).

(** JavaScript truthiness of a string that may be [undefined]. *)
Definition truthy (v : option string) : bool :=
  match v with
  | Some s => negb (String.eqb s "")
  | None => false
  end.

(** [a || b] on strings that may be [undefined]. *)
Definition js_or (a b : option string) : option string :=
  if truthy a then a else b.

(** ** Data model *)

Inductive OrderStatus : Type :=
| pending | paid | ready | collected | cancelled | refunded.

Inductive PaymentStatus : Type :=
| p_pending | p_succeeded | p_failed | p_refunded.

Definition OrderStatus_eqb (a b : OrderStatus) : bool :=
  match a, b with
  | pending, pending | paid, paid | ready, ready
  | collected, collected | cancelled, cancelled | refunded, refunded => true
  | _, _ => false
  end.

Definition status_string (st : OrderStatus) : string :=
  match st with
  | pending => "pending"
  | paid => "paid"
  | ready => "ready"
  | collected => "collected"
  | cancelled => "cancelled"
  | refunded => "refunded"
  end.

Module Bag.
Record t : Type := mk {
  id : string;
  restaurantId : string;
  title : string;
  priceCurrent : Z;
  quantityTotal : Z;
  quantityRemaining : Z;
  pickupStart : Z;
  pickupEnd : Z;
  isActive : bool;
  isSoldOut : bool
}.
End Bag.

Module Order.
Record t : Type := mk {
  id : string;
  orderNumber : string;
  userId : string;
  bagId : string;
  restaurantId : string;
  quantity : Z;
  subtotal : Z;
  platformFee : Z;
  total : Z;
  status : OrderStatus;
  pickupStart : Z;
  pickupEnd : Z;
  qrCode : string;
  qrScannedAt : option Z;
  cancelledAt : option Z;
  cancellationReason : option string;
  cancelledById : option string
}.
End Order.

Module Payment.
Record t : Type := mk {
  id : string;
  orderId : string;
  amount : Z;
  method : string;
  status : PaymentStatus;
  stripePaymentIntentId : option string;
  stripeChargeId : option string;
  paidAt : option Z;
  failedAt : option Z;
  failureReason : option string;
  refundedAt : option Z;
  refundAmount : option Z;
  stripeRefundId : option string;
  cardLast4 : option string;
  cardBrand : option string
}.
End Payment.

Module User.
Record t : Type := mk {
  id : string;
  email : string;
  name : string;
  loyaltyPoints : Z
}.
End User.

Module Restaurant.
Record t : Type := mk {
  id : string;
  ownerId : string;
  name : string
}.
End Restaurant.

Record Store : Type := mkStore {
  bags : list Bag.t;
  orders : list Order.t;
  payments : list Payment.t;
  users : list User.t;
  restaurants : list Restaurant.t
}.

Definition with_bags (s : Store) (b : list Bag.t) : Store :=
  mkStore b (orders s) (payments s) (users s) (restaurants s).
Definition with_orders (s : Store) (o : list Order.t) : Store :=
  mkStore (bags s) o (payments s) (users s) (restaurants s).
Definition with_payments (s : Store) (p : list Payment.t) : Store :=
  mkStore (bags s) (orders s) p (users s) (restaurants s).
Definition with_users (s : Store) (u : list User.t) : Store :=
  mkStore (bags s) (orders s) (payments s) u (restaurants s).

(** ** Table operations of the Prisma client *)

Section Table.

Context {R : Type}.
Variable key : R -> string.

Definition has_key (k : string) (r : R) : bool := String.eqb (key r) k.

(** [findUnique({ where: { id } })] *)
Definition findUnique (t : list R) (k : string) : option R :=
  find (has_key k) t.

(** The rows after an update: those with the key are rewritten. *)
Definition rewritten (k : string) (f : R -> R) (t : list R) : list R :=
  map (fun r => if has_key k r then f r else r) t.

(** [update({ where: { id }, data })]: P2025 when no row has the key. *)
Definition update (t : list R) (k : string) (f : R -> R) : result (list R) :=
  if existsb (has_key k) t
  then Ok (rewritten k f t)
  else Throw (PrismaError "P2025").

(** [delete({ where: { id } })]: P2025 when no row has the key. *)
Definition delete (t : list R) (k : string) : result (list R) :=
  if existsb (has_key k) t
  then Ok (filter (fun r => negb (has_key k r)) t)
  else Throw (PrismaError "P2025").

(** [create({ data })]: P2002 when the key is taken. *)
Definition create (t : list R) (r : R) : result (list R) :=
  if existsb (has_key (key r)) t
  then Throw (PrismaError "P2002")
  else Ok (t ++ [r]).

End Table.

(** A [where] clause on a nullable column: Prisma drops a filter whose
    value is [undefined], so that [None] matches every row. *)
Definition where_eq (column : option string) (v : option string) : bool :=
  match v with
  | None => true
  | Some x =>
      match column with
      | Some c => String.eqb c x
      | None => false
      end
  end.

(** ** Store operations *)

Definition bag_update (s : Store) (id : string) (f : Bag.t -> Bag.t)
  : result Store :=
  t <- update Bag.id (bags s) id f ;; Ok (with_bags s t).

Definition order_update (s : Store) (id : string) (f : Order.t -> Order.t)
  : result Store :=
  t <- update Order.id (orders s) id f ;; Ok (with_orders s t).

Definition payment_update (s : Store) (id : string)
  (f : Payment.t -> Payment.t) : result Store :=
  t <- update Payment.id (payments s) id f ;; Ok (with_payments s t).

Definition user_update (s : Store) (id : string) (f : User.t -> User.t)
  : result Store :=
  t <- update User.id (users s) id f ;; Ok (with_users s t).

(** Modelled from the spec: the unique constraint on the order number
    ('human-readable order number (unique, externally shown)').  It is
    declared in the Prisma schema, which is not among the sources; the
    handler's comment says 'Generate unique QR code and order number'.
    [order.create] throws P2002 when the order number, the QR code (the scan
    route reads that column with [findUnique]) or the primary key is
    taken. *)
Definition order_create (s : Store) (o : Order.t) : result Store :=
  if existsb
       (fun o' => String.eqb (Order.orderNumber o') (Order.orderNumber o))
       (orders s)
  then Throw (PrismaError "P2002")
  else if existsb (fun o' => String.eqb (Order.qrCode o') (Order.qrCode o))
            (orders s)
  then Throw (PrismaError "P2002")
  else t <- create Order.id (orders s) o ;; Ok (with_orders s t).

Definition payment_create (s : Store) (p : Payment.t) : result Store :=
  t <- create Payment.id (payments s) p ;; Ok (with_payments s t).

(** The relation [order.payment] ([include: { payment: true }]). *)
Definition payment_of_order (s : Store) (orderId : string)
  : option Payment.t :=
  find (fun p => String.eqb (Payment.orderId p) orderId) (payments s).

(** What the database does with the payment of a deleted order.  The Prisma
    schema is not among the sources, so the action declared on the relation
    Payment.order is a parameter of the model. *)
Inductive ReferentialAction : Type := Cascade | Restrict.

Definition order_delete (onDelete : ReferentialAction) (s : Store)
  (id : string) : result Store :=
  t <- delete Order.id (orders s) id ;;
  match onDelete with
  | Cascade =>
      Ok (mkStore (bags s) t
            (filter (fun p => negb (String.eqb (Payment.orderId p) id))
               (payments s))
            (users s) (restaurants s))
  | Restrict =>
      if existsb (fun p => String.eqb (Payment.orderId p) id) (payments s)
      then Throw (PrismaError "P2003")
      else Ok (with_orders s t)
  end.

(** [prisma.$transaction([op1, op2, ...])]: the operations run in order on
    the store; the first error aborts all of them. *)
Fixpoint transaction (ops : list (Store -> result Store)) (s : Store)
  : result Store :=
  match ops with
  | [] => Ok s
  | op :: rest => s' <- op s ;; transaction rest s'
  end.

(** ** Field updates written by the handlers *)

Definition Bag_reserve (bag : Bag.t) (quantity : Z) (b : Bag.t) : Bag.t :=
  Bag.mk (Bag.id b) (Bag.restaurantId b) (Bag.title b) (Bag.priceCurrent b)
    (Bag.quantityTotal b) (Bag.quantityRemaining b - quantity)
    (Bag.pickupStart b) (Bag.pickupEnd b) (Bag.isActive b)
    (Bag.quantityRemaining bag - quantity <=? 0).

(** [{ quantityRemaining: { increment: quantity }, isSoldOut: false }] *)
Definition Bag_restore (quantity : Z) (b : Bag.t) : Bag.t :=
  Bag.mk (Bag.id b) (Bag.restaurantId b) (Bag.title b) (Bag.priceCurrent b)
    (Bag.quantityTotal b) (Bag.quantityRemaining b + quantity)
    (Bag.pickupStart b) (Bag.pickupEnd b) (Bag.isActive b) false.

Definition Order_set (st : OrderStatus) (scanned cancelledAt : option Z)
  (reason cancelledBy : option string) (o : Order.t) : Order.t :=
  Order.mk (Order.id o) (Order.orderNumber o) (Order.userId o)
    (Order.bagId o) (Order.restaurantId o) (Order.quantity o)
    (Order.subtotal o) (Order.platformFee o) (Order.total o) st
    (Order.pickupStart o) (Order.pickupEnd o) (Order.qrCode o)
    scanned cancelledAt reason cancelledBy.

(** [{ status }] alone. *)
Definition Order_status (st : OrderStatus) (o : Order.t) : Order.t :=
  Order_set st (Order.qrScannedAt o) (Order.cancelledAt o)
    (Order.cancellationReason o) (Order.cancelledById o) o.

(** [{ status: 'collected', qrScannedAt: new Date() }] *)
Definition Order_collect (now : Z) (o : Order.t) : Order.t :=
  Order_set collected (Some now) (Order.cancelledAt o)
    (Order.cancellationReason o) (Order.cancelledById o) o.

(** [{ loyaltyPoints: { increment: n } }] *)
Definition User_award (n : Z) (u : User.t) : User.t :=
  User.mk (User.id u) (User.email u) (User.name u) (User.loyaltyPoints u + n).

(** A value written by an update: [undefined] leaves the column as it is. *)
Definition written {A : Type} (v old : option A) : option A :=
  match v with
  | Some _ => v
  | None => old
  end.

(** Success as the redirect callback writes it. *)
Definition Payment_succeed_redirect (now : Z) (last4 brand : option string)
  (p : Payment.t) : Payment.t :=
  Payment.mk (Payment.id p) (Payment.orderId p) (Payment.amount p)
    (Payment.method p) p_succeeded (Payment.stripePaymentIntentId p)
    (Payment.stripeChargeId p) (Some now) (Payment.failedAt p)
    (Payment.failureReason p) (Payment.refundedAt p) (Payment.refundAmount p)
    (Payment.stripeRefundId p)
    (written last4 (Payment.cardLast4 p)) (written brand (Payment.cardBrand p)).

(** Success as the webhook writes it. *)
Definition Payment_succeed_webhook (now : Z) (chargeId : option string)
  (p : Payment.t) : Payment.t :=
  Payment.mk (Payment.id p) (Payment.orderId p) (Payment.amount p)
    (Payment.method p) p_succeeded (Payment.stripePaymentIntentId p)
    (written chargeId (Payment.stripeChargeId p)) (Some now)
    (Payment.failedAt p) (Payment.failureReason p) (Payment.refundedAt p)
    (Payment.refundAmount p) (Payment.stripeRefundId p) (Payment.cardLast4 p)
    (Payment.cardBrand p).

Definition Payment_fail (now : Z) (reason : option string) (p : Payment.t)
  : Payment.t :=
  Payment.mk (Payment.id p) (Payment.orderId p) (Payment.amount p)
    (Payment.method p) p_failed (Payment.stripePaymentIntentId p)
    (Payment.stripeChargeId p) (Payment.paidAt p) (Some now)
    (written reason (Payment.failureReason p)) (Payment.refundedAt p)
    (Payment.refundAmount p) (Payment.stripeRefundId p) (Payment.cardLast4 p)
    (Payment.cardBrand p).

Definition Payment_refund (now : Z) (amount : option Z)
  (refundId : option string) (p : Payment.t) : Payment.t :=
  Payment.mk (Payment.id p) (Payment.orderId p) (Payment.amount p)
    (Payment.method p) p_refunded (Payment.stripePaymentIntentId p)
    (Payment.stripeChargeId p) (Payment.paidAt p) (Payment.failedAt p)
    (Payment.failureReason p) (Some now)
    (written amount (Payment.refundAmount p))
    (written refundId (Payment.stripeRefundId p)) (Payment.cardLast4 p)
    (Payment.cardBrand p).

(** ** String helpers (JavaScript's [replace], [split], [slice(-4)]) *)

(** [s.replace(pat, rep)] with a string pattern: the first occurrence. *)
Fixpoint replace_first (pat rep s : string) : string :=
  if String.prefix pat s
  then String.append rep
         (String.substring (String.length pat)
            (String.length s - String.length pat)%nat s)
  else match s with
       | EmptyString => EmptyString
       | String c s' => String c (replace_first pat rep s')
       end.

(** [s.split(sep)] for a separator of one character. *)
Fixpoint split (sep : ascii) (s : string) : list string :=
  match s with
  | EmptyString => [EmptyString]
  | String c s' =>
      if Ascii.eqb c sep then EmptyString :: split sep s'
      else match split sep s' with
           | h :: t => String c h :: t
           | [] => [String c EmptyString]
           end
  end.

(** [s.slice(-4)] *)
Definition slice_last4 (s : string) : string :=
  String.substring (String.length s - 4)%nat 4 s.

(** A value inside a template literal: [undefined] prints as such. *)
Definition template (v : option string) : string :=
  match v with
  | Some s => s
  | None => "undefined"
  end.

(** ** The Yoco adapter (src/services/yoco.ts) *)

Module Yoco.

Record CheckoutRequest : Type := mkRequest {
  amount : Z;
  currency : string;
  successUrl : string;
  cancelUrl : string;
  failureUrl : string;
  metadata : list (string * string)
}.

Record CreateCheckoutParams : Type := mkParams {
  p_amount : Z;
  p_currency : option string;
  p_orderId : string;
  p_orderNumber : string;
  p_customerEmail : option string;
  p_customerName : option string;
  p_successUrl : string;
  p_cancelUrl : string;
  p_failureUrl : option string;
  p_metadata : list (string * string)
}.

Record YocoCheckoutResponse : Type := mkCheckout {
  id : string;
  redirectUrl : string;
  status : string
}.

Record Card : Type := mkCard {
  maskedCard : option string;
  scheme : option string
}.

Record YocoPaymentResponse : Type := mkPayment {
  pay_id : string;
  pay_status : string;
  pay_card : option Card
}.

Definition or_default (v : option string) (d : string) : string :=
  match js_or v (Some d) with
  | Some s => s
  | None => d
  end.

(** The body [createCheckout] posts. *)
Definition requestBody (params : CreateCheckoutParams) : CheckoutRequest :=
  mkRequest (p_amount params)
    (match p_currency params with Some c => c | None => "ZAR" end)
    (p_successUrl params) (p_cancelUrl params)
    (or_default (p_failureUrl params) (p_cancelUrl params))
    (p_metadata params ++
     [("orderId", p_orderId params);
      ("orderNumber", p_orderNumber params);
      ("customerEmail", or_default (p_customerEmail params) "");
      ("customerName", or_default (p_customerName params) "")]).

(** [createCheckout]: builds the request and posts it; [post] is the
    provider's answer to POST /checkouts, an error for a transport failure
    or a non-2xx status. *)
Definition createCheckout
  (post : CheckoutRequest -> result YocoCheckoutResponse)
  (params : CreateCheckoutParams) : result YocoCheckoutResponse :=
  data <- post (requestBody params) ;;
  Ok (mkCheckout (id data) (redirectUrl data) (status data)).

(** [getCheckoutStatus]: the provider's answer to GET /checkouts/:id,
    returned as it is. *)
Definition getCheckoutStatus (get : string -> result YocoPaymentResponse)
  (checkoutId : string) : result YocoPaymentResponse :=
  get checkoutId.

Section Signature.

(** Node's [Buffer.from(s, 'base64')] and
    [createHmac('sha256', key).update(msg).digest('base64')]; byte strings
    are strings. *)
Variable base64Decode : string -> string.
Variable hmacSha256Base64 : string -> string -> string.

(** [crypto.timingSafeEqual]: throws on buffers of different lengths. *)
Definition timingSafeEqual (a b : string) : result bool :=
  if Nat.eqb (String.length a) (String.length b)
  then Ok (String.eqb a b)
  else Throw (RangeError "Input buffers must have the same byte length").

(** [Buffer.from(sig, 'base64')] on a value that may be [undefined]. *)
Definition bufferFrom (sig : option string) : result string :=
  match sig with
  | Some s => Ok (base64Decode s)
  | None => Throw (TypeError "The first argument must be of type string")
  end.

(** [verifyWebhookSignature(payload, signature, webhookId,
    webhookTimestamp, webhookSecret)].  A parameter the caller leaves out is
    [undefined], here [None]. *)
Definition verifyWebhookSignature (payload signature : string)
  (webhookId webhookTimestamp webhookSecret : option string) : result bool :=
  match webhookSecret with
  | None =>
      Throw (TypeError "Cannot read properties of undefined (reading 'replace')")
  | Some secret =>
      let secretBytes := base64Decode (replace_first "whsec_" "" secret) in
      let signedContent :=
        String.append (template webhookId)
          (String.append "."
             (String.append (template webhookTimestamp)
                (String.append "." payload))) in
      let expectedSignature := hmacSha256Base64 secretBytes signedContent in
      let signatures :=
        map (fun s => nth_error (split "," s) 1) (split " " signature) in
      Ok (existsb
            (fun sig =>
               match (b <- bufferFrom sig ;;
                      timingSafeEqual b (base64Decode expectedSignature)) with
               | Ok r => r
               | Throw _ => false
               end)
            signatures)
  end.

End Signature.

End Yoco.

(** ** Responses *)

Inductive Body : Type :=
| ErrorBody (error : string)
| MessageBody (message : string)
| CheckoutBody (order : Order.t) (checkoutId paymentUrl : string)
| StatusBody (id orderNumber : string) (status : OrderStatus)
    (qrScannedAt : option Z)
| ScanBody (id orderNumber : string) (status : OrderStatus)
    (customerName bagTitle : option string)
| ReceivedBody.

(** What a handler answers: a JSON body with its status, a redirect, or
    nothing of its own because an exception left the handler. *)
Inductive Response : Type :=
| Json (status : Z) (body : Body)
| Redirect (url : string)
| Rejected (e : Error).

(** The status chosen by [errorHandler] (src/middleware/errorHandler.ts) for
    an error that reaches it. *)
Definition errorHandler_status (e : Error) : Z :=
  match e with
  | ApiError _ statusCode => statusCode
  | PrismaError code =>
      if String.eqb code "P2002" then 409
      else if String.eqb code "P2025" then 404
      else 500
  | _ => 500
  end.

Definition includes (l : list OrderStatus) (st : OrderStatus) : bool :=
  existsb (OrderStatus_eqb st) l.

(** ** POST /api/v1/orders *)

(** [createOrderSchema] on the quantity: an integer from 1 to 10, 1 when
    absent.  (The UUID format of [bagId] is not modelled.) *)
Definition validate_quantity (quantity : option Z) : option Z :=
  let q := match quantity with Some q => q | None => 1 end in
  if (1 <=? q) && (q <=? 10) then Some q else None.

Record Reservation : Type := mkReservation {
  r_store : Store;
  r_order : Order.t;
  r_bag : Bag.t;
  r_user : option User.t;
  r_total : Z
}.

(** The body of the reservation transaction. *)
Definition reserveTransaction (s : Store) (sub bagId : string)
  (quantity now : Z) (newId orderNumber qrCode : string)
  : result Reservation :=
  match findUnique Bag.id (bags s) bagId with
  | None => Throw (ApiError "Bag not found" 404)
  | Some bag =>
      if negb (Bag.isActive bag) || Bag.isSoldOut bag
      then Throw (ApiError "Bag is not available" 400)
      else if Bag.quantityRemaining bag <? quantity
      then Throw (ApiError "Not enough bags available" 400)
      else if Bag.pickupEnd bag <? now
      then Throw (ApiError "Pickup window has ended" 400)
      else
        s1 <- bag_update s bagId (Bag_reserve bag quantity) ;;
        match findUnique Bag.id (bags s1) bagId with
        | None => Throw (PrismaError "P2025")
        | Some updatedBag =>
            if Bag.quantityRemaining updatedBag <? 0
            then Throw (ApiError "Not enough bags available" 400)
            else
              let user := findUnique User.id (users s1) sub in
              let subtotal := Bag.priceCurrent bag * quantity in
              let platformFee := 250 in
              let total := subtotal + platformFee in
              let order :=
                Order.mk newId orderNumber sub (Bag.id bag)
                  (Bag.restaurantId bag) quantity subtotal platformFee total
                  pending (Bag.pickupStart bag) (Bag.pickupEnd bag) qrCode
                  None None None None in
              s2 <- order_create s1 order ;;
              Ok (mkReservation s2 order bag user total)
        end
  end.

Section Handlers.

(** Configuration: [APP_URL], [APP_SCHEME], the webhook secret of the
    environment, the schema's action on the payment of a deleted order, and
    Node's base64 and HMAC. *)
Variable APP_URL : string.
Variable APP_SCHEME : string.
Variable YOCO_WEBHOOK_SECRET : option string.
Variable onDelete : ReferentialAction.
Variable base64Decode : string -> string.
Variable hmacSha256Base64 : string -> string -> string.

Definition checkoutParams (r : Reservation) (restaurantName : option string)
  : Yoco.CreateCheckoutParams :=
  let order := r_order r in
  let callback (kind : string) :=
    String.append APP_URL
      (String.append "/api/v1/payments/yoco/"
         (String.append kind
            (String.append "?orderId=" (Order.id order)))) in
  Yoco.mkParams (r_total r) None (Order.id order) (Order.orderNumber order)
    (option_map User.email (r_user r)) (option_map User.name (r_user r))
    (callback "success") (callback "cancel") (Some (callback "failure"))
    [("bagTitle", Bag.title (r_bag r));
     ("restaurantName", Yoco.or_default restaurantName "Restaurant")].

Definition pendingPayment (paymentId : string) (r : Reservation)
  (checkout : Yoco.YocoCheckoutResponse) : Payment.t :=
  Payment.mk paymentId (Order.id (r_order r)) (r_total r) "card" p_pending
    (Some (Yoco.id checkout)) None None None None None None None None None.

(** The handler.  [sub] is the authenticated user; [now], the identifiers
    and [post] are what the clock, the generators and the provider give
    this request. *)
Definition createOrder (s : Store) (sub bagId : string) (quantity : option Z)
  (now : Z) (newId orderNumber qrCode paymentId : string)
  (post : Yoco.CheckoutRequest -> result Yoco.YocoCheckoutResponse)
  : Store * Response :=
  match validate_quantity quantity with
  | None => (s, Json 400 (ErrorBody "Validation failed"))
  | Some q =>
      match reserveTransaction s sub bagId q now newId orderNumber qrCode with
      | Throw e => (s, Rejected e)
      | Ok r =>
          let s1 := r_store r in
          let restaurantName :=
            option_map Restaurant.name
              (findUnique Restaurant.id (restaurants s)
                 (Bag.restaurantId (r_bag r))) in
          match (checkout <- Yoco.createCheckout post
                               (checkoutParams r restaurantName) ;;
                 s2 <- payment_create s1 (pendingPayment paymentId r checkout) ;;
                 Ok (s2, checkout)) with
          | Ok (s2, checkout) =>
              (s2, Json 201 (CheckoutBody (r_order r) (Yoco.id checkout)
                               (Yoco.redirectUrl checkout)))
          | Throw _ =>
              match order_delete onDelete s1 (Order.id (r_order r)) with
              | Ok s3 =>
                  (s3, Json 500 (ErrorBody "Failed to create payment checkout"))
              | Throw e => (s1, Rejected e)
              end
          end
      end
  end.

(** ** POST /api/v1/orders/:id/cancel *)

(** [cancelOrderSchema]: a reason of at most 500 characters, optional. *)
Definition validate_reason (reason : option string) : bool :=
  match reason with
  | Some r => Nat.leb (String.length r) 500
  | None => true
  end.

Definition Order_cancel_buyer (now : Z) (reason : option string)
  (sub : string) (o : Order.t) : Order.t :=
  Order_set cancelled (Order.qrScannedAt o) (Some now)
    (written reason (Order.cancellationReason o)) (Some sub) o.

Definition cancelOrder (s : Store) (sub id : string) (reason : option string)
  (now : Z) : Store * Response :=
  if negb (validate_reason reason)
  then (s, Json 400 (ErrorBody "Validation failed"))
  else
    match findUnique Order.id (orders s) id with
    | None => (s, Json 404 (ErrorBody "Order not found"))
    | Some order =>
        if negb (String.eqb (Order.userId order) sub)
        then (s, Json 403 (ErrorBody "Not authorized"))
        else if negb (includes [pending; paid] (Order.status order))
        then (s, Json 400 (ErrorBody "Order cannot be cancelled"))
        else
          match transaction
                  [fun s => order_update s id (Order_cancel_buyer now reason sub);
                   fun s => bag_update s (Order.bagId order)
                              (Bag_restore (Order.quantity order))] s with
          | Ok s' => (s', Json 200 (MessageBody "Order cancelled"))
          | Throw e => (s, Rejected e)
          end
    end.

(** ** PATCH /api/v1/business/orders/:id/status *)

Definition parse_status (status : string) : option OrderStatus :=
  if String.eqb status "ready" then Some ready
  else if String.eqb status "collected" then Some collected
  else if String.eqb status "cancelled" then Some cancelled
  else None.

(** [updateData]: the status, the scan time for 'collected', the
    cancellation time and actor for 'cancelled'. *)
Definition Order_business (st : OrderStatus) (now : Z) (sub : string)
  (o : Order.t) : Order.t :=
  Order_set st
    (if OrderStatus_eqb st collected then Some now else Order.qrScannedAt o)
    (if OrderStatus_eqb st cancelled then Some now else Order.cancelledAt o)
    (Order.cancellationReason o)
    (if OrderStatus_eqb st cancelled then Some sub else Order.cancelledById o)
    o.

Definition restaurant_of_owner (s : Store) (sub : string)
  : option Restaurant.t :=
  find (fun r => String.eqb (Restaurant.ownerId r) sub) (restaurants s).

Definition updateOrderStatus (s : Store) (sub id status : string) (now : Z)
  : Store * Response :=
  match parse_status status with
  | None => (s, Json 400 (ErrorBody "Invalid status"))
  | Some st =>
      let restaurant := restaurant_of_owner s sub in
      match findUnique Order.id (orders s) id with
      | None => (s, Json 404 (ErrorBody "Order not found"))
      | Some order =>
          match restaurant with
          | None => (s, Json 404 (ErrorBody "Order not found"))
          | Some r =>
              if negb (String.eqb (Order.restaurantId order) (Restaurant.id r))
              then (s, Json 404 (ErrorBody "Order not found"))
              else
                match order_update s id (Order_business st now sub) with
                | Throw e => (s, Rejected e)
                | Ok s' =>
                    match findUnique Order.id (orders s') id with
                    | None => (s', Rejected (PrismaError "P2025"))
                    | Some updated =>
                        (s', Json 200
                               (StatusBody (Order.id updated)
                                  (Order.orderNumber updated)
                                  (Order.status updated)
                                  (Order.qrScannedAt updated)))
                    end
                end
          end
      end
  end.

(** ** POST /api/v1/business/orders/:id/scan *)

(** [findUnique({ where: { qrCode } })]; the route's [:id] is not read. *)
Definition order_of_qrCode (s : Store) (qrCode : string) : option Order.t :=
  find (fun o => String.eqb (Order.qrCode o) qrCode) (orders s).

Definition scanOrder (s : Store) (sub : string) (qrCode : option string)
  (now : Z) : Store * Response :=
  if negb (truthy qrCode)
  then (s, Json 400 (ErrorBody "QR code is required"))
  else
    match restaurant_of_owner s sub with
    | None => (s, Json 404 (ErrorBody "Restaurant not found"))
    | Some restaurant =>
        match order_of_qrCode s (template qrCode) with
        | None => (s, Json 404 (ErrorBody "Invalid QR code"))
        | Some order =>
            if negb (String.eqb (Order.restaurantId order)
                       (Restaurant.id restaurant))
            then (s, Json 403 (ErrorBody "Order belongs to another restaurant"))
            else if negb (includes [paid; ready] (Order.status order))
            then (s, Json 400
                       (ErrorBody
                          (String.append "Order cannot be collected (status: "
                             (String.append
                                (status_string (Order.status order)) ")"))))
            else
              match order_update s (Order.id order) (Order_collect now) with
              | Throw e => (s, Rejected e)
              | Ok s' =>
                  (s', Json 200
                         (ScanBody (Order.id order) (Order.orderNumber order)
                            collected
                            (option_map User.name
                               (findUnique User.id (users s)
                                  (Order.userId order)))
                            (option_map Bag.title
                               (findUnique Bag.id (bags s)
                                  (Order.bagId order)))))
              end
        end
    end.

(** ** The payment routes *)

Definition deeplink (path : string) : Response :=
  Redirect (String.append APP_SCHEME path).

(** [restoreInventory(orderId)] *)
Definition restoreInventory (s : Store) (orderId : string) : result Store :=
  match findUnique Order.id (orders s) orderId with
  | Some order =>
      bag_update s (Order.bagId order) (Bag_restore (Order.quantity order))
  | None => Ok s
  end.

(** The three writes of the success transition, in the order of both
    transactions that make it. *)
Definition successTransaction (orderId paymentId userId : string)
  (quantity : Z) (f : Payment.t -> Payment.t)
  : list (Store -> result Store) :=
  [fun s => order_update s orderId (Order_status paid);
   fun s => payment_update s paymentId f;
   fun s => user_update s userId (User_award quantity)].

(** The store after the three writes. *)
Definition succeeded (s : Store) (orderId paymentId userId : string)
  (quantity : Z) (f : Payment.t -> Payment.t) : Store :=
  mkStore (bags s)
    (rewritten Order.id orderId (Order_status paid) (orders s))
    (rewritten Payment.id paymentId f (payments s))
    (rewritten User.id userId (User_award quantity) (users s))
    (restaurants s).

(** The handler's test on the polled status. *)
Definition isSuccessful (checkoutStatus : Yoco.YocoPaymentResponse) : bool :=
  String.eqb (Yoco.pay_status checkoutStatus) "successful".

Definition card_last4 (c : Yoco.YocoPaymentResponse) : option string :=
  match Yoco.pay_card c with
  | Some card => option_map slice_last4 (Yoco.maskedCard card)
  | None => None
  end.

Definition card_brand (c : Yoco.YocoPaymentResponse) : option string :=
  match Yoco.pay_card c with
  | Some card => Yoco.scheme card
  | None => None
  end.

(** GET /api/v1/payments/yoco/success *)
Definition yocoSuccess (s : Store) (orderId : option string) (now : Z)
  (get : string -> result Yoco.YocoPaymentResponse) : Store * Response :=
  if negb (truthy orderId)
  then (s, deeplink "payment/error?message=Missing order ID")
  else
    match findUnique Order.id (orders s) (template orderId) with
    | None => (s, deeplink "payment/error?message=Order not found")
    | Some order =>
        let pendingLink :=
          deeplink (String.append "payment/pending?orderId=" (Order.id order)) in
        match payment_of_order s (Order.id order) with
        | None => (s, pendingLink)
        | Some payment =>
            if negb (truthy (Payment.stripePaymentIntentId payment))
            then (s, pendingLink)
            else
              match Yoco.getCheckoutStatus get
                      (template (Payment.stripePaymentIntentId payment)) with
              | Throw _ =>
                  (s, deeplink "payment/error?message=Payment verification failed")
              | Ok checkoutStatus =>
                  if isSuccessful checkoutStatus
                  then
                    match transaction
                            (successTransaction (Order.id order)
                               (Payment.id payment) (Order.userId order)
                               (Order.quantity order)
                               (Payment_succeed_redirect now
                                  (card_last4 checkoutStatus)
                                  (card_brand checkoutStatus))) s with
                    | Ok s' =>
                        (s', deeplink
                               (String.append "payment/success?orderId="
                                  (String.append (Order.id order)
                                     (String.append "&orderNumber="
                                        (Order.orderNumber order)))))
                    | Throw _ =>
                        (s, deeplink
                              "payment/error?message=Payment verification failed")
                    end
                  else (s, pendingLink)
              end
        end
    end.

(** The body shared by GET /yoco/cancel and GET /yoco/failure: restore,
    then delete, each committed on its own; an error ends the block and is
    ignored. *)
Definition abandonOrder (s : Store) (orderId : option string) : Store :=
  if truthy orderId
  then
    match restoreInventory s (template orderId) with
    | Throw _ => s
    | Ok s1 =>
        match order_delete onDelete s1 (template orderId) with
        | Throw _ => s1
        | Ok s2 => s2
        end
    end
  else s.

(** GET /api/v1/payments/yoco/cancel *)
Definition yocoCancel (s : Store) (orderId : option string)
  : Store * Response :=
  (abandonOrder s orderId, deeplink "payment/cancelled").

(** GET /api/v1/payments/yoco/failure *)
Definition yocoFailure (s : Store) (orderId : option string)
  : Store * Response :=
  (abandonOrder s orderId, deeplink "payment/failed").

(** ** POST /api/v1/payments/yoco/webhook *)

Record Payload : Type := mkPayload {
  payload_id : option string;
  metadata_checkoutId : option string;
  failureReason : option string;
  paymentId : option string;
  refund_amount : option Z
}.

(** A request: the [yoco-signature] header, [JSON.stringify(req.body)], and
    the two fields read from the body. *)
Record WebhookRequest : Type := mkWebhook {
  signatureHeader : option string;
  rawBody : string;
  event_type : string;
  payload : Payload
}.

(** [findFirst({ where, include: { order: true } })]: the payment and its
    order. *)
Definition payment_with_order (s : Store) (w : Payment.t -> bool)
  : option (Payment.t * Order.t) :=
  match find w (payments s) with
  | Some payment =>
      match findUnique Order.id (orders s) (Payment.orderId payment) with
      | Some order => Some (payment, order)
      | None => None
      end
  | None => None
  end.

Definition paymentSucceeded (s : Store) (p : Payload) (now : Z)
  : result Store :=
  let checkoutId := js_or (metadata_checkoutId p) (payload_id p) in
  match payment_with_order s
          (fun x => where_eq (Payment.stripePaymentIntentId x) checkoutId) with
  | Some (payment, order) =>
      transaction
        (successTransaction (Payment.orderId payment) (Payment.id payment)
           (Order.userId order) (Order.quantity order)
           (Payment_succeed_webhook now (payload_id p))) s
  | None => Ok s
  end.

Definition paymentFailed (s : Store) (p : Payload) (now : Z) : result Store :=
  let checkoutId := js_or (metadata_checkoutId p) (payload_id p) in
  match payment_with_order s
          (fun x => where_eq (Payment.stripePaymentIntentId x) checkoutId) with
  | Some (payment, order) =>
      transaction
        [fun s => bag_update s (Order.bagId order)
                    (Bag_restore (Order.quantity order));
         fun s => payment_update s (Payment.id payment)
                    (Payment_fail now
                       (js_or (failureReason p) (Some "Payment failed")));
         fun s => order_delete onDelete s (Payment.orderId payment)] s
  | None => Ok s
  end.

Definition refundSucceeded (s : Store) (p : Payload) (now : Z)
  : result Store :=
  match payment_with_order s
          (fun x => where_eq (Payment.stripeChargeId x) (paymentId p)) with
  | Some (payment, order) =>
      transaction
        [fun s => bag_update s (Order.bagId order)
                    (Bag_restore (Order.quantity order));
         fun s => payment_update s (Payment.id payment)
                    (Payment_refund now (refund_amount p) (payload_id p));
         fun s => order_update s (Payment.orderId payment)
                    (Order_status refunded)] s
  | None => Ok s
  end.

(** The [try { switch (type) ... } catch] block: what the handler does with
    an event once the signature check has let it through. *)
Definition webhookEvent (s : Store) (type : string) (p : Payload) (now : Z)
  : Store * Response :=
  let applied :=
    if String.eqb type "payment.succeeded" then paymentSucceeded s p now
    else if String.eqb type "payment.failed" then paymentFailed s p now
    else if String.eqb type "refund.succeeded" then refundSucceeded s p now
    else Ok s in
  match applied with
  | Ok s' => (s', Json 200 ReceivedBody)
  | Throw _ => (s, Json 500 (ErrorBody "Webhook processing failed"))
  end.

(** The handler.  The adapter's check is called with three arguments: the
    body, the signature, and the secret in the place of [webhookId]. *)
Definition yocoWebhook (s : Store) (req : WebhookRequest) (now : Z)
  : Store * Response :=
  if negb (truthy YOCO_WEBHOOK_SECRET)
  then (s, Json 500 (ErrorBody "Webhook not configured"))
  else if negb (truthy (signatureHeader req))
  then (s, Json 401 (ErrorBody "Missing signature"))
  else
    match Yoco.verifyWebhookSignature base64Decode hmacSha256Base64
            (rawBody req) (template (signatureHeader req))
            YOCO_WEBHOOK_SECRET None None with
    | Throw e => (s, Rejected e)
    | Ok isValid =>
        if negb isValid
        then (s, Json 401 (ErrorBody "Invalid signature"))
        else webhookEvent s (event_type req) (payload req) now
    end.

End Handlers.

(** ** The handlers as one transition system *)

Inductive Op : Type :=
| CreateOrder (sub bagId : string) (quantity : option Z) (now : Z)
    (newId orderNumber qrCode paymentId : string)
    (post : Yoco.CheckoutRequest -> result Yoco.YocoCheckoutResponse)
| CancelOrder (sub id : string) (reason : option string) (now : Z)
| UpdateOrderStatus (sub id status : string) (now : Z)
| ScanOrder (sub : string) (qrCode : option string) (now : Z)
| YocoSuccess (orderId : option string) (now : Z)
    (get : string -> result Yoco.YocoPaymentResponse)
| YocoCancel (orderId : option string)
| YocoFailure (orderId : option string)
| YocoWebhook (req : WebhookRequest) (now : Z)
| WebhookEvent (type : string) (p : Payload) (now : Z).

Section Machine.

Variable APP_URL : string.
Variable APP_SCHEME : string.
Variable YOCO_WEBHOOK_SECRET : option string.
Variable onDelete : ReferentialAction.
Variable base64Decode : string -> string.
Variable hmacSha256Base64 : string -> string -> string.

Definition handle (s : Store) (op : Op) : Store * Response :=
  match op with
  | CreateOrder sub bagId quantity now newId orderNumber qrCode paymentId post =>
      createOrder APP_URL onDelete s sub bagId quantity now newId orderNumber
        qrCode paymentId post
  | CancelOrder sub id reason now => cancelOrder s sub id reason now
  | UpdateOrderStatus sub id status now => updateOrderStatus s sub id status now
  | ScanOrder sub qrCode now => scanOrder s sub qrCode now
  | YocoSuccess orderId now get => yocoSuccess APP_SCHEME s orderId now get
  | YocoCancel orderId => yocoCancel APP_SCHEME onDelete s orderId
  | YocoFailure orderId => yocoFailure APP_SCHEME onDelete s orderId
  | YocoWebhook req now =>
      yocoWebhook YOCO_WEBHOOK_SECRET onDelete base64Decode hmacSha256Base64
        s req now
  | WebhookEvent type p now => webhookEvent onDelete s type p now
  end.

Definition step (s : Store) (op : Op) : Store := fst (handle s op).

Definition run (s : Store) (ops : list Op) : Store := fold_left step ops s.

End Machine.

(** The listing invariant [0 <= quantityRemaining <= quantityTotal]. *)
Definition bag_in_boundsb (b : Bag.t) : bool :=
  (0 <=? Bag.quantityRemaining b)
  && (Bag.quantityRemaining b <=? Bag.quantityTotal b).

(** What every sequence of handlers keeps: listing ids are unique, no
    listing has a negative remaining quantity, no order a negative
    quantity. *)
Definition stock_sound (s : Store) : Prop :=
  NoDup (map Bag.id (bags s))
  /\ Forall (fun b => 0 <= Bag.quantityRemaining b) (bags s)
  /\ Forall (fun o => 0 <= Order.quantity o) (orders s).

(** An operation of a transaction that keeps it. *)
Definition keeps_sound (op : Store -> result Store) : Prop :=
  forall s s', stock_sound s -> op s = Ok s' -> stock_sound s'.

Definition remaining_of (s : Store) (bagId : string) : option Z :=
  option_map Bag.quantityRemaining (findUnique Bag.id (bags s) bagId).

Definition loyalty_of (s : Store) (userId : string) : option Z :=
  option_map User.loyaltyPoints (findUnique User.id (users s) userId).

Definition status_of (s : Store) (orderId : string) : option OrderStatus :=
  option_map Order.status (findUnique Order.id (orders s) orderId).

Definition payment_status_of (s : Store) (orderId : string)
  : option PaymentStatus :=
  option_map Payment.status (payment_of_order s orderId).

(** ** A small marketplace for the scenarios *)

Module Scenario.

Definition APP_URL : string := "http://localhost:3000".
Definition APP_SCHEME : string := "savr://".

Definition bag (total remaining : Z) : Bag.t :=
  Bag.mk "bag-1" "rest-1" "Surprise bag" 4500 total remaining 1000 2000 true
    (remaining <=? 0).

Definition buyer : User.t := User.mk "user-1" "buyer@example.com" "Buyer" 0.
Definition owner : User.t := User.mk "owner-1" "owner@example.com" "Owner" 0.
Definition rival : User.t := User.mk "owner-2" "rival@example.com" "Rival" 0.
Definition deli : Restaurant.t := Restaurant.mk "rest-1" "owner-1" "Deli".
Definition bakery : Restaurant.t :=
  Restaurant.mk "rest-2" "owner-2" "Bakery".

(** One listing with [remaining] of [total] bags left, no order yet. *)
Definition market (total remaining : Z) : Store :=
  mkStore [bag total remaining] [] [] [buyer; owner; rival] [deli; bakery].

Definition gatewayDown (_ : Yoco.CheckoutRequest)
  : result Yoco.YocoCheckoutResponse := Throw GatewayError.

Definition gatewayUp (_ : Yoco.CheckoutRequest)
  : result Yoco.YocoCheckoutResponse :=
  Ok (Yoco.mkCheckout "chk-1" "https://pay.example/chk-1" "created").

(** The buyer orders [q] bags at time 1500. *)
Definition order1 (q : Z)
  (post : Yoco.CheckoutRequest -> result Yoco.YocoCheckoutResponse) : Op :=
  CreateOrder "user-1" "bag-1" (Some q) 1500 "order-1" "KULA-ABC234"
    "SAVR-0001" "pay-1" post.

(** The order row that request creates. *)
Definition placed (q : Z) : Order.t :=
  Order.mk "order-1" "KULA-ABC234" "user-1" "bag-1" "rest-1" q (4500 * q) 250
    (4500 * q + 250) pending 1000 2000 "SAVR-0001" None None None None.

(** The provider's event for that checkout. *)
Definition event1 : Payload :=
  mkPayload (Some "yoco-pay-1") (Some "chk-1") None None None.

Definition polled (status : string) (_ : string)
  : result Yoco.YocoPaymentResponse :=
  Ok (Yoco.mkPayment "chk-1" status None).

Definition signedRequest (signature : string) : WebhookRequest :=
  mkWebhook (Some signature) "{}" "payment.succeeded" event1.

(** The last bag ordered and the checkout opened: the order is pending. *)
Definition ordered : Store :=
  fst (createOrder APP_URL Cascade (market 1 1) "user-1" "bag-1" (Some 1)
         1500 "order-1" "KULA-ABC234" "SAVR-0001" "pay-1" gatewayUp).

(** The owner marks that order ready (the route asks nothing of its
    status). *)
Definition readied : Store :=
  fst (updateOrderStatus ordered "owner-1" "order-1" "ready" 1600).

(** The payment row of that checkout. *)
Definition opened : Payment.t :=
  Payment.mk "pay-1" "order-1" 4750 "card" p_pending (Some "chk-1") None None
    None None None None None None None.

(** A store in which that order is paid: the payment.succeeded case of the
    webhook, the block behind its signature check, applied to it. *)
Definition paidFor : Store :=
  fst (webhookEvent Cascade ordered "payment.succeeded" event1 1700).

End Scenario.

(** ** Order numbers (generateOrderNumber) *)

Definition chars : string := "ABCDEFGHJKLMNPQRSTUVWXYZ23456789".

(** [s.charAt(i)]: the empty string out of range. *)
Definition charAt (s : string) (i : nat) : string :=
  match String.get i s with
  | Some c => String c EmptyString
  | None => EmptyString
  end.

(** [random i] is [Math.floor(Math.random() * chars.length)] as drawn in
    the iteration [i] of the loop. *)
Definition generateOrderNumber (random : nat -> nat) : string :=
  fold_left (fun result i => String.append result (charAt chars (random i)))
    (seq 0 6) "KULA-".

(** ** The authentication middleware *)

Module Auth.

Inductive UserRole : Type := consumer | business | admin.

Definition UserRole_eqb (a b : UserRole) : bool :=
  match a, b with
  | consumer, consumer | business, business | admin, admin => true
  | _, _ => false
  end.

Record JwtPayload : Type := mkJwt {
  sub : string;
  email : string;
  role : UserRole;
  restaurantId : option string
}.

(** What a middleware does: it answers itself, or it calls [next] with the
    user it has put on the request, if any. *)
Inductive Outcome : Type :=
| Responds (status : Z) (error : string)
| Next (user : option JwtPayload).

Section Middleware.

(** [verifyAccessToken] of utils/jwt: [jwt.verify] with the access secret,
    which throws on a token it does not accept. *)
Variable verifyAccessToken : string -> result JwtPayload.

(** The [catch] of [authenticate]. *)
Definition caught (e : Error) : Outcome :=
  match e with
  | ApiError message statusCode => Responds statusCode message
  | _ => Responds 401 "Invalid or expired token"
  end.

Definition authenticate (authorization : option string) : Outcome :=
  match authorization with
  | Some authHeader =>
      if negb (truthy authorization)
         || negb (String.prefix "Bearer " authHeader)
      then caught (ApiError "No token provided" 401)
      else
        match nth_error (split " " authHeader) 1 with
        | Some token =>
            match verifyAccessToken token with
            | Ok payload => Next (Some payload)
            | Throw e => caught e
            end
        | None => caught (TypeError "jwt must be provided")
        end
  | None => caught (ApiError "No token provided" 401)
  end.

(** [requireRole(...roles)] on the user left by [authenticate]. *)
Definition requireRole (roles : list UserRole) (user : option JwtPayload)
  : Outcome :=
  match user with
  | None => Responds 401 "Authentication required"
  | Some u =>
      if negb (existsb (UserRole_eqb (role u)) roles)
      then Responds 403 "Insufficient permissions"
      else Next user
  end.

Definition optionalAuth (authorization : option string) : Outcome :=
  match authorization with
  | Some authHeader =>
      if truthy authorization && String.prefix "Bearer " authHeader
      then
        match nth_error (split " " authHeader) 1 with
        | Some token =>
            match verifyAccessToken token with
            | Ok payload => Next (Some payload)
            | Throw _ => Next None
            end
        | None => Next None
        end
      else Next None
  | None => Next None
  end.

(** [router.use(authenticate, requireRole('business'))] of the business
    routes. *)
Definition businessGuard (authorization : option string) : Outcome :=
  match authenticate authorization with
  | Next user => requireRole [business] user
  | Responds status error => Responds status error
  end.

End Middleware.

End Auth.

(** ** GET /api/v1/payments/status/:orderId *)

Inductive StatusAnswer : Type :=
| StatusError (status : Z) (error : string)
| StatusData (orderId orderNumber : string) (orderStatus : OrderStatus)
    (paymentStatus : PaymentStatus) (paidAt : option Z).

Definition getPaymentStatus (s : Store) (sub orderId : string) : StatusAnswer :=
  match findUnique Order.id (orders s) orderId with
  | None => StatusError 404 "Order not found"
  | Some order =>
      if negb (String.eqb (Order.userId order) sub)
      then StatusError 403 "Not authorized"
      else
        let payment := payment_of_order s (Order.id order) in
        StatusData (Order.id order) (Order.orderNumber order)
          (Order.status order)
          (match payment with
           | Some p => Payment.status p
           | None => p_pending
           end)
          (match payment with
           | Some p => Payment.paidAt p
           | None => None
           end)
  end.

(** ** Pagination of the order listings *)

(** [paginationSchema] on numbers: [limit] from 1 to 100, 20 when absent,
    [page] at least 1, 1 when absent.  (The coercion of the query strings
    is not modelled.) *)
Definition validate_pagination (limit page : option Z) : option (Z * Z) :=
  let l := match limit with Some l => l | None => 20 end in
  let p := match page with Some p => p | None => 1 end in
  if (1 <=? l) && (l <=? 100) && (1 <=? p) then Some (l, p) else None.

(** [take: limit, skip: (page - 1) * limit] on the rows a query matches,
    in its order, for a limit and a page that are positive. *)
Definition pageRows {A : Type} (rows : list A) (limit page : Z) : list A :=
  firstn (Z.to_nat limit) (skipn (Z.to_nat ((page - 1) * limit)) rows).

(** [hasMore: page * limit < total], [total] being the count of the rows
    the same query matches. *)
Definition hasMore {A : Type} (rows : list A) (limit page : Z) : bool :=
  page * limit <? Z.of_nat (List.length rows).

(** ** The figures of GET /api/v1/business/analytics *)

Record Summary : Type := mkSummary {
  totalOrders : Z;
  completedOrders : Z;
  cancelledOrders : Z;
  totalRevenue : Z;
  platformFees : Z;
  netRevenue : Z
}.

Definition is_collected (o : Order.t) : bool :=
  OrderStatus_eqb (Order.status o) collected.

(** [list.reduce((sum, o) => sum + f(o), 0)] *)
Definition reduce_sum (f : Order.t -> Z) (l : list Order.t) : Z :=
  fold_left (fun sum o => sum + f o) l 0.

(** The summary computed from the orders the query returned (all but
    [avgOrderValue] and [avgRating], which are floating-point figures). *)
Definition analyticsSummary (orders : list Order.t) : Summary :=
  let totalRevenue := reduce_sum Order.total (filter is_collected orders) in
  let platformFees :=
    reduce_sum Order.platformFee (filter is_collected orders) in
  mkSummary (Z.of_nat (List.length orders))
    (Z.of_nat (List.length (filter is_collected orders)))
    (Z.of_nat
       (List.length
          (filter (fun o => includes [cancelled; refunded] (Order.status o))
             orders)))
    totalRevenue platformFees (totalRevenue - platformFees).

(** ** Stock held by orders *)

(** An order that has not been cancelled or refunded holds its bags. *)
Definition holds_stock (o : Order.t) : bool :=
  negb (includes [cancelled; refunded] (Order.status o)).

(** The bags of listing [bagId] that one order holds. *)
Definition holding (bagId : string) (o : Order.t) : Z :=
  if String.eqb (Order.bagId o) bagId && holds_stock o
  then Order.quantity o
  else 0.

Definition sum_holding (bagId : string) (l : list Order.t) : Z :=
  fold_right (fun o sum => holding bagId o + sum) 0 l.

(** The bags of a listing held by its orders. *)
Definition held (s : Store) (bagId : string) : Z :=
  sum_holding bagId (orders s).

(** From [s] to [s'], what listing [bagId] has left plus what its orders
    hold has not grown. *)
Definition conserved (bagId : string) (s s' : Store) : Prop :=
  forall r,
    remaining_of s bagId = Some r ->
    exists r',
      remaining_of s' bagId = Some r'
      /\ r' + held s' bagId <= r + held s bagId.

(** Ordering, the buyer's cancel, the pickup scan and the webhook
    endpoint. *)
Definition conserving (op : Op) : bool :=
  match op with
  | CreateOrder _ _ _ _ _ _ _ _ _ => true
  | CancelOrder _ _ _ _ => true
  | ScanOrder _ _ _ => true
  | YocoWebhook _ _ => true
  | _ => false
  end.

Definition ledger_sound (s : Store) : Prop :=
  stock_sound s /\ NoDup (map Order.id (orders s)).

(** ** Helpers of the statements *)

(** Whether a character occurs in a string. *)
Fixpoint contains (c : ascii) (s : string) : bool :=
  match s with
  | EmptyString => false
  | String x s' => Ascii.eqb x c || contains c s'
  end.

Section Expected.

Variable base64Decode : string -> string.
Variable hmacSha256Base64 : string -> string -> string.

(** The [expectedSignature] of [verifyWebhookSignature]. *)
Definition expectedSignature (payload : string)
  (webhookId webhookTimestamp : option string) (secret : string) : string :=
  hmacSha256Base64 (base64Decode (replace_first "whsec_" "" secret))
    (String.append (template webhookId)
       (String.append "."
          (String.append (template webhookTimestamp)
             (String.append "." payload)))).

End Expected.

(** The cancel redirect followed [n] times. *)
Fixpoint abandoned (onDelete : ReferentialAction) (n : nat) (s : Store)
  (orderId : option string) : Store :=
  match n with
  | O => s
  | S n' => abandonOrder onDelete (abandoned onDelete n' s orderId) orderId
  end.

(** An operation of a transaction that keeps a property of the store. *)
Definition keeps (I : Store -> Prop) (op : Store -> result Store) : Prop :=
  forall s s', I s -> op s = Ok s' -> I s'.

(** The pricing of an order as the reservation writes it. *)
Definition priced (o : Order.t) : Prop :=
  Order.platformFee o = 250
  /\ Order.total o = Order.subtotal o + 250
  /\ 1 <= Order.quantity o <= 10.

(** Two rows of one order: all that the reservation wrote but the status,
    the scan time and the cancellation fields. *)
Definition same_frozen (o o' : Order.t) : Prop :=
  Order.id o' = Order.id o
  /\ Order.orderNumber o' = Order.orderNumber o
  /\ Order.userId o' = Order.userId o
  /\ Order.bagId o' = Order.bagId o
  /\ Order.restaurantId o' = Order.restaurantId o
  /\ Order.quantity o' = Order.quantity o
  /\ Order.subtotal o' = Order.subtotal o
  /\ Order.platformFee o' = Order.platformFee o
  /\ Order.total o' = Order.total o
  /\ Order.pickupStart o' = Order.pickupStart o
  /\ Order.pickupEnd o' = Order.pickupEnd o
  /\ Order.qrCode o' = Order.qrCode o.

(** The order row that a request to POST /api/v1/orders writes: its id,
    number, buyer, listing, code and validated quantity are the request's,
    and it is priced as the reservation prices. *)
Definition placed_by (op : Op) (o : Order.t) : Prop :=
  match op with
  | CreateOrder sub bagId quantity _ newId orderNumber qrCode _ _ =>
      Order.id o = newId
      /\ Order.orderNumber o = orderNumber
      /\ Order.userId o = sub
      /\ Order.bagId o = bagId
      /\ Order.qrCode o = qrCode
      /\ validate_quantity quantity = Some (Order.quantity o)
      /\ priced o
  | _ => False
  end.

(** * Properties *)

(** Splits a goal on the operations of a transaction, one goal each. *)
Ltac each_operation :=
  repeat first [apply Forall_nil | apply Forall_cons].

(** ** Facts about tables *)

Section TableFacts.

Context {R : Type}.
Variable key : R -> string.

Lemma has_key_eq (k : string) (r : R) : has_key key k r = true <-> key r = k.
Proof. unfold has_key. apply String.eqb_eq. Qed.

Lemma findUnique_key (t : list R) (k : string) (r : R) :
  findUnique key t k = Some r -> key r = k.
Proof.
  unfold findUnique. intros H.
  apply find_some in H. apply has_key_eq, H.
Qed.

Lemma findUnique_In (t : list R) (k : string) (r : R) :
  findUnique key t k = Some r -> In r t.
Proof. unfold findUnique. intros H. apply find_some in H. apply H. Qed.

Lemma find_existsb (w : R -> bool) (t : list R) :
  existsb w t = match find w t with Some _ => true | None => false end.
Proof.
  induction t as [|x t IH]; simpl; [reflexivity|].
  destruct (w x); simpl; [reflexivity | exact IH].
Qed.

Lemma findUnique_existsb (t : list R) (k : string) (r : R) :
  findUnique key t k = Some r -> existsb (has_key key k) t = true.
Proof. unfold findUnique. intros H. rewrite find_existsb, H. reflexivity. Qed.

Lemma find_map_stable (w : R -> bool) (g : R -> R) (t : list R) :
  (forall x, w (g x) = w x) ->
  find w (map g t) = option_map g (find w t).
Proof.
  intros Hw. induction t as [|x t IH]; simpl; [reflexivity|].
  rewrite Hw. destruct (w x); simpl; [reflexivity | exact IH].
Qed.

Lemma existsb_map_stable (w : R -> bool) (g : R -> R) (t : list R) :
  (forall x, w (g x) = w x) ->
  existsb w (map g t) = existsb w t.
Proof.
  intros Hw. induction t as [|x t IH]; simpl; [reflexivity|].
  rewrite Hw, IH. reflexivity.
Qed.

Lemma update_found (t : list R) (k : string) (f : R -> R) :
  existsb (has_key key k) t = true ->
  update key t k f = Ok (rewritten key k f t).
Proof. unfold update. intros ->. reflexivity. Qed.

Lemma update_missing (t : list R) (k : string) (f : R -> R) :
  existsb (has_key key k) t = false ->
  update key t k f = Throw (PrismaError "P2025").
Proof. unfold update. intros ->. reflexivity. Qed.

Lemma update_inv (t t' : list R) (k : string) (f : R -> R) :
  update key t k f = Ok t' ->
  existsb (has_key key k) t = true /\ t' = rewritten key k f t.
Proof.
  unfold update.
  destruct (existsb (has_key key k) t); intros H; inversion H; auto.
Qed.

Section KeyPreserved.

Variable f : R -> R.
Hypothesis f_key : forall r, key (f r) = key r.

Lemma rewritten_has_key (k k' : string) (r : R) :
  has_key key k' (if has_key key k r then f r else r) = has_key key k' r.
Proof. unfold has_key. destruct (String.eqb (key r) k); rewrite ?f_key; reflexivity. Qed.

Lemma findUnique_rewritten (t : list R) (k : string) :
  findUnique key (rewritten key k f t) k = option_map f (findUnique key t k).
Proof.
  unfold findUnique, rewritten.
  rewrite find_map_stable by (intros x; apply rewritten_has_key).
  destruct (find (has_key key k) t) as [r|] eqn:E; simpl; [|reflexivity].
  apply find_some in E. destruct E as [_ E]. rewrite E. reflexivity.
Qed.

Lemma existsb_rewritten (t : list R) (k k' : string) :
  existsb (has_key key k') (rewritten key k f t) = existsb (has_key key k') t.
Proof.
  unfold rewritten. apply existsb_map_stable. intros x. apply rewritten_has_key.
Qed.

End KeyPreserved.

Lemma rewritten_twice (k : string) (f g : R -> R) (t : list R) :
  (forall r, key (f r) = key r) ->
  rewritten key k g (rewritten key k f t) = rewritten key k (fun r => g (f r)) t.
Proof.
  intros Hf. unfold rewritten. rewrite map_map. apply map_ext. intros r.
  destruct (has_key key k r) eqn:E; [|rewrite E; reflexivity].
  unfold has_key in *. rewrite Hf, E. reflexivity.
Qed.

Lemma rewritten_ext (k : string) (f g : R -> R) (t : list R) :
  (forall r, f r = g r) -> rewritten key k f t = rewritten key k g t.
Proof.
  intros H. unfold rewritten. apply map_ext. intros r. rewrite H. reflexivity.
Qed.

End TableFacts.

Lemma Bag_reserve_id (bag : Bag.t) (q : Z) (b : Bag.t) :
  Bag.id (Bag_reserve bag q b) = Bag.id b.
Proof. reflexivity. Qed.

Lemma Bag_restore_id (q : Z) (b : Bag.t) : Bag.id (Bag_restore q b) = Bag.id b.
Proof. reflexivity. Qed.

Lemma Order_set_id st a b c d (o : Order.t) :
  Order.id (Order_set st a b c d o) = Order.id o.
Proof. reflexivity. Qed.

Lemma User_award_id (n : Z) (u : User.t) : User.id (User_award n u) = User.id u.
Proof. reflexivity. Qed.

(** ** Reservation (POST /api/v1/orders) *)

Lemma bag_update_found (s : Store) (id : string) (f : Bag.t -> Bag.t) :
  existsb (has_key Bag.id id) (bags s) = true ->
  bag_update s id f = Ok (with_bags s (rewritten Bag.id id f (bags s))).
Proof.
  intros H. unfold bag_update. rewrite (update_found _ _ _ _ H). reflexivity.
Qed.

Lemma order_create_fresh (s : Store) (o : Order.t) :
  existsb (has_key Order.id (Order.id o)) (orders s) = false ->
  existsb (fun o' => String.eqb (Order.orderNumber o') (Order.orderNumber o))
    (orders s) = false ->
  existsb (fun o' => String.eqb (Order.qrCode o') (Order.qrCode o)) (orders s)
    = false ->
  order_create s o = Ok (with_orders s (orders s ++ [o])).
Proof.
  intros Hid Hnum Hqr. unfold order_create, create.
  rewrite Hnum, Hqr, Hid. reflexivity.
Qed.

(** C8 (as the code has it).  The reservation of POST /api/v1/orders makes
    its checks in a fixed order and the first that fails decides the
    error: ApiError 404 'Bag not found' when no listing has the id
    (NotFound); else ApiError 400 'Bag is not available' when the listing
    is inactive or flagged sold out (Unavailable); else ApiError 400 'Not
    enough bags available' when the quantity exceeds [quantityRemaining]
    (InsufficientStock); else ApiError 400 'Pickup window has ended' when
    the clock is past [pickupEnd] (Unavailable).  Before [pickupEnd], with
    a fresh order id, order number and QR code, it succeeds: the listing's
    [quantityRemaining] is decremented by the quantity, its sold-out flag
    is set exactly when the new remaining is zero, and an order in status
    [pending] is appended; payments and users are untouched.  The handler
    answers an error of the reservation with that error and the store as it
    was; and when the reservation succeeds and the provider opens the
    checkout, the store the handler leaves is the reservation's store (the
    decremented listing, the pending order) with the pending payment, and
    the answer is 201 with that order. *)
Theorem reserve_outcomes :
  forall (s : Store) (sub bagId : string) (q now : Z)
         (newId orderNumber qrCode : string),
  let tx := reserveTransaction s sub bagId q now newId orderNumber qrCode in
  (findUnique Bag.id (bags s) bagId = None ->
   tx = Throw (ApiError "Bag not found" 404))
  /\ (forall bag, findUnique Bag.id (bags s) bagId = Some bag ->
      (Bag.isActive bag = false \/ Bag.isSoldOut bag = true ->
       tx = Throw (ApiError "Bag is not available" 400))
      /\ (Bag.isActive bag = true -> Bag.isSoldOut bag = false ->
          Bag.quantityRemaining bag < q ->
          tx = Throw (ApiError "Not enough bags available" 400))
      /\ (Bag.isActive bag = true -> Bag.isSoldOut bag = false ->
          q <= Bag.quantityRemaining bag -> Bag.pickupEnd bag < now ->
          tx = Throw (ApiError "Pickup window has ended" 400))
      /\ (Bag.isActive bag = true -> Bag.isSoldOut bag = false ->
          q <= Bag.quantityRemaining bag -> now < Bag.pickupEnd bag ->
          existsb (has_key Order.id newId) (orders s) = false ->
          existsb (fun o => String.eqb (Order.orderNumber o) orderNumber)
            (orders s) = false ->
          existsb (fun o => String.eqb (Order.qrCode o) qrCode) (orders s)
            = false ->
          exists r updated,
            tx = Ok r
            /\ findUnique Bag.id (bags (r_store r)) bagId = Some updated
            /\ Bag.quantityRemaining updated = Bag.quantityRemaining bag - q
            /\ (Bag.isSoldOut updated = true <->
                Bag.quantityRemaining updated = 0)
            /\ bags (r_store r)
               = rewritten Bag.id bagId (Bag_reserve bag q) (bags s)
            /\ orders (r_store r) = orders s ++ [r_order r]
            /\ Order.status (r_order r) = pending
            /\ Order.quantity (r_order r) = q
            /\ Order.bagId (r_order r) = bagId
            /\ Order.id (r_order r) = newId
            /\ payments (r_store r) = payments s
            /\ users (r_store r) = users s))
  /\ (forall APP_URL onDelete quantity paymentId post,
      validate_quantity quantity = Some q ->
      (forall e,
         tx = Throw e ->
         createOrder APP_URL onDelete s sub bagId quantity now newId
           orderNumber qrCode paymentId post = (s, Rejected e))
      /\ (forall r checkout,
            tx = Ok r ->
            post
              (Yoco.requestBody
                 (checkoutParams APP_URL r
                    (option_map Restaurant.name
                       (findUnique Restaurant.id (restaurants s)
                          (Bag.restaurantId (r_bag r))))))
            = Ok checkout ->
            existsb (has_key Payment.id paymentId) (payments (r_store r))
            = false ->
            exists payment,
              createOrder APP_URL onDelete s sub bagId quantity now newId
                orderNumber qrCode paymentId post
              = (with_payments (r_store r)
                   (payments (r_store r) ++ [payment]),
                 Json 201
                   (CheckoutBody (r_order r) (Yoco.id checkout)
                      (Yoco.redirectUrl checkout)))
              /\ Payment.orderId payment = Order.id (r_order r)
              /\ Payment.status payment = p_pending)).
Proof.
  intros s sub bagId q now newId orderNumber qrCode tx. subst tx.
  split; [|split].
  - intros Hnone. unfold reserveTransaction. rewrite Hnone. reflexivity.
  - intros bag Hbag. unfold reserveTransaction. rewrite Hbag.
    split; [|split; [|split]].
    + intros [Ha | Hs]; rewrite ?Ha, ?Hs; simpl;
        [reflexivity | rewrite orb_true_r; reflexivity].
    + intros Ha Hs Hq. rewrite Ha, Hs. simpl.
      apply Z.ltb_lt in Hq. rewrite Hq. reflexivity.
    + intros Ha Hs Hq Hw. rewrite Ha, Hs. simpl.
      apply Z.ltb_ge in Hq. rewrite Hq.
      apply Z.ltb_lt in Hw. rewrite Hw. reflexivity.
    + intros Ha Hs Hq Hw Hid Hnum Hqr. rewrite Ha, Hs. simpl.
      assert (Hq' := Hq). apply Z.ltb_ge in Hq'. rewrite Hq'.
      assert (Hw' : (Bag.pickupEnd bag <? now) = false)
        by (apply Z.ltb_ge; lia).
      rewrite Hw'.
      rewrite (bag_update_found _ _ _ (findUnique_existsb _ _ _ _ Hbag)).
      cbn [bind with_bags bags].
      rewrite (findUnique_rewritten Bag.id _ (Bag_reserve_id bag q)), Hbag.
      cbn [option_map].
      assert (Hneg : (Bag.quantityRemaining (Bag_reserve bag q bag) <? 0)
                     = false)
        by (apply Z.ltb_ge; simpl; lia).
      rewrite Hneg.
      rewrite order_create_fresh by (cbn; assumption).
      cbn [bind].
      eexists. exists (Bag_reserve bag q bag).
      split; [reflexivity|].
      cbn [r_store r_order with_orders with_bags bags orders payments users].
      rewrite (findUnique_rewritten Bag.id _ (Bag_reserve_id bag q)), Hbag.
      repeat split; try reflexivity.
      * simpl. intros H. apply Z.leb_le in H. lia.
      * simpl. intros H. apply Z.leb_le. lia.
      * simpl. apply (findUnique_key Bag.id _ _ _ Hbag).
  - intros APP_URL onDelete quantity paymentId post Hv. split.
    + intros e He. unfold createOrder. rewrite Hv, He. reflexivity.
    + intros r checkout Hr Hpost Hfresh.
      exists (pendingPayment paymentId r
                (Yoco.mkCheckout (Yoco.id checkout) (Yoco.redirectUrl checkout)
                   (Yoco.status checkout))).
      split; [|split; reflexivity].
      unfold createOrder. rewrite Hv, Hr.
      unfold Yoco.createCheckout. rewrite Hpost. cbn [bind].
      unfold payment_create, create.
      cbn [pendingPayment Payment.id]. rewrite Hfresh. reflexivity.
Qed.

Lemma reserve_outcomes_witness :
  reserveTransaction (Scenario.market 2 2) "user-1" "bag-9" 1 1500 "order-1"
    "KULA-ABC234" "SAVR-0001" = Throw (ApiError "Bag not found" 404)
  /\ reserveTransaction (Scenario.market 2 0) "user-1" "bag-1" 1 1500 "order-1"
       "KULA-ABC234" "SAVR-0001" = Throw (ApiError "Bag is not available" 400)
  /\ reserveTransaction (Scenario.market 2 2) "user-1" "bag-1" 3 1500 "order-1"
       "KULA-ABC234" "SAVR-0001"
     = Throw (ApiError "Not enough bags available" 400)
  /\ reserveTransaction (Scenario.market 2 2) "user-1" "bag-1" 1 2500 "order-1"
       "KULA-ABC234" "SAVR-0001"
     = Throw (ApiError "Pickup window has ended" 400)
  /\ (exists r updated,
        reserveTransaction (Scenario.market 2 2) "user-1" "bag-1" 2 1500
          "order-1" "KULA-ABC234" "SAVR-0001" = Ok r
        /\ findUnique Bag.id (bags (r_store r)) "bag-1" = Some updated
        /\ Bag.quantityRemaining updated = 0
        /\ Bag.isSoldOut updated = true
        /\ Order.status (r_order r) = pending)
  /\ createOrder Scenario.APP_URL Cascade (Scenario.market 2 2) "user-1"
       "bag-1" (Some 3) 1500 "order-1" "KULA-ABC234" "SAVR-0001" "pay-1"
       Scenario.gatewayUp
     = (Scenario.market 2 2,
        Rejected (ApiError "Not enough bags available" 400))
  /\ (exists payment,
        createOrder Scenario.APP_URL Cascade (Scenario.market 2 2) "user-1"
          "bag-1" (Some 2) 1500 "order-1" "KULA-ABC234" "SAVR-0001" "pay-1"
          Scenario.gatewayUp
        = (mkStore [Scenario.bag 2 0] [Scenario.placed 2] [payment]
             [Scenario.buyer; Scenario.owner; Scenario.rival]
             [Scenario.deli; Scenario.bakery],
           Json 201
             (CheckoutBody (Scenario.placed 2) "chk-1"
                "https://pay.example/chk-1"))
        /\ Payment.orderId payment = "order-1"
        /\ Payment.status payment = p_pending).
Proof.
  split; [|split; [|split; [|split; [|split; [|split]]]]].
  - apply (reserve_outcomes (Scenario.market 2 2)). reflexivity.
  - apply (proj2 (reserve_outcomes (Scenario.market 2 0) "user-1" "bag-1" 1
                    1500 "order-1" "KULA-ABC234" "SAVR-0001"))
      with (bag := Scenario.bag 2 0); [reflexivity | right; reflexivity].
  - apply (proj2 (reserve_outcomes (Scenario.market 2 2) "user-1" "bag-1" 3
                    1500 "order-1" "KULA-ABC234" "SAVR-0001"))
      with (bag := Scenario.bag 2 2); try reflexivity.
  - apply (proj2 (reserve_outcomes (Scenario.market 2 2) "user-1" "bag-1" 1
                    2500 "order-1" "KULA-ABC234" "SAVR-0001"))
      with (bag := Scenario.bag 2 2); try reflexivity; simpl; lia.
  - destruct (proj2 (reserve_outcomes (Scenario.market 2 2) "user-1" "bag-1" 2
                       1500 "order-1" "KULA-ABC234" "SAVR-0001"))
      as [H _].
    destruct (H (Scenario.bag 2 2) eq_refl) as [_ [_ [_ Hok]]].
    destruct Hok as [r [u [Hr [Hu [Hrem [Hsold [_ [_ [Hst _]]]]]]]]];
      try reflexivity; try (simpl; lia).
    exists r, u. repeat split; try assumption.
    apply Hsold. rewrite Hrem. reflexivity.
  - apply (proj2 (proj2 (reserve_outcomes (Scenario.market 2 2) "user-1"
                           "bag-1" 3 1500 "order-1" "KULA-ABC234"
                           "SAVR-0001")) Scenario.APP_URL Cascade (Some 3)
             "pay-1" Scenario.gatewayUp eq_refl); reflexivity.
  - destruct (proj2 (proj2 (reserve_outcomes (Scenario.market 2 2) "user-1"
                              "bag-1" 2 1500 "order-1" "KULA-ABC234"
                              "SAVR-0001")) Scenario.APP_URL Cascade (Some 2)
                "pay-1" Scenario.gatewayUp eq_refl) as [_ Hok].
    destruct (Hok (mkReservation
                     (mkStore [Scenario.bag 2 0] [Scenario.placed 2] []
                        [Scenario.buyer; Scenario.owner; Scenario.rival]
                        [Scenario.deli; Scenario.bakery])
                     (Scenario.placed 2) (Scenario.bag 2 2)
                     (Some Scenario.buyer) 9250)
                (Yoco.mkCheckout "chk-1" "https://pay.example/chk-1" "created")
                eq_refl eq_refl eq_refl)
      as [payment [Hcreate [Horder Hstatus]]].
    exists payment. split; [exact Hcreate|]. split; assumption.
Defined.

(** With the window closed and the quantity above the stock both clauses
    apply; the stock check comes first and the error is 'Not enough bags
    available', not the window's. *)
Lemma reserve_closed_window_reports_stock :
  Bag.pickupEnd (Scenario.bag 2 2) < 2500
  /\ Bag.quantityRemaining (Scenario.bag 2 2) < 3
  /\ reserveTransaction (Scenario.market 2 2) "user-1" "bag-1" 3 2500 "order-1"
       "KULA-ABC234" "SAVR-0001"
     = Throw (ApiError "Not enough bags available" 400)
  /\ reserveTransaction (Scenario.market 2 2) "user-1" "bag-1" 3 2500 "order-1"
       "KULA-ABC234" "SAVR-0001"
     <> Throw (ApiError "Pickup window has ended" 400)
  /\ createOrder Scenario.APP_URL Cascade (Scenario.market 2 2) "user-1"
       "bag-1" (Some 3) 2500 "order-1" "KULA-ABC234" "SAVR-0001" "pay-1"
       Scenario.gatewayUp
     = (Scenario.market 2 2,
        Rejected (ApiError "Not enough bags available" 400)).
Proof.
  split; [reflexivity|]. split; [reflexivity|]. split; [reflexivity|].
  split; [discriminate | reflexivity].
Qed.

(** At the very end of the window the handler's test, [now > pickupEnd],
    lets the order through, while the listing routes take a listing away
    at that instant ([pickupEnd: { gt: now }]). *)
Example reservation_at_window_end :
  Bag.pickupEnd (Scenario.bag 2 2) = 2000
  /\ exists r,
       reserveTransaction (Scenario.market 2 2) "user-1" "bag-1" 1 2000
         "order-1" "KULA-ABC234" "SAVR-0001" = Ok r.
Proof. split; [reflexivity | eexists; reflexivity]. Qed.

(** The sold-out flag is computed from the listing as the transaction read
    it, and the transaction takes no lock: when two reservations of one bag
    have both read a listing with two bags left before either writes, the
    two updates leave no bag and the flag off. *)
Example reservation_flag_from_stale_read :
  Bag.quantityRemaining
    (Bag_reserve (Scenario.bag 2 2) 1
       (Bag_reserve (Scenario.bag 2 2) 1 (Scenario.bag 2 2))) = 0
  /\ Bag.isSoldOut
       (Bag_reserve (Scenario.bag 2 2) 1
          (Bag_reserve (Scenario.bag 2 2) 1 (Scenario.bag 2 2))) = false.
Proof. split; reflexivity. Qed.

(** ** Pickup verification (POST /api/v1/business/orders/:id/scan) *)

Lemma found_row_has_key {R : Type} (key : R -> string) (w : R -> bool)
  (t : list R) (r : R) :
  find w t = Some r -> existsb (has_key key (key r)) t = true.
Proof.
  intros H. apply find_some in H. apply existsb_exists.
  exists r. split; [apply H | apply has_key_eq; reflexivity].
Qed.

Lemma order_update_found (s : Store) (id : string) (f : Order.t -> Order.t) :
  existsb (has_key Order.id id) (orders s) = true ->
  order_update s id f = Ok (with_orders s (rewritten Order.id id f (orders s))).
Proof.
  intros H. unfold order_update. rewrite (update_found _ _ _ _ H). reflexivity.
Qed.

Lemma order_of_qrCode_rewritten (s : Store) (code id : string)
  (f : Order.t -> Order.t) :
  (forall o, Order.qrCode (f o) = Order.qrCode o) ->
  order_of_qrCode (with_orders s (rewritten Order.id id f (orders s))) code
  = option_map (fun o => if has_key Order.id id o then f o else o)
      (order_of_qrCode s code).
Proof.
  intros Hf. unfold order_of_qrCode, rewritten. cbn [orders with_orders].
  apply find_map_stable. intros o.
  destruct (has_key Order.id id o); rewrite ?Hf; reflexivity.
Qed.

(** Pickup verification once the code is not empty and the presenter owns
    a restaurant. *)
Lemma scanOrder_found :
  forall (s : Store) (sub code : string) (now : Z) (restaurant : Restaurant.t),
  code <> "" ->
  restaurant_of_owner s sub = Some restaurant ->
  (order_of_qrCode s code = None ->
   scanOrder s sub (Some code) now
   = (s, Json 404 (ErrorBody "Invalid QR code")))
  /\ (forall order, order_of_qrCode s code = Some order ->
      (Order.restaurantId order <> Restaurant.id restaurant ->
       scanOrder s sub (Some code) now
       = (s, Json 403 (ErrorBody "Order belongs to another restaurant")))
      /\ (Order.restaurantId order = Restaurant.id restaurant ->
          Order.status order <> paid -> Order.status order <> ready ->
          scanOrder s sub (Some code) now
          = (s, Json 400
                  (ErrorBody
                     (String.append "Order cannot be collected (status: "
                        (String.append (status_string (Order.status order))
                           ")")))))
      /\ (Order.restaurantId order = Restaurant.id restaurant ->
          Order.status order = paid \/ Order.status order = ready ->
          exists s' customerName bagTitle,
            scanOrder s sub (Some code) now
            = (s', Json 200
                     (ScanBody (Order.id order) (Order.orderNumber order)
                        collected customerName bagTitle))
            /\ order_of_qrCode s' code = Some (Order_collect now order)
            /\ Order.status (Order_collect now order) = collected
            /\ Order.qrScannedAt (Order_collect now order) = Some now
            /\ orders s'
               = rewritten Order.id (Order.id order) (Order_collect now)
                   (orders s)
            /\ bags s' = bags s /\ payments s' = payments s
            /\ users s' = users s
            /\ forall now',
                 scanOrder s' sub (Some code) now'
                 = (s', Json 400
                          (ErrorBody
                             "Order cannot be collected (status: collected)")))).
Proof.
  intros s sub code now restaurant Hcode Hrest.
  assert (Htruthy : truthy (Some code) = true).
  { simpl. apply negb_true_iff. apply String.eqb_neq. exact Hcode. }
  split.
  - intros Hnone. unfold scanOrder. rewrite Htruthy, Hrest. simpl.
    rewrite Hnone. reflexivity.
  - intros order Horder. split; [|split].
    + intros Hne. unfold scanOrder. rewrite Htruthy, Hrest. simpl.
      rewrite Horder. apply String.eqb_neq in Hne. rewrite Hne. reflexivity.
    + intros Heq Hp Hr. unfold scanOrder. rewrite Htruthy, Hrest. simpl.
      rewrite Horder. apply String.eqb_eq in Heq. rewrite Heq.
      destruct (Order.status order) eqn:E; try congruence; reflexivity.
    + intros Heq Hst.
      assert (Hin : includes [paid; ready] (Order.status order) = true)
        by (destruct Hst as [-> | ->]; reflexivity).
      assert (Hex : existsb (has_key Order.id (Order.id order)) (orders s)
                    = true)
        by (apply (found_row_has_key Order.id _ _ _ Horder)).
      assert (Hfound : order_of_qrCode
                (with_orders s
                   (rewritten Order.id (Order.id order) (Order_collect now)
                      (orders s))) code
              = Some (Order_collect now order)).
      { rewrite order_of_qrCode_rewritten by reflexivity.
        rewrite Horder. cbn [option_map].
        unfold has_key. rewrite String.eqb_refl. reflexivity. }
      unfold scanOrder at 1. rewrite Htruthy, Hrest. cbn [negb template].
      rewrite Horder. apply String.eqb_eq in Heq. rewrite Heq, Hin.
      cbn [negb]. rewrite (order_update_found _ _ _ Hex).
      do 3 eexists. split; [reflexivity|].
      split; [exact Hfound|].
      repeat split.
      intros now'. unfold scanOrder. rewrite Htruthy.
      unfold restaurant_of_owner in *. cbn [restaurants with_orders].
      rewrite Hrest. cbn [negb template]. rewrite Hfound.
      cbn [Order.restaurantId Order_collect Order_set Order.status].
      rewrite Heq. reflexivity.
Qed.

(** X23.  Pickup verification by redemption code.  400 'QR code is
    required' when the code is missing or empty; 404 'Restaurant not found'
    when the presenter owns no restaurant; 404 'Invalid QR code' when no
    order has the code; 403 when the order is another restaurant's; 400
    when the order is neither [paid] nor [ready]; none of these writes.
    Otherwise the order becomes [collected] with [qrScannedAt] set to the
    clock, nothing else changes, and a scan of the same code that follows
    at once is answered 400 and leaves the store as it is. *)
Theorem scan_outcomes :
  forall (s : Store) (sub : string) (qrCode : option string) (now : Z),
  (truthy qrCode = false ->
   scanOrder s sub qrCode now
   = (s, Json 400 (ErrorBody "QR code is required")))
  /\ (truthy qrCode = true -> restaurant_of_owner s sub = None ->
      scanOrder s sub qrCode now
      = (s, Json 404 (ErrorBody "Restaurant not found")))
  /\ (forall code restaurant,
      qrCode = Some code -> code <> "" ->
      restaurant_of_owner s sub = Some restaurant ->
      (order_of_qrCode s code = None ->
       scanOrder s sub (Some code) now
       = (s, Json 404 (ErrorBody "Invalid QR code")))
      /\ (forall order, order_of_qrCode s code = Some order ->
          (Order.restaurantId order <> Restaurant.id restaurant ->
           scanOrder s sub (Some code) now
           = (s, Json 403 (ErrorBody "Order belongs to another restaurant")))
          /\ (Order.restaurantId order = Restaurant.id restaurant ->
              Order.status order <> paid -> Order.status order <> ready ->
              scanOrder s sub (Some code) now
              = (s, Json 400
                      (ErrorBody
                         (String.append "Order cannot be collected (status: "
                            (String.append
                               (status_string (Order.status order)) ")")))))
          /\ (Order.restaurantId order = Restaurant.id restaurant ->
              Order.status order = paid \/ Order.status order = ready ->
              exists s' customerName bagTitle,
                scanOrder s sub (Some code) now
                = (s', Json 200
                         (ScanBody (Order.id order) (Order.orderNumber order)
                            collected customerName bagTitle))
                /\ order_of_qrCode s' code = Some (Order_collect now order)
                /\ Order.status (Order_collect now order) = collected
                /\ Order.qrScannedAt (Order_collect now order) = Some now
                /\ orders s'
                   = rewritten Order.id (Order.id order) (Order_collect now)
                       (orders s)
                /\ bags s' = bags s /\ payments s' = payments s
                /\ users s' = users s
                /\ forall now',
                     scanOrder s' sub (Some code) now'
                     = (s', Json 400
                              (ErrorBody
                                 "Order cannot be collected (status: collected)"))))).
Proof.
  intros s sub qrCode now. split; [|split].
  - intros Hempty. unfold scanOrder. rewrite Hempty. reflexivity.
  - intros Hcode Hnone. unfold scanOrder. rewrite Hcode, Hnone. reflexivity.
  - intros code restaurant _ Hcode Hrest.
    apply (scanOrder_found s sub code now restaurant Hcode Hrest).
Qed.

Lemma scan_outcomes_witness :
  scanOrder Scenario.readied "owner-1" (Some "") 1900
  = (Scenario.readied, Json 400 (ErrorBody "QR code is required"))
  /\ scanOrder Scenario.readied "user-1" (Some "SAVR-0001") 1900
     = (Scenario.readied, Json 404 (ErrorBody "Restaurant not found"))
  /\ scanOrder Scenario.readied "owner-1" (Some "SAVR-9999") 1900
     = (Scenario.readied, Json 404 (ErrorBody "Invalid QR code"))
  /\ scanOrder Scenario.readied "owner-2" (Some "SAVR-0001") 1900
     = (Scenario.readied,
        Json 403 (ErrorBody "Order belongs to another restaurant"))
  /\ scanOrder Scenario.ordered "owner-1" (Some "SAVR-0001") 1900
     = (Scenario.ordered,
        Json 400 (ErrorBody "Order cannot be collected (status: pending)"))
  /\ (exists s',
        fst (scanOrder Scenario.readied "owner-1" (Some "SAVR-0001") 1900) = s'
        /\ status_of s' "order-1" = Some collected
        /\ scanOrder s' "owner-1" (Some "SAVR-0001") 1950
           = (s', Json 400
                    (ErrorBody "Order cannot be collected (status: collected)"))).
Proof.
  assert (Hcode : "SAVR-0001" <> "") by discriminate.
  assert (Hcode' : "SAVR-9999" <> "") by discriminate.
  split; [|split; [|split; [|split; [|split]]]].
  - apply (proj1 (scan_outcomes Scenario.readied "owner-1" (Some "") 1900)).
    reflexivity.
  - apply (proj1 (proj2 (scan_outcomes Scenario.readied "user-1"
                           (Some "SAVR-0001") 1900))); reflexivity.
  - apply (proj1 (proj2 (proj2 (scan_outcomes Scenario.readied "owner-1"
                                  (Some "SAVR-9999") 1900))
                    "SAVR-9999" Scenario.deli eq_refl Hcode' eq_refl)).
    reflexivity.
  - destruct (proj2 (proj2 (scan_outcomes Scenario.readied "owner-2"
                              (Some "SAVR-0001") 1900))
                "SAVR-0001" Scenario.bakery eq_refl Hcode eq_refl) as [_ H].
    destruct (H (Order_business ready 1600 "owner-1" (Scenario.placed 1))
                eq_refl) as [H403 _].
    apply H403. discriminate.
  - destruct (proj2 (proj2 (scan_outcomes Scenario.ordered "owner-1"
                              (Some "SAVR-0001") 1900))
                "SAVR-0001" Scenario.deli eq_refl Hcode eq_refl) as [_ H].
    destruct (H (Scenario.placed 1) eq_refl) as [_ [H400 _]].
    apply H400; [reflexivity | discriminate | discriminate].
  - destruct (proj2 (proj2 (scan_outcomes Scenario.readied "owner-1"
                              (Some "SAVR-0001") 1900))
                "SAVR-0001" Scenario.deli eq_refl Hcode eq_refl) as [_ H].
    destruct (H (Order_business ready 1600 "owner-1" (Scenario.placed 1))
                eq_refl) as [_ [_ H200]].
    destruct (H200 eq_refl (or_intror eq_refl))
      as [s' [cn [bt [Hscan [Hfind [_ [_ [Horders [_ [_ [_ Hagain]]]]]]]]]]].
    exists s'. split; [rewrite Hscan; reflexivity|].
    split; [|apply Hagain].
    unfold status_of. rewrite Horders. reflexivity.
Defined.

(** C9.  The redeemed state is not terminal and the code is not single-use:
    the status route asks nothing of the order's current status, so the
    owner can set a collected order back to ready, and the next scan of the
    same code is answered 200 again and overwrites the redemption time. *)
Theorem scan_reopened_redeems_again :
  scanOrder Scenario.readied "owner-1" (Some "SAVR-0001") 1900
  = (fst (scanOrder Scenario.readied "owner-1" (Some "SAVR-0001") 1900),
     Json 200
       (ScanBody "order-1" "KULA-ABC234" collected (Some "Buyer")
          (Some "Surprise bag")))
  /\ option_map Order.qrScannedAt
       (findUnique Order.id
          (orders
             (fst (scanOrder Scenario.readied "owner-1" (Some "SAVR-0001")
                     1900)))
          "order-1")
     = Some (Some 1900)
  /\ updateOrderStatus
       (fst (scanOrder Scenario.readied "owner-1" (Some "SAVR-0001") 1900))
       "owner-1" "order-1" "ready" 2000
     = (fst (updateOrderStatus
               (fst (scanOrder Scenario.readied "owner-1" (Some "SAVR-0001")
                       1900))
               "owner-1" "order-1" "ready" 2000),
        Json 200 (StatusBody "order-1" "KULA-ABC234" ready (Some 1900)))
  /\ scanOrder
       (fst (updateOrderStatus
               (fst (scanOrder Scenario.readied "owner-1" (Some "SAVR-0001")
                       1900))
               "owner-1" "order-1" "ready" 2000))
       "owner-1" (Some "SAVR-0001") 2100
     = (fst (scanOrder
               (fst (updateOrderStatus
                       (fst (scanOrder Scenario.readied "owner-1"
                               (Some "SAVR-0001") 1900))
                       "owner-1" "order-1" "ready" 2000))
               "owner-1" (Some "SAVR-0001") 2100),
        Json 200
          (ScanBody "order-1" "KULA-ABC234" collected (Some "Buyer")
             (Some "Surprise bag")))
  /\ option_map Order.qrScannedAt
       (findUnique Order.id
          (orders
             (fst (scanOrder
                     (fst (updateOrderStatus
                             (fst (scanOrder Scenario.readied "owner-1"
                                     (Some "SAVR-0001") 1900))
                             "owner-1" "order-1" "ready" 2000))
                     "owner-1" (Some "SAVR-0001") 2100)))
          "order-1")
     = Some (Some 2100).
Proof. vm_compute. repeat split. Qed.

(** ** Pricing of a created order *)

Lemma bind_Ok {A B : Type} (m : result A) (k : A -> result B) (b : B) :
  bind m k = Ok b -> exists a, m = Ok a /\ k a = Ok b.
Proof. destruct m as [a|e]; simpl; intros H; [eauto | discriminate]. Qed.

Lemma reserveTransaction_inv (s : Store) (sub bagId : string) (q now : Z)
  (newId orderNumber qrCode : string) (r : Reservation) :
  reserveTransaction s sub bagId q now newId orderNumber qrCode = Ok r ->
  exists bag,
    findUnique Bag.id (bags s) bagId = Some bag
    /\ r_bag r = bag
    /\ r_total r = Bag.priceCurrent bag * q + 250
    /\ r_order r
       = Order.mk newId orderNumber sub (Bag.id bag) (Bag.restaurantId bag) q
           (Bag.priceCurrent bag * q) 250 (Bag.priceCurrent bag * q + 250)
           pending (Bag.pickupStart bag) (Bag.pickupEnd bag) qrCode None None
           None None
    /\ orders (r_store r) = orders s ++ [r_order r]
    /\ payments (r_store r) = payments s
    /\ users (r_store r) = users s
    /\ bags (r_store r) = rewritten Bag.id bagId (Bag_reserve bag q) (bags s)
    /\ q <= Bag.quantityRemaining bag.
Proof.
  unfold reserveTransaction.
  destruct (findUnique Bag.id (bags s) bagId) as [bag|]; [|discriminate].
  destruct (negb (Bag.isActive bag) || Bag.isSoldOut bag); [discriminate|].
  destruct (Bag.quantityRemaining bag <? q) eqn:Hq; [discriminate|].
  destruct (Bag.pickupEnd bag <? now); [discriminate|].
  intros H. apply bind_Ok in H. destruct H as [s1 [Hs1 H]].
  unfold bag_update in Hs1. apply bind_Ok in Hs1.
  destruct Hs1 as [t [Ht Hs1]]. apply update_inv in Ht. destruct Ht as [_ ->].
  inversion Hs1; subst s1; clear Hs1.
  destruct (findUnique Bag.id _ bagId) as [updatedBag|]; [|discriminate].
  destruct (Bag.quantityRemaining updatedBag <? 0); [discriminate|].
  apply bind_Ok in H. destruct H as [s2 [Hs2 H]].
  inversion H; subst r; clear H.
  unfold order_create in Hs2.
  destruct (existsb _ _); [discriminate|].
  destruct (existsb _ _); [discriminate|].
  apply bind_Ok in Hs2. destruct Hs2 as [t [Ht Hs2]].
  unfold create in Ht. destruct (existsb _ _); [discriminate|].
  inversion Ht; subst t; clear Ht. inversion Hs2; subst s2; clear Hs2.
  exists bag. cbn. apply Z.ltb_ge in Hq. repeat split; auto.
Qed.

(** C10. Every order the handler reports as created (201) carries the
    platform fee 250, the subtotal [priceCurrent * quantity] of the listing
    as read by the reservation, and the total [subtotal + 250]; that total is
    the amount of the checkout request the provider answered and of the
    payment row stored for the order.  The fee is the same whatever the
    listing, the restaurant and the quantity. *)
Theorem created_order_pricing :
  forall (APP_URL : string) (onDelete : ReferentialAction) (s : Store)
         (sub bagId : string) (quantity : option Z) (now : Z)
         (newId orderNumber qrCode paymentId : string)
         (post : Yoco.CheckoutRequest -> result Yoco.YocoCheckoutResponse)
         (s' : Store) (order : Order.t) (checkoutId paymentUrl : string),
  createOrder APP_URL onDelete s sub bagId quantity now newId orderNumber
    qrCode paymentId post
  = (s', Json 201 (CheckoutBody order checkoutId paymentUrl)) ->
  exists bag q r request checkout payment,
    findUnique Bag.id (bags s) bagId = Some bag
    /\ validate_quantity quantity = Some q
    /\ Order.quantity order = q
    /\ Order.platformFee order = 250
    /\ Order.subtotal order = Bag.priceCurrent bag * q
    /\ Order.total order = Order.subtotal order + 250
    /\ reserveTransaction s sub bagId q now newId orderNumber qrCode = Ok r
    /\ r_order r = order
    /\ request
       = Yoco.requestBody
           (checkoutParams APP_URL r
              (option_map Restaurant.name
                 (findUnique Restaurant.id (restaurants s)
                    (Bag.restaurantId bag))))
    /\ post request = Ok checkout
    /\ Yoco.amount request = Order.total order
    /\ Yoco.id checkout = checkoutId
    /\ orders s' = orders s ++ [order]
    /\ payments s' = payments s ++ [payment]
    /\ Payment.orderId payment = Order.id order
    /\ Payment.amount payment = Order.total order.
Proof.
  intros APP_URL onDelete s sub bagId quantity now newId orderNumber qrCode
    paymentId post s' order checkoutId paymentUrl.
  unfold createOrder.
  destruct (validate_quantity quantity) as [q|]; [|discriminate].
  destruct (reserveTransaction s sub bagId q now newId orderNumber qrCode)
    as [r|e] eqn:Hr; [|discriminate].
  assert (Hr' := Hr). apply reserveTransaction_inv in Hr.
  destruct Hr as [bag [Hbag [Hrbag [Htotal [Horder [Horders [Hpay _]]]]]]].
  match goal with
  | |- context [bind ?m ?k] => destruct (bind m k) as [[s2 checkout]|e] eqn:Hb
  end.
  2:{ destruct (order_delete _ _ _); discriminate. }
  intros H. inversion H; subst s' order checkoutId paymentUrl; clear H.
  apply bind_Ok in Hb. destruct Hb as [c [Hc Hb]].
  apply bind_Ok in Hb. destruct Hb as [s3 [Hs3 Hb]].
  inversion Hb; subst s3 c; clear Hb.
  unfold Yoco.createCheckout in Hc. apply bind_Ok in Hc.
  destruct Hc as [data [Hpost Hc]]. inversion Hc; subst checkout; clear Hc.
  unfold payment_create in Hs3. apply bind_Ok in Hs3.
  destruct Hs3 as [t [Ht Hs3]]. unfold create in Ht.
  destruct (existsb _ _); [discriminate|].
  inversion Ht; subst t; clear Ht. inversion Hs3; subst s2; clear Hs3.
  exists bag, q, r. eexists. exists data. eexists.
  split; [exact Hbag|]. split; [reflexivity|].
  split; [rewrite Horder; reflexivity|].
  split; [rewrite Horder; reflexivity|].
  split; [rewrite Horder; reflexivity|].
  split; [rewrite Horder; reflexivity|].
  split; [exact Hr'|]. split; [reflexivity|].
  split; [rewrite <- Hrbag; reflexivity|].
  split; [exact Hpost|].
  split; [rewrite Horder; cbn; rewrite Htotal; reflexivity|].
  split; [reflexivity|].
  cbn [orders payments with_payments]. rewrite Horders, Hpay.
  split; [reflexivity|]. split; [reflexivity|].
  cbn. rewrite Htotal, Horder. split; reflexivity.
Qed.

Lemma created_order_pricing_witness :
  exists bag q r request checkout payment,
    findUnique Bag.id (bags (Scenario.market 3 3)) "bag-1" = Some bag
    /\ validate_quantity (Some 2) = Some q
    /\ Order.quantity (Scenario.placed 2) = q
    /\ Order.platformFee (Scenario.placed 2) = 250
    /\ Order.subtotal (Scenario.placed 2) = Bag.priceCurrent bag * q
    /\ Order.total (Scenario.placed 2)
       = Order.subtotal (Scenario.placed 2) + 250
    /\ reserveTransaction (Scenario.market 3 3) "user-1" "bag-1" q 1500
         "order-1" "KULA-ABC234" "SAVR-0001" = Ok r
    /\ r_order r = Scenario.placed 2
    /\ request
       = Yoco.requestBody
           (checkoutParams Scenario.APP_URL r
              (option_map Restaurant.name
                 (findUnique Restaurant.id (restaurants (Scenario.market 3 3))
                    (Bag.restaurantId bag))))
    /\ Scenario.gatewayUp request = Ok checkout
    /\ Yoco.amount request = Order.total (Scenario.placed 2)
    /\ Yoco.id checkout = "chk-1"
    /\ orders (fst (createOrder Scenario.APP_URL Cascade (Scenario.market 3 3)
                      "user-1" "bag-1" (Some 2) 1500 "order-1" "KULA-ABC234"
                      "SAVR-0001" "pay-1" Scenario.gatewayUp))
       = orders (Scenario.market 3 3) ++ [Scenario.placed 2]
    /\ payments (fst (createOrder Scenario.APP_URL Cascade
                        (Scenario.market 3 3) "user-1" "bag-1" (Some 2) 1500
                        "order-1" "KULA-ABC234" "SAVR-0001" "pay-1"
                        Scenario.gatewayUp))
       = payments (Scenario.market 3 3) ++ [payment]
    /\ Payment.orderId payment = Order.id (Scenario.placed 2)
    /\ Payment.amount payment = Order.total (Scenario.placed 2).
Proof.
  apply (created_order_pricing Scenario.APP_URL Cascade (Scenario.market 3 3)
           "user-1" "bag-1" (Some 2) 1500 "order-1" "KULA-ABC234" "SAVR-0001"
           "pay-1" Scenario.gatewayUp _ (Scenario.placed 2) "chk-1"
           "https://pay.example/chk-1").
  reflexivity.
Defined.

(** ** Compensation after a checkout failure *)

Lemma order_delete_bags (onDelete : ReferentialAction) (s s' : Store)
  (id : string) :
  order_delete onDelete s id = Ok s' -> bags s' = bags s.
Proof.
  unfold order_delete. intros H. apply bind_Ok in H.
  destruct H as [t [_ H]]. destruct onDelete.
  - inversion H. reflexivity.
  - destruct (existsb _ _); [discriminate|]. inversion H. reflexivity.
Qed.

(** Whenever the reservation went through and the checkout request fails,
    the handler leaves the listing as the reservation left it. *)
Lemma gateway_failure_keeps_decrement (APP_URL : string)
  (onDelete : ReferentialAction) (s : Store) (sub bagId : string)
  (quantity : option Z) (q now : Z)
  (newId orderNumber qrCode paymentId : string)
  (post : Yoco.CheckoutRequest -> result Yoco.YocoCheckoutResponse)
  (r : Reservation) :
  validate_quantity quantity = Some q ->
  reserveTransaction s sub bagId q now newId orderNumber qrCode = Ok r ->
  (forall request, post request = Throw GatewayError) ->
  bags (fst (createOrder APP_URL onDelete s sub bagId quantity now newId
               orderNumber qrCode paymentId post))
  = bags (r_store r).
Proof.
  intros Hv Hr Hpost. unfold createOrder. rewrite Hv, Hr.
  unfold Yoco.createCheckout. rewrite Hpost. cbn [bind].
  destruct (order_delete onDelete (r_store r) (Order.id (r_order r)))
    as [s3|e] eqn:Hd; cbn [fst]; [|reflexivity].
  apply (order_delete_bags _ _ _ _ Hd).
Qed.

(** C3. A listing with 2 bags left, one bag ordered, and a checkout request
    that throws: the handler answers 500 and the order is gone (no payment
    was created), but [quantityRemaining] stays at 1; the catch block
    deletes the order and does not restore the stock. *)
Theorem checkout_failure_keeps_reservation :
  forall onDelete : ReferentialAction,
  let out :=
    createOrder Scenario.APP_URL onDelete (Scenario.market 2 2) "user-1"
      "bag-1" (Some 1) 1500 "order-1" "KULA-ABC234" "SAVR-0001" "pay-1"
      Scenario.gatewayDown in
  snd out = Json 500 (ErrorBody "Failed to create payment checkout")
  /\ orders (fst out) = []
  /\ payments (fst out) = []
  /\ remaining_of (Scenario.market 2 2) "bag-1" = Some 2
  /\ remaining_of (fst out) "bag-1" = Some 1.
Proof. intros []; vm_compute; repeat split. Qed.

(** ** Cancellation paths *)

Lemma updateOrderStatus_bags (s : Store) (sub id status : string) (now : Z) :
  bags (fst (updateOrderStatus s sub id status now)) = bags s.
Proof.
  unfold updateOrderStatus.
  destruct (parse_status status); [|reflexivity].
  destruct (findUnique Order.id (orders s) id); [|reflexivity].
  destruct (restaurant_of_owner s sub); [|reflexivity].
  destruct (negb _); [reflexivity|].
  unfold order_update.
  destruct (update Order.id (orders s) id _); cbn [bind]; [|reflexivity].
  destruct (findUnique _ _ _); reflexivity.
Qed.

(** C4. The business-side cancel (PATCH status 'cancelled') of a pending
    order for the last bag: the order becomes [cancelled] and the listing
    still has 0 bags remaining; the reserved bag is released zero times. *)
Theorem business_cancel_releases_nothing :
  let out :=
    updateOrderStatus Scenario.ordered "owner-1" "order-1" "cancelled" 1600 in
  status_of Scenario.ordered "order-1" = Some pending
  /\ remaining_of Scenario.ordered "bag-1" = Some 0
  /\ snd out = Json 200 (StatusBody "order-1" "KULA-ABC234" cancelled None)
  /\ status_of (fst out) "order-1" = Some cancelled
  /\ remaining_of (fst out) "bag-1" = Some 0
  /\ bags (fst out) = bags Scenario.ordered.
Proof. vm_compute. repeat split. Qed.

(** The buyer's cancel does check the status: an order that is neither
    pending nor paid is refused and nothing is written. *)
Lemma cancelOrder_finalized (s : Store) (sub id : string)
  (reason : option string) (now : Z) (order : Order.t) :
  validate_reason reason = true ->
  findUnique Order.id (orders s) id = Some order ->
  Order.userId order = sub ->
  includes [pending; paid] (Order.status order) = false ->
  cancelOrder s sub id reason now
  = (s, Json 400 (ErrorBody "Order cannot be cancelled")).
Proof.
  intros Hv Ho Hu Hst. unfold cancelOrder. rewrite Hv, Ho. cbn [negb].
  apply String.eqb_eq in Hu. rewrite Hu, Hst. reflexivity.
Qed.

(** And it releases the reservation once when it accepts the cancel. *)
Lemma cancelOrder_releases_once (s : Store) (sub id : string)
  (reason : option string) (now : Z) (order : Order.t) :
  validate_reason reason = true ->
  findUnique Order.id (orders s) id = Some order ->
  Order.userId order = sub ->
  includes [pending; paid] (Order.status order) = true ->
  existsb (has_key Bag.id (Order.bagId order)) (bags s) = true ->
  cancelOrder s sub id reason now
  = (mkStore
       (rewritten Bag.id (Order.bagId order)
          (Bag_restore (Order.quantity order)) (bags s))
       (rewritten Order.id id (Order_cancel_buyer now reason sub) (orders s))
       (payments s) (users s) (restaurants s),
     Json 200 (MessageBody "Order cancelled")).
Proof.
  intros Hv Ho Hu Hst Hbag. unfold cancelOrder. rewrite Hv, Ho. cbn [negb].
  apply String.eqb_eq in Hu. rewrite Hu, Hst. cbn [negb transaction].
  rewrite (order_update_found _ _ _ (findUnique_existsb _ _ _ _ Ho)).
  cbn [bind]. rewrite bag_update_found by exact Hbag. reflexivity.
Qed.

(** C7. The cancel redirect for an order the business has already marked
    collected: the handler does not look at the status; it adds the order's
    quantity back to the listing ([quantityRemaining] 0 becomes 1), tries to
    delete the order, and redirects to the 'cancelled' deep link instead of
    refusing. *)
Theorem redirect_cancel_ignores_status :
  forall onDelete : ReferentialAction,
  let finalized :=
    fst (updateOrderStatus Scenario.ordered "owner-1" "order-1" "collected"
           1600) in
  let out := yocoCancel Scenario.APP_SCHEME onDelete finalized (Some "order-1") in
  status_of finalized "order-1" = Some collected
  /\ remaining_of finalized "bag-1" = Some 0
  /\ snd out = Redirect "savr://payment/cancelled"
  /\ remaining_of (fst out) "bag-1" = Some 1
  /\ fst out <> finalized.
Proof.
  intros []; vm_compute; repeat split; discriminate.
Qed.

(** ** The listing invariant *)

(** C2. One bag in the listing; the buyer orders it, cancels the order in
    the application, and the browser then lands on the cancel redirect: the
    buyer's cancel and the redirect each add the bag back, and
    [quantityRemaining] ends at 2 with [quantityTotal] 1. *)
Theorem cancel_then_redirect_exceeds_total :
  forall (secret : option string) (onDelete : ReferentialAction)
         (base64Decode : string -> string)
         (hmacSha256Base64 : string -> string -> string),
  let s :=
    run Scenario.APP_URL Scenario.APP_SCHEME secret onDelete base64Decode
      hmacSha256Base64 (Scenario.market 1 1)
      [Scenario.order1 1 Scenario.gatewayUp;
       CancelOrder "user-1" "order-1" None 1600;
       YocoCancel (Some "order-1")] in
  forallb bag_in_boundsb (bags (Scenario.market 1 1)) = true
  /\ remaining_of s "bag-1" = Some 2
  /\ option_map Bag.quantityTotal (findUnique Bag.id (bags s) "bag-1") = Some 1
  /\ forallb bag_in_boundsb (bags s) = false.
Proof.
  intros secret [] base64Decode hmacSha256Base64; vm_compute; repeat split.
Qed.

(** ** The webhook's signature check *)

(** With a secret configured and a signature header present, the call of
    the adapter's check throws, whatever the signature: the secret
    parameter is [undefined]. *)
Lemma yocoWebhook_signed_throws (secret : option string)
  (onDelete : ReferentialAction) (base64Decode : string -> string)
  (hmacSha256Base64 : string -> string -> string) (s : Store)
  (req : WebhookRequest) (now : Z) :
  truthy secret = true ->
  truthy (signatureHeader req) = true ->
  yocoWebhook secret onDelete base64Decode hmacSha256Base64 s req now
  = (s, Rejected
          (TypeError "Cannot read properties of undefined (reading 'replace')")).
Proof.
  intros Hsecret Hsig. unfold yocoWebhook. rewrite Hsecret, Hsig. reflexivity.
Qed.

(** C6. A webhook request whose signature header is present but does not
    verify is not answered 401: the handler throws a TypeError before any
    comparison is made (the store is untouched).  A request without the
    header is answered 401. *)
Theorem webhook_invalid_signature_throws :
  forall (onDelete : ReferentialAction) (base64Decode : string -> string)
         (hmacSha256Base64 : string -> string -> string) (now : Z),
  yocoWebhook (Some "whsec_c2VjcmV0") onDelete base64Decode hmacSha256Base64
    Scenario.ordered (Scenario.signedRequest "v1,AAAA") now
  = (Scenario.ordered,
     Rejected
       (TypeError "Cannot read properties of undefined (reading 'replace')"))
  /\ yocoWebhook (Some "whsec_c2VjcmV0") onDelete base64Decode
       hmacSha256Base64 Scenario.ordered
       (mkWebhook None "{}" "payment.succeeded" Scenario.event1) now
     = (Scenario.ordered, Json 401 (ErrorBody "Missing signature")).
Proof.
  intros onDelete base64Decode hmacSha256Base64 now. split.
  - apply yocoWebhook_signed_throws; reflexivity.
  - reflexivity.
Qed.

(** Also a signature that the adapter accepts when it is called with the
    identifier, the timestamp and the secret of the documented scheme never
    reaches the comparison in the handler. *)
Lemma yocoWebhook_valid_signature_throws (secret webhookId timestamp : string)
  (onDelete : ReferentialAction) (base64Decode : string -> string)
  (hmacSha256Base64 : string -> string -> string) (s : Store)
  (signature body type : string) (p : Payload) (now : Z) :
  secret <> "" ->
  Yoco.verifyWebhookSignature base64Decode hmacSha256Base64 body signature
    (Some webhookId) (Some timestamp) (Some secret) = Ok true ->
  yocoWebhook (Some secret) onDelete base64Decode hmacSha256Base64 s
    (mkWebhook (Some signature) body type p) now
  = (s, Rejected
          (TypeError "Cannot read properties of undefined (reading 'replace')")).
Proof.
  intros Hsecret Hvalid. apply yocoWebhook_signed_throws.
  - simpl. apply negb_true_iff, String.eqb_neq, Hsecret.
  - destruct signature as [|c rest]; [discriminate Hvalid | reflexivity].
Qed.

(** C1.  A payment.succeeded event for a pending order, carrying a
    signature that the adapter's check accepts under its scheme (HMAC over
    'webhook-id.webhook-timestamp.body' with the configured secret),
    delivered once and delivered again: the handler throws at its call of
    the check both times, the switch is never reached, and the order stays
    pending, the payment pending and the buyer's points at 0.  No delivery
    credits anything. *)
Theorem webhook_signed_delivery_credits_nothing :
  forall (onDelete : ReferentialAction) (base64Decode : string -> string)
         (hmacSha256Base64 : string -> string -> string)
         (signature webhookId timestamp : string) (now later : Z),
  Yoco.verifyWebhookSignature base64Decode hmacSha256Base64 "{}" signature
    (Some webhookId) (Some timestamp) (Some "whsec_c2VjcmV0") = Ok true ->
  let once :=
    yocoWebhook (Some "whsec_c2VjcmV0") onDelete base64Decode
      hmacSha256Base64 Scenario.ordered (Scenario.signedRequest signature)
      now in
  let twice :=
    yocoWebhook (Some "whsec_c2VjcmV0") onDelete base64Decode
      hmacSha256Base64 (fst once) (Scenario.signedRequest signature) later in
  once
  = (Scenario.ordered,
     Rejected
       (TypeError "Cannot read properties of undefined (reading 'replace')"))
  /\ twice = once
  /\ status_of (fst twice) "order-1" = Some pending
  /\ payment_status_of (fst twice) "order-1" = Some p_pending
  /\ loyalty_of (fst once) "user-1" = Some 0
  /\ loyalty_of (fst twice) "user-1" = Some 0.
Proof.
  intros onDelete base64Decode hmacSha256Base64 signature webhookId timestamp
    now later Hvalid.
  cbv zeta.
  assert (Hthrows : forall t,
    yocoWebhook (Some "whsec_c2VjcmV0") onDelete base64Decode
      hmacSha256Base64 Scenario.ordered (Scenario.signedRequest signature) t
    = (Scenario.ordered,
       Rejected
         (TypeError "Cannot read properties of undefined (reading 'replace')"))).
  { intros t.
    apply (yocoWebhook_valid_signature_throws "whsec_c2VjcmV0" webhookId
             timestamp onDelete base64Decode hmacSha256Base64 Scenario.ordered
             signature "{}" "payment.succeeded" Scenario.event1 t);
      [discriminate | exact Hvalid]. }
  rewrite (Hthrows now). cbn [fst]. rewrite (Hthrows later). cbn [fst].
  repeat split.
Qed.

Lemma webhook_signed_delivery_credits_nothing_witness :
  yocoWebhook (Some "whsec_c2VjcmV0") Cascade (fun s => s) (fun key _ => key)
    Scenario.ordered (Scenario.signedRequest "v1,c2VjcmV0") 1700
  = (Scenario.ordered,
     Rejected
       (TypeError "Cannot read properties of undefined (reading 'replace')"))
  /\ yocoWebhook (Some "whsec_c2VjcmV0") Cascade (fun s => s)
       (fun key _ => key)
       (fst (yocoWebhook (Some "whsec_c2VjcmV0") Cascade (fun s => s)
               (fun key _ => key) Scenario.ordered
               (Scenario.signedRequest "v1,c2VjcmV0") 1700))
       (Scenario.signedRequest "v1,c2VjcmV0") 1760
     = yocoWebhook (Some "whsec_c2VjcmV0") Cascade (fun s => s)
         (fun key _ => key) Scenario.ordered
         (Scenario.signedRequest "v1,c2VjcmV0") 1700
  /\ status_of
       (fst (yocoWebhook (Some "whsec_c2VjcmV0") Cascade (fun s => s)
               (fun key _ => key)
               (fst (yocoWebhook (Some "whsec_c2VjcmV0") Cascade (fun s => s)
                       (fun key _ => key) Scenario.ordered
                       (Scenario.signedRequest "v1,c2VjcmV0") 1700))
               (Scenario.signedRequest "v1,c2VjcmV0") 1760)) "order-1"
     = Some pending
  /\ payment_status_of
       (fst (yocoWebhook (Some "whsec_c2VjcmV0") Cascade (fun s => s)
               (fun key _ => key)
               (fst (yocoWebhook (Some "whsec_c2VjcmV0") Cascade (fun s => s)
                       (fun key _ => key) Scenario.ordered
                       (Scenario.signedRequest "v1,c2VjcmV0") 1700))
               (Scenario.signedRequest "v1,c2VjcmV0") 1760)) "order-1"
     = Some p_pending
  /\ loyalty_of
       (fst (yocoWebhook (Some "whsec_c2VjcmV0") Cascade (fun s => s)
               (fun key _ => key) Scenario.ordered
               (Scenario.signedRequest "v1,c2VjcmV0") 1700)) "user-1"
     = Some 0
  /\ loyalty_of
       (fst (yocoWebhook (Some "whsec_c2VjcmV0") Cascade (fun s => s)
               (fun key _ => key)
               (fst (yocoWebhook (Some "whsec_c2VjcmV0") Cascade (fun s => s)
                       (fun key _ => key) Scenario.ordered
                       (Scenario.signedRequest "v1,c2VjcmV0") 1700))
               (Scenario.signedRequest "v1,c2VjcmV0") 1760)) "user-1"
     = Some 0.
Proof.
  apply (webhook_signed_delivery_credits_nothing Cascade (fun s => s)
           (fun key _ => key) "v1,c2VjcmV0" "msg-1" "1700" 1700 1760).
  reflexivity.
Defined.

(** ** The success transition *)

Lemma successTransaction_inv (s s' : Store) (orderId paymentId userId : string)
  (quantity : Z) (f : Payment.t -> Payment.t) :
  transaction (successTransaction orderId paymentId userId quantity f) s
  = Ok s' ->
  s' = succeeded s orderId paymentId userId quantity f.
Proof.
  unfold successTransaction, transaction. intros H.
  apply bind_Ok in H. destruct H as [s1 [H1 H]].
  apply bind_Ok in H. destruct H as [s2 [H2 H]].
  apply bind_Ok in H. destruct H as [s3 [H3 H]].
  inversion H; subst s3; clear H.
  unfold order_update in H1. apply bind_Ok in H1.
  destruct H1 as [t1 [Ht1 H1]]. apply update_inv in Ht1.
  destruct Ht1 as [_ ->]. inversion H1; subst s1; clear H1.
  unfold payment_update in H2. apply bind_Ok in H2.
  destruct H2 as [t2 [Ht2 H2]]. apply update_inv in Ht2.
  destruct Ht2 as [_ ->]. inversion H2; subst s2; clear H2.
  unfold user_update in H3. apply bind_Ok in H3.
  destruct H3 as [t3 [Ht3 H3]]. apply update_inv in Ht3.
  destruct Ht3 as [_ ->]. inversion H3; subst s'; clear H3.
  reflexivity.
Qed.

Lemma payment_with_order_inv (s : Store) (w : Payment.t -> bool)
  (payment : Payment.t) (order : Order.t) :
  payment_with_order s w = Some (payment, order) ->
  find w (payments s) = Some payment
  /\ findUnique Order.id (orders s) (Payment.orderId payment) = Some order.
Proof.
  unfold payment_with_order.
  destruct (find w (payments s)) as [p|]; [|discriminate].
  destruct (findUnique Order.id (orders s) (Payment.orderId p)) as [o|] eqn:E;
    [|discriminate].
  intros H. inversion H; subst. auto.
Qed.

(** ** The success redirect *)

(** C5.  The provider reports the status 'succeeded' for the checkout of a
    pending order: the success redirect applies nothing (the order stays
    pending, the payment pending, the buyer's points as they were) and sends
    the buyer to the pending link.  The handler's test is on the word
    'successful', which is not a status of [YocoPaymentResponse]. *)
Theorem redirect_success_succeeded_applies_nothing :
  status_of Scenario.ordered "order-1" = Some pending
  /\ payment_of_order Scenario.ordered "order-1" = Some Scenario.opened
  /\ yocoSuccess Scenario.APP_SCHEME Scenario.ordered (Some "order-1") 1800
       (Scenario.polled "succeeded")
     = (Scenario.ordered, Redirect "savr://payment/pending?orderId=order-1")
  /\ status_of
       (fst (yocoSuccess Scenario.APP_SCHEME Scenario.ordered (Some "order-1")
               1800 (Scenario.polled "succeeded"))) "order-1"
     = Some pending
  /\ payment_status_of
       (fst (yocoSuccess Scenario.APP_SCHEME Scenario.ordered (Some "order-1")
               1800 (Scenario.polled "succeeded"))) "order-1"
     = Some p_pending
  /\ loyalty_of
       (fst (yocoSuccess Scenario.APP_SCHEME Scenario.ordered (Some "order-1")
               1800 (Scenario.polled "succeeded"))) "user-1"
     = Some 0.
Proof. vm_compute. repeat split. Qed.

(** ** The lower bound of the listing invariant *)

Section RewrittenFacts.

Context {R : Type}.
Variable key : R -> string.

Lemma rewritten_keys (k : string) (f : R -> R) (t : list R) :
  (forall r, key (f r) = key r) ->
  map key (rewritten key k f t) = map key t.
Proof.
  intros Hf. unfold rewritten. rewrite map_map. apply map_ext.
  intros r. destruct (has_key key k r); [apply Hf | reflexivity].
Qed.

Lemma Forall_rewritten (P : R -> Prop) (k : string) (f : R -> R) (t : list R) :
  Forall P t ->
  (forall r, In r t -> key r = k -> P (f r)) ->
  Forall P (rewritten key k f t).
Proof.
  intros Ht Hf. unfold rewritten. apply Forall_forall. intros x Hx.
  apply in_map_iff in Hx. destruct Hx as [r [<- Hr]].
  destruct (has_key key k r) eqn:E.
  - apply Hf; [exact Hr | apply has_key_eq, E].
  - rewrite Forall_forall in Ht. apply Ht, Hr.
Qed.

Lemma NoDup_keys_row (t : list R) (a b : R) :
  NoDup (map key t) -> In a t -> In b t -> key a = key b -> a = b.
Proof.
  induction t as [|x t IH]; simpl; intros Hnd Ha Hb Hk; [contradiction|].
  inversion Hnd as [|? ? Hx Hnd']; subst.
  destruct Ha as [<- | Ha], Hb as [<- | Hb].
  - reflexivity.
  - exfalso. apply Hx. rewrite Hk. apply in_map, Hb.
  - exfalso. apply Hx. rewrite <- Hk. apply in_map, Ha.
  - apply IH; assumption.
Qed.

End RewrittenFacts.

Lemma sound_same (s s' : Store) :
  bags s' = bags s -> orders s' = orders s ->
  stock_sound s -> stock_sound s'.
Proof. unfold stock_sound. intros -> ->. auto. Qed.

Lemma keeps_bag_restore (id : string) (q : Z) :
  0 <= q -> keeps_sound (fun s => bag_update s id (Bag_restore q)).
Proof.
  intros Hq s s' [Hnd [Hb Ho]] H. unfold bag_update in H.
  apply bind_Ok in H. destruct H as [t [Ht H]]. apply update_inv in Ht.
  destruct Ht as [_ ->]. inversion H; subst s'; clear H.
  unfold stock_sound. cbn [bags orders with_bags]. split; [|split].
  - rewrite rewritten_keys by reflexivity. exact Hnd.
  - apply Forall_rewritten; [exact Hb|]. intros r Hr _.
    rewrite Forall_forall in Hb. specialize (Hb r Hr). simpl. lia.
  - exact Ho.
Qed.

Lemma keeps_order_update (id : string) (f : Order.t -> Order.t) :
  (forall o, Order.quantity (f o) = Order.quantity o) ->
  keeps_sound (fun s => order_update s id f).
Proof.
  intros Hf s s' [Hnd [Hb Ho]] H. unfold order_update in H.
  apply bind_Ok in H. destruct H as [t [Ht H]]. apply update_inv in Ht.
  destruct Ht as [_ ->]. inversion H; subst s'; clear H.
  unfold stock_sound. cbn [bags orders with_orders].
  split; [exact Hnd|]. split; [exact Hb|].
  apply Forall_rewritten; [exact Ho|]. intros r Hr _. rewrite Hf.
  rewrite Forall_forall in Ho. apply Ho, Hr.
Qed.

Lemma keeps_payment_update (id : string) (f : Payment.t -> Payment.t) :
  keeps_sound (fun s => payment_update s id f).
Proof.
  intros s s' Hs H. unfold payment_update in H. apply bind_Ok in H.
  destruct H as [t [_ H]]. inversion H; subst s'.
  apply (sound_same s); auto.
Qed.

Lemma keeps_user_update (id : string) (f : User.t -> User.t) :
  keeps_sound (fun s => user_update s id f).
Proof.
  intros s s' Hs H. unfold user_update in H. apply bind_Ok in H.
  destruct H as [t [_ H]]. inversion H; subst s'.
  apply (sound_same s); auto.
Qed.

Lemma keeps_payment_create (p : Payment.t) :
  keeps_sound (fun s => payment_create s p).
Proof.
  intros s s' Hs H. unfold payment_create in H. apply bind_Ok in H.
  destruct H as [t [_ H]]. inversion H; subst s'.
  apply (sound_same s); auto.
Qed.

Lemma keeps_order_delete (onDelete : ReferentialAction) (id : string) :
  keeps_sound (fun s => order_delete onDelete s id).
Proof.
  intros s s' [Hnd [Hb Ho]] H. unfold order_delete in H.
  apply bind_Ok in H. destruct H as [t [Ht H]].
  unfold delete in Ht. destruct (existsb _ _); [|discriminate].
  inversion Ht; subst t; clear Ht.
  assert (Hf : Forall (fun o => 0 <= Order.quantity o)
                 (filter (fun r => negb (has_key Order.id id r)) (orders s))).
  { apply Forall_forall. intros o Hin. apply filter_In in Hin.
    rewrite Forall_forall in Ho. apply Ho, Hin. }
  destruct onDelete.
  - inversion H; subst s'. unfold stock_sound. cbn [bags orders]. auto.
  - destruct (existsb _ _); [discriminate|]. inversion H; subst s'.
    unfold stock_sound. cbn [bags orders with_orders]. auto.
Qed.

Lemma keeps_transaction (ops : list (Store -> result Store)) :
  Forall keeps_sound ops -> keeps_sound (transaction ops).
Proof.
  induction ops as [|op ops IH]; intros Hops s s' Hs H.
  - inversion H; subst. exact Hs.
  - inversion Hops as [|? ? Hop Hrest]; subst.
    cbn [transaction] in H. apply bind_Ok in H. destruct H as [s1 [H1 H]].
    apply (IH Hrest s1 s'); [|exact H]. apply (Hop s s1 Hs H1).
Qed.

Lemma sound_reserve (s : Store) (sub bagId : string) (q now : Z)
  (newId orderNumber qrCode : string) (r : Reservation) :
  0 <= q -> stock_sound s ->
  reserveTransaction s sub bagId q now newId orderNumber qrCode = Ok r ->
  stock_sound (r_store r).
Proof.
  intros Hq [Hnd [Hb Ho]] H. apply reserveTransaction_inv in H.
  destruct H as [bag [Hbag [_ [_ [Horder [Horders [_ [_ [Hbags Hle]]]]]]]]].
  unfold stock_sound. rewrite Hbags, Horders. split; [|split].
  - rewrite rewritten_keys by reflexivity. exact Hnd.
  - apply Forall_rewritten; [exact Hb|]. intros b Hin Hkey.
    assert (b = bag).
    { apply (NoDup_keys_row Bag.id (bags s)); auto.
      - apply (findUnique_In Bag.id _ _ _ Hbag).
      - rewrite Hkey. symmetry. apply (findUnique_key Bag.id _ _ _ Hbag). }
    subst b. simpl. lia.
  - apply Forall_app. split; [exact Ho|]. constructor; [|constructor].
    rewrite Horder. simpl. exact Hq.
Qed.

Lemma validate_quantity_bounds (quantity : option Z) (q : Z) :
  validate_quantity quantity = Some q -> 1 <= q <= 10.
Proof.
  unfold validate_quantity.
  destruct ((1 <=? _) && (_ <=? 10)) eqn:E; [|discriminate].
  intros H. inversion H; subst. apply andb_true_iff in E.
  destruct E as [E1 E2]. apply Z.leb_le in E1, E2. lia.
Qed.

Lemma found_order_quantity (s : Store) (w : Order.t -> bool) (order : Order.t) :
  stock_sound s -> find w (orders s) = Some order -> 0 <= Order.quantity order.
Proof.
  intros [_ [_ Ho]] H. apply find_some in H.
  rewrite Forall_forall in Ho. apply Ho, H.
Qed.

Lemma keeps_successTransaction (orderId paymentId userId : string)
  (quantity : Z) (f : Payment.t -> Payment.t) :
  keeps_sound
    (transaction (successTransaction orderId paymentId userId quantity f)).
Proof.
  apply keeps_transaction. unfold successTransaction.
  each_operation.
  - apply keeps_order_update. reflexivity.
  - apply keeps_payment_update.
  - apply keeps_user_update.
Qed.

Section SoundHandlers.

Variable APP_URL : string.
Variable APP_SCHEME : string.
Variable YOCO_WEBHOOK_SECRET : option string.
Variable onDelete : ReferentialAction.
Variable base64Decode : string -> string.
Variable hmacSha256Base64 : string -> string -> string.

Lemma sound_createOrder (s : Store) (sub bagId : string)
  (quantity : option Z) (now : Z)
  (newId orderNumber qrCode paymentId : string)
  (post : Yoco.CheckoutRequest -> result Yoco.YocoCheckoutResponse) :
  stock_sound s ->
  stock_sound (fst (createOrder APP_URL onDelete s sub bagId quantity now
                      newId orderNumber qrCode paymentId post)).
Proof.
  intros Hs. unfold createOrder.
  destruct (validate_quantity quantity) as [q|] eqn:Hv; [|exact Hs].
  apply validate_quantity_bounds in Hv.
  destruct (reserveTransaction s sub bagId q now newId orderNumber qrCode)
    as [r|e] eqn:Hr; [|exact Hs].
  apply sound_reserve in Hr; [|lia|exact Hs].
  match goal with
  | |- context [bind ?m ?k] => destruct (bind m k) as [[s2 checkout]|e] eqn:Hb
  end.
  - apply bind_Ok in Hb. destruct Hb as [c [_ Hb]].
    apply bind_Ok in Hb. destruct Hb as [s3 [Hs3 Hb]].
    inversion Hb; subst. cbn [fst].
    apply (keeps_payment_create _ _ _ Hr Hs3).
  - destruct (order_delete onDelete (r_store r) (Order.id (r_order r)))
      as [s3|e'] eqn:Hd; cbn [fst]; [|exact Hr].
    apply (keeps_order_delete _ _ _ _ Hr Hd).
Qed.

Lemma sound_cancelOrder (s : Store) (sub id : string)
  (reason : option string) (now : Z) :
  stock_sound s -> stock_sound (fst (cancelOrder s sub id reason now)).
Proof.
  intros Hs. unfold cancelOrder.
  destruct (negb (validate_reason reason)); [exact Hs|].
  destruct (findUnique Order.id (orders s) id) as [order|] eqn:Ho;
    [|exact Hs].
  destruct (negb (String.eqb (Order.userId order) sub)); [exact Hs|].
  destruct (negb (includes [pending; paid] (Order.status order)));
    [exact Hs|].
  destruct (transaction _ s) as [s'|e] eqn:Ht; cbn [fst]; [|exact Hs].
  revert Ht. apply keeps_transaction; [|exact Hs].
  each_operation.
  - apply keeps_order_update. reflexivity.
  - apply keeps_bag_restore. apply (found_order_quantity s _ _ Hs Ho).
Qed.

Lemma sound_updateOrderStatus (s : Store) (sub id status : string) (now : Z) :
  stock_sound s -> stock_sound (fst (updateOrderStatus s sub id status now)).
Proof.
  intros Hs. unfold updateOrderStatus.
  destruct (parse_status status) as [st|]; [|exact Hs].
  destruct (findUnique Order.id (orders s) id); [|exact Hs].
  destruct (restaurant_of_owner s sub); [|exact Hs].
  destruct (negb _); [exact Hs|].
  destruct (order_update s id (Order_business st now sub)) as [s'|e] eqn:Hu;
    [|exact Hs].
  assert (Hs' : stock_sound s')
    by (apply (keeps_order_update id (Order_business st now sub)
                 (fun o => eq_refl) s s' Hs Hu)).
  destruct (findUnique Order.id (orders s') id); exact Hs'.
Qed.

Lemma sound_scanOrder (s : Store) (sub : string) (qrCode : option string)
  (now : Z) :
  stock_sound s -> stock_sound (fst (scanOrder s sub qrCode now)).
Proof.
  intros Hs. unfold scanOrder.
  destruct (negb (truthy qrCode)); [exact Hs|].
  destruct (restaurant_of_owner s sub); [|exact Hs].
  destruct (order_of_qrCode s (template qrCode)) as [order|]; [|exact Hs].
  destruct (negb (String.eqb _ _)); [exact Hs|].
  destruct (negb (includes _ _)); [exact Hs|].
  destruct (order_update s (Order.id order) (Order_collect now))
    as [s'|e] eqn:Hu; [|exact Hs].
  apply (keeps_order_update _ (Order_collect now) (fun o => eq_refl) s s'
           Hs Hu).
Qed.

Lemma sound_yocoSuccess (s : Store) (orderId : option string) (now : Z)
  (get : string -> result Yoco.YocoPaymentResponse) :
  stock_sound s -> stock_sound (fst (yocoSuccess APP_SCHEME s orderId now get)).
Proof.
  intros Hs. unfold yocoSuccess.
  destruct (negb (truthy orderId)); [exact Hs|].
  destruct (findUnique Order.id (orders s) (template orderId)) as [order|];
    [|exact Hs].
  destruct (payment_of_order s (Order.id order)) as [payment|]; [|exact Hs].
  destruct (negb (truthy _)); [exact Hs|].
  destruct (Yoco.getCheckoutStatus get _) as [c|e]; [|exact Hs].
  destruct (isSuccessful c); [|exact Hs].
  destruct (transaction _ s) as [s'|e] eqn:Ht; [|exact Hs].
  apply (keeps_successTransaction _ _ _ _ _ s s' Hs Ht).
Qed.

Lemma sound_abandonOrder (s : Store) (orderId : option string) :
  stock_sound s -> stock_sound (abandonOrder onDelete s orderId).
Proof.
  intros Hs. unfold abandonOrder.
  destruct (truthy orderId); [|exact Hs].
  destruct (restoreInventory s (template orderId)) as [s1|e] eqn:Hr;
    [|exact Hs].
  assert (Hs1 : stock_sound s1).
  { unfold restoreInventory in Hr.
    destruct (findUnique Order.id (orders s) (template orderId))
      as [order|] eqn:Ho.
    - revert Hr. apply keeps_bag_restore; [|exact Hs].
      apply (found_order_quantity s _ _ Hs Ho).
    - inversion Hr; subst. exact Hs. }
  destruct (order_delete onDelete s1 (template orderId)) as [s2|e] eqn:Hd;
    [|exact Hs1].
  apply (keeps_order_delete _ _ _ _ Hs1 Hd).
Qed.

Lemma sound_webhookEvent (s : Store) (type : string) (p : Payload) (now : Z) :
  stock_sound s -> stock_sound (fst (webhookEvent onDelete s type p now)).
Proof.
  intros Hs. unfold webhookEvent.
  match goal with
  | |- context [match ?a with Ok _ => _ | Throw _ => _ end] =>
      destruct a as [s'|e] eqn:Ha
  end; cbn [fst]; [|exact Hs].
  destruct (String.eqb type "payment.succeeded").
  { unfold paymentSucceeded in Ha.
    destruct (payment_with_order s _) as [[payment order]|];
      [|inversion Ha; subst; exact Hs].
    apply (keeps_successTransaction _ _ _ _ _ s s' Hs Ha). }
  destruct (String.eqb type "payment.failed").
  { unfold paymentFailed in Ha.
    destruct (payment_with_order s _) as [[payment order]|] eqn:Hf;
      [|inversion Ha; subst; exact Hs].
    apply payment_with_order_inv in Hf. destruct Hf as [_ Ho].
    revert Ha. apply keeps_transaction; [|exact Hs].
    each_operation.
    - apply keeps_bag_restore. apply (found_order_quantity s _ _ Hs Ho).
    - apply keeps_payment_update.
    - apply keeps_order_delete. }
  destruct (String.eqb type "refund.succeeded").
  { unfold refundSucceeded in Ha.
    destruct (payment_with_order s _) as [[payment order]|] eqn:Hf;
      [|inversion Ha; subst; exact Hs].
    apply payment_with_order_inv in Hf. destruct Hf as [_ Ho].
    revert Ha. apply keeps_transaction; [|exact Hs].
    each_operation.
    - apply keeps_bag_restore. apply (found_order_quantity s _ _ Hs Ho).
    - apply keeps_payment_update.
    - apply keeps_order_update. reflexivity. }
  inversion Ha; subst. exact Hs.
Qed.

Lemma sound_yocoWebhook (s : Store) (req : WebhookRequest) (now : Z) :
  stock_sound s ->
  stock_sound
    (fst (yocoWebhook YOCO_WEBHOOK_SECRET onDelete base64Decode
            hmacSha256Base64 s req now)).
Proof.
  intros Hs. unfold yocoWebhook.
  destruct (negb (truthy YOCO_WEBHOOK_SECRET)); [exact Hs|].
  destruct (negb (truthy (signatureHeader req))); [exact Hs|].
  destruct (Yoco.verifyWebhookSignature _ _ _ _ _ _ _) as [isValid|e];
    [|exact Hs].
  destruct (negb isValid); [exact Hs|].
  apply sound_webhookEvent, Hs.
Qed.

Lemma sound_step (s : Store) (op : Op) :
  stock_sound s ->
  stock_sound
    (step APP_URL APP_SCHEME YOCO_WEBHOOK_SECRET onDelete base64Decode
       hmacSha256Base64 s op).
Proof.
  intros Hs. unfold step. destruct op; cbn [handle].
  - apply sound_createOrder, Hs.
  - apply sound_cancelOrder, Hs.
  - apply sound_updateOrderStatus, Hs.
  - apply sound_scanOrder, Hs.
  - apply sound_yocoSuccess, Hs.
  - apply sound_abandonOrder, Hs.
  - apply sound_abandonOrder, Hs.
  - apply sound_yocoWebhook, Hs.
  - apply sound_webhookEvent, Hs.
Qed.

(** X13.  The lower half of the listing invariant: from a store whose listing
    ids are unique and whose quantities are not negative, no sequence of
    handlers, whatever their inputs, brings a [quantityRemaining] below
    zero. *)
Theorem remaining_never_negative (s : Store) (ops : list Op) :
  stock_sound s ->
  Forall (fun b => 0 <= Bag.quantityRemaining b)
    (bags (run APP_URL APP_SCHEME YOCO_WEBHOOK_SECRET onDelete base64Decode
             hmacSha256Base64 s ops)).
Proof.
  intros Hs.
  assert (H : stock_sound
                (run APP_URL APP_SCHEME YOCO_WEBHOOK_SECRET onDelete
                   base64Decode hmacSha256Base64 s ops)).
  { revert s Hs. induction ops as [|op ops IH]; intros s Hs; [exact Hs|].
    cbn [run fold_left]. apply IH. apply sound_step, Hs. }
  apply H.
Qed.

End SoundHandlers.

(** The scenarios start from a store the theorem applies to. *)
Example market_sound : stock_sound (Scenario.market 1 1).
Proof.
  unfold stock_sound. cbn [Scenario.market bags orders map].
  split; [|split].
  - constructor; [intros [] | constructor].
  - constructor; [vm_compute; discriminate | constructor].
  - constructor.
Qed.

(** The statuses [errorHandler] gives the errors of the reservation. *)
Example reservation_error_statuses :
  map errorHandler_status
    [ApiError "Bag not found" 404; ApiError "Bag is not available" 400;
     ApiError "Not enough bags available" 400;
     ApiError "Pickup window has ended" 400]
  = [404; 400; 400; 400].
Proof. reflexivity. Qed.

(** * Further properties of the handlers *)

(** ** The webhook endpoint *)

(** X1. Whatever the request, the secret and the store, the webhook
    endpoint leaves the store as it is and never answers 200: without a
    secret it answers 500, without a signature header 401, and with both
    the adapter's check throws before the event is read. *)
Theorem yocoWebhook_never_applies :
  forall (secret : option string) (onDelete : ReferentialAction)
         (base64Decode : string -> string)
         (hmacSha256Base64 : string -> string -> string) (s : Store)
         (req : WebhookRequest) (now : Z),
  fst (yocoWebhook secret onDelete base64Decode hmacSha256Base64 s req now) = s
  /\ (forall body,
        snd (yocoWebhook secret onDelete base64Decode hmacSha256Base64 s req
               now) <> Json 200 body).
Proof.
  intros secret onDelete base64Decode hmacSha256Base64 s req now.
  unfold yocoWebhook.
  destruct (negb (truthy secret)); [split; [reflexivity | discriminate]|].
  destruct (negb (truthy (signatureHeader req)));
    [split; [reflexivity | discriminate]|].
  cbn [Yoco.verifyWebhookSignature]. split; [reflexivity | discriminate].
Qed.

(** ** The adapter's signature check *)

Lemma split_free (c : ascii) (s : string) :
  contains c s = false -> split c s = [s].
Proof.
  induction s as [|x s IH]; simpl; [reflexivity|].
  intros H. apply orb_false_iff in H. destruct H as [Hx Hs].
  rewrite Ascii.eqb_sym in Hx. rewrite Ascii.eqb_sym, Hx.
  rewrite (IH Hs). reflexivity.
Qed.

Lemma split_app (c : ascii) (a b : string) :
  contains c a = false ->
  split c (String.append a (String c b)) = a :: split c b.
Proof.
  induction a as [|x a IH]; simpl.
  - intros _. rewrite Ascii.eqb_refl. reflexivity.
  - intros H. apply orb_false_iff in H. destruct H as [Hx Ha].
    rewrite Hx, (IH Ha). reflexivity.
Qed.

Lemma split_concat (c : ascii) (part : string) (parts : list string) :
  Forall (fun p => contains c p = false) (part :: parts) ->
  split c (String.concat (String c EmptyString) (part :: parts))
  = part :: parts.
Proof.
  revert part. induction parts as [|q parts IH]; intros part H.
  - simpl. apply split_free. inversion H; assumption.
  - inversion H as [|? ? Hp Hrest]; subst.
    change (String.concat (String c EmptyString) (part :: q :: parts))
      with (String.append part
              (String.append (String c EmptyString)
                 (String.concat (String c EmptyString) (q :: parts)))).
    cbn [String.append]. rewrite (split_app c _ _ Hp), (IH q Hrest).
    reflexivity.
Qed.

Lemma timingSafeEqual_true (a b : string) :
  match Yoco.timingSafeEqual a b with Ok r => r | Throw _ => false end = true
  <-> a = b.
Proof.
  unfold Yoco.timingSafeEqual. split.
  - destruct (Nat.eqb (String.length a) (String.length b)); [|discriminate].
    apply String.eqb_eq.
  - intros ->. rewrite Nat.eqb_refl. apply String.eqb_refl.
Qed.

(** X2. With a secret, the check never throws, and it answers [true]
    exactly when one of the space-separated entries of the header has a
    second comma-separated field whose base64 decoding is the decoding of
    the expected signature; the first field (the version) is not looked
    at. *)
Theorem verifyWebhookSignature_accepts_iff :
  forall (base64Decode : string -> string)
         (hmacSha256Base64 : string -> string -> string)
         (payload signature secret : string)
         (webhookId webhookTimestamp : option string),
  exists accepted,
    Yoco.verifyWebhookSignature base64Decode hmacSha256Base64 payload
      signature webhookId webhookTimestamp (Some secret) = Ok accepted
    /\ (accepted = true <->
        exists entry field,
          In entry (split " " signature)
          /\ nth_error (split "," entry) 1 = Some field
          /\ base64Decode field
             = base64Decode
                 (expectedSignature base64Decode hmacSha256Base64 payload
                    webhookId webhookTimestamp secret)).
Proof.
  intros base64Decode hmacSha256Base64 payload signature secret webhookId
    webhookTimestamp.
  eexists. split; [reflexivity|].
  fold (expectedSignature base64Decode hmacSha256Base64 payload webhookId
          webhookTimestamp secret).
  rewrite existsb_exists. split.
  - intros [sig [Hin Hsig]]. apply in_map_iff in Hin.
    destruct Hin as [entry [Hentry Hin]]. exists entry.
    destruct sig as [field|]; [|discriminate Hsig].
    exists field. split; [exact Hin|]. split; [exact Hentry|].
    cbn [Yoco.bufferFrom bind] in Hsig. apply timingSafeEqual_true, Hsig.
  - intros [entry [field [Hin [Hfield Heq]]]].
    exists (Some field). split.
    + apply in_map_iff. exists entry. auto.
    + cbn [Yoco.bufferFrom bind]. apply timingSafeEqual_true, Heq.
Qed.

Lemma contains_concat_entry (v e : string) :
  contains " " v = false -> contains " " e = false ->
  contains " " (String.append v (String "," e)) = false.
Proof.
  intros Hv He. induction v as [|x v IH]; simpl.
  - exact He.
  - simpl in Hv. apply orb_false_iff in Hv. destruct Hv as [Hx Hv].
    rewrite Hx. exact (IH Hv).
Qed.

(** X3. A header made of space-separated entries, one of which is a
    version, a comma and the expected signature, is accepted: signing and
    verifying agree, whatever the version tag and the other entries. *)
Theorem verifyWebhookSignature_accepts_signed :
  forall (base64Decode : string -> string)
         (hmacSha256Base64 : string -> string -> string)
         (payload secret version : string)
         (webhookId webhookTimestamp : option string)
         (before after : list string),
  let expected :=
    expectedSignature base64Decode hmacSha256Base64 payload webhookId
      webhookTimestamp secret in
  let entry := String.append version (String "," expected) in
  contains " " expected = false ->
  contains "," expected = false ->
  contains " " version = false ->
  contains "," version = false ->
  Forall (fun p => contains " " p = false) (before ++ after) ->
  Yoco.verifyWebhookSignature base64Decode hmacSha256Base64 payload
    (String.concat " " (before ++ entry :: after)) webhookId webhookTimestamp
    (Some secret)
  = Ok true.
Proof.
  intros base64Decode hmacSha256Base64 payload secret version webhookId
    webhookTimestamp before after expected entry He1 He2 Hv1 Hv2 Hrest.
  unfold Yoco.verifyWebhookSignature.
  fold (expectedSignature base64Decode hmacSha256Base64 payload webhookId
          webhookTimestamp secret).
  fold expected. f_equal. apply existsb_exists. exists (Some expected).
  split.
  - apply in_map_iff. exists entry. split.
    + unfold entry. rewrite (split_app "," version expected Hv2).
      rewrite (split_free "," expected He2). reflexivity.
    + assert (Hall : Forall (fun p => contains " " p = false)
                       (before ++ entry :: after)).
      { apply Forall_app in Hrest. destruct Hrest as [Hb Ha].
        apply Forall_app. split; [exact Hb|]. constructor; [|exact Ha].
        apply contains_concat_entry; assumption. }
      destruct (before ++ entry :: after) as [|p ps] eqn:E.
      * destruct before; discriminate E.
      * rewrite (split_concat " " p ps Hall). rewrite <- E.
        apply in_or_app. right. left. reflexivity.
  - cbn [Yoco.bufferFrom bind]. apply timingSafeEqual_true. reflexivity.
Qed.

Lemma verifyWebhookSignature_accepts_signed_witness :
  Yoco.verifyWebhookSignature (fun s => s) (fun key _ => key) "{}"
    "v1,enp6eg== v2,c2VjcmV0" (Some "msg_1") (Some "1700000000")
    (Some "whsec_c2VjcmV0")
  = Ok true.
Proof.
  apply (verifyWebhookSignature_accepts_signed (fun s => s)
           (fun key _ => key) "{}" "whsec_c2VjcmV0" "v2" (Some "msg_1")
           (Some "1700000000") ["v1,enp6eg=="] []);
    try reflexivity.
  repeat constructor.
Defined.

(** ** The cancel and failure redirects *)

Lemma existsb_filter_out {R : Type} (key : R -> string) (k : string)
  (t : list R) :
  existsb (has_key key k) (filter (fun r => negb (has_key key k r)) t) = false.
Proof.
  induction t as [|x t IH]; simpl; [reflexivity|].
  destruct (has_key key k x) eqn:E; simpl; [exact IH|].
  rewrite E. exact IH.
Qed.

Lemma order_delete_inv (onDelete : ReferentialAction) (s s' : Store)
  (id : string) :
  order_delete onDelete s id = Ok s' ->
  existsb (has_key Order.id id) (orders s) = true
  /\ orders s' = filter (fun r => negb (has_key Order.id id r)) (orders s)
  /\ bags s' = bags s /\ users s' = users s.
Proof.
  unfold order_delete, delete.
  destruct (existsb (has_key Order.id id) (orders s)); [|discriminate].
  cbn [bind]. destruct onDelete.
  - intros H. inversion H. auto.
  - destruct (existsb _ (payments s)); [discriminate|].
    intros H. inversion H. auto.
Qed.

Lemma order_delete_missing (onDelete : ReferentialAction) (s : Store)
  (id : string) :
  existsb (has_key Order.id id) (orders s) = false ->
  order_delete onDelete s id = Throw (PrismaError "P2025").
Proof. intros H. unfold order_delete, delete. rewrite H. reflexivity. Qed.

Lemma bag_update_orders (s s' : Store) (id : string) (f : Bag.t -> Bag.t) :
  bag_update s id f = Ok s' -> orders s' = orders s.
Proof.
  unfold bag_update. intros H. apply bind_Ok in H.
  destruct H as [t [_ H]]. inversion H. reflexivity.
Qed.

(** X4. Where the schema deletes the payment with its order, following the
    cancel (or failure) redirect a second time changes nothing more: the
    first visit has removed the order, so the second restores no stock. *)
Theorem abandonOrder_replay_is_noop :
  forall (s : Store) (orderId : option string),
  abandonOrder Cascade (abandonOrder Cascade s orderId) orderId
  = abandonOrder Cascade s orderId.
Proof.
  intros s orderId.
  destruct (truthy orderId) eqn:Ht;
    [|unfold abandonOrder; rewrite !Ht; reflexivity].
  assert (Hx : abandonOrder Cascade s orderId
               = match restoreInventory s (template orderId) with
                 | Throw _ => s
                 | Ok s1 =>
                     match order_delete Cascade s1 (template orderId) with
                     | Throw _ => s1
                     | Ok s2 => s2
                     end
                 end)
    by (unfold abandonOrder; rewrite Ht; reflexivity).
  rewrite Hx. clear Hx.
  destruct (restoreInventory s (template orderId)) as [s1|e] eqn:Hr.
  - destruct (order_delete Cascade s1 (template orderId)) as [s2|e] eqn:Hd.
    + apply order_delete_inv in Hd. destruct Hd as [_ [Ho _]].
      assert (Hgone : existsb (has_key Order.id (template orderId)) (orders s2)
                      = false)
        by (rewrite Ho; apply existsb_filter_out).
      unfold abandonOrder. rewrite Ht. unfold restoreInventory.
      assert (Hnone : findUnique Order.id (orders s2) (template orderId)
                      = None).
      { unfold findUnique. rewrite find_existsb in Hgone.
        destruct (find _ (orders s2)); [discriminate | reflexivity]. }
      rewrite Hnone, (order_delete_missing _ _ _ Hgone). reflexivity.
    + assert (Hsame : orders s1 = orders s).
      { unfold restoreInventory in Hr.
        destruct (findUnique Order.id (orders s) (template orderId));
          [apply (bag_update_orders _ _ _ _ Hr) | inversion Hr; reflexivity]. }
      assert (Hmiss : existsb (has_key Order.id (template orderId)) (orders s)
                      = false).
      { unfold order_delete, delete in Hd. rewrite Hsame in Hd.
        destruct (existsb _ (orders s)); [discriminate Hd | reflexivity]. }
      assert (Hnone : findUnique Order.id (orders s) (template orderId)
                      = None).
      { unfold findUnique. rewrite find_existsb in Hmiss.
        destruct (find _ (orders s)); [discriminate | reflexivity]. }
      unfold restoreInventory in Hr. rewrite Hnone in Hr.
      inversion Hr; subst s1.
      unfold abandonOrder. rewrite Ht. unfold restoreInventory.
      rewrite Hnone, (order_delete_missing _ _ _ Hmiss). reflexivity.
  - unfold abandonOrder. rewrite Ht, Hr. reflexivity.
Qed.

Lemma remaining_of_restored (s : Store) (bagId : string) (q r : Z) :
  remaining_of s bagId = Some r ->
  remaining_of (with_bags s (rewritten Bag.id bagId (Bag_restore q) (bags s)))
    bagId
  = Some (r + q).
Proof.
  unfold remaining_of. cbn [bags with_bags].
  rewrite (findUnique_rewritten Bag.id (Bag_restore q)) by reflexivity.
  destruct (findUnique Bag.id (bags s) bagId); [|discriminate].
  cbn. intros H. inversion H. reflexivity.
Qed.

Lemma remaining_of_exists (s : Store) (bagId : string) (r : Z) :
  remaining_of s bagId = Some r ->
  existsb (has_key Bag.id bagId) (bags s) = true.
Proof.
  unfold remaining_of.
  destruct (findUnique Bag.id (bags s) bagId) eqn:E; [|discriminate].
  intros _. apply (findUnique_existsb _ _ _ _ E).
Qed.

Lemma abandonOrder_restricted (s : Store) (id : string) (order : Order.t) :
  id <> "" ->
  findUnique Order.id (orders s) id = Some order ->
  existsb (fun p => String.eqb (Payment.orderId p) id) (payments s) = true ->
  existsb (has_key Bag.id (Order.bagId order)) (bags s) = true ->
  abandonOrder Restrict s (Some id)
  = with_bags s
      (rewritten Bag.id (Order.bagId order)
         (Bag_restore (Order.quantity order)) (bags s)).
Proof.
  intros Hid Ho Hp Hb. unfold abandonOrder.
  assert (Ht : truthy (Some id) = true)
    by (simpl; apply negb_true_iff, String.eqb_neq, Hid).
  rewrite Ht. cbn [template]. unfold restoreInventory. rewrite Ho.
  rewrite (bag_update_found _ _ _ Hb).
  unfold order_delete, delete. cbn [orders payments with_bags].
  rewrite (findUnique_existsb _ _ _ _ Ho). cbn [bind]. rewrite Hp.
  reflexivity.
Qed.

(** X5. Where the schema refuses to delete an order that has a payment,
    every visit of the cancel (or failure) redirect for such an order adds
    the order's quantity to the listing and leaves the order and the
    payment in place: after [n] visits [quantityRemaining] has grown by
    [n] times the quantity. *)
Theorem abandonOrder_restricted_accumulates :
  forall (s : Store) (id : string) (order : Order.t) (r : Z) (n : nat),
  id <> "" ->
  findUnique Order.id (orders s) id = Some order ->
  existsb (fun p => String.eqb (Payment.orderId p) id) (payments s) = true ->
  remaining_of s (Order.bagId order) = Some r ->
  remaining_of (abandoned Restrict n s (Some id)) (Order.bagId order)
  = Some (r + Z.of_nat n * Order.quantity order)
  /\ orders (abandoned Restrict n s (Some id)) = orders s
  /\ payments (abandoned Restrict n s (Some id)) = payments s.
Proof.
  intros s id order r n Hid Ho Hp Hr.
  induction n as [|n IH].
  - cbn [abandoned]. rewrite Hr. repeat split. f_equal. lia.
  - destruct IH as [IHr [IHo IHp]]. cbn [abandoned].
    rewrite (abandonOrder_restricted _ id order Hid).
    + split; [|split; [exact IHo | exact IHp]].
      rewrite (remaining_of_restored _ _ _ _ IHr). f_equal. lia.
    + rewrite IHo. exact Ho.
    + rewrite IHp. exact Hp.
    + apply (remaining_of_exists _ _ _ IHr).
Qed.

Lemma abandonOrder_restricted_accumulates_witness :
  remaining_of (abandoned Restrict 3 Scenario.ordered (Some "order-1")) "bag-1"
  = Some (0 + Z.of_nat 3 * 1)
  /\ orders (abandoned Restrict 3 Scenario.ordered (Some "order-1"))
     = orders Scenario.ordered
  /\ payments (abandoned Restrict 3 Scenario.ordered (Some "order-1"))
     = payments Scenario.ordered.
Proof.
  apply (abandonOrder_restricted_accumulates Scenario.ordered "order-1"
           (Scenario.placed 1) 0 3);
    [discriminate | reflexivity | reflexivity | reflexivity].
Defined.

(** ** The buyer's cancel *)

Lemma findUnique_rewritten_other {R : Type} (key : R -> string) (f : R -> R)
  (t : list R) (k k' : string) :
  (forall r, key (f r) = key r) -> k' <> k ->
  findUnique key (rewritten key k f t) k' = findUnique key t k'.
Proof.
  intros Hf Hne. unfold findUnique, rewritten.
  induction t as [|x t IH]; simpl; [reflexivity|].
  destruct (has_key key k x) eqn:Ek.
  - assert (Hx : has_key key k' x = false).
    { apply has_key_eq in Ek. unfold has_key. apply String.eqb_neq.
      rewrite Ek. intros E. apply Hne. symmetry. exact E. }
    unfold has_key at 1. rewrite Hf. fold (has_key key k' x).
    rewrite Hx. exact IH.
  - destruct (has_key key k' x); [reflexivity | exact IH].
Qed.

(** X6. The buyer's cancel, for a valid reason: 404 when the order does not
    exist, 403 when it is another user's, 400 when it is neither pending
    nor paid, nothing being written in the three cases.  Otherwise the
    order becomes cancelled, the order's quantity goes back to its listing,
    payments and users are not touched (the payment of a paid order keeps
    its status), and a second cancel of the same order is refused with
    400. *)
Theorem cancel_outcomes :
  forall (s : Store) (sub id : string) (reason : option string) (now : Z),
  validate_reason reason = true ->
  (findUnique Order.id (orders s) id = None ->
   cancelOrder s sub id reason now
   = (s, Json 404 (ErrorBody "Order not found")))
  /\ (forall order, findUnique Order.id (orders s) id = Some order ->
      (Order.userId order <> sub ->
       cancelOrder s sub id reason now
       = (s, Json 403 (ErrorBody "Not authorized")))
      /\ (Order.userId order = sub ->
          Order.status order <> pending -> Order.status order <> paid ->
          cancelOrder s sub id reason now
          = (s, Json 400 (ErrorBody "Order cannot be cancelled")))
      /\ (Order.userId order = sub ->
          Order.status order = pending \/ Order.status order = paid ->
          existsb (has_key Bag.id (Order.bagId order)) (bags s) = true ->
          exists s',
            cancelOrder s sub id reason now
            = (s', Json 200 (MessageBody "Order cancelled"))
            /\ status_of s' id = Some cancelled
            /\ bags s'
               = rewritten Bag.id (Order.bagId order)
                   (Bag_restore (Order.quantity order)) (bags s)
            /\ payments s' = payments s
            /\ users s' = users s
            /\ forall reason' now',
                 validate_reason reason' = true ->
                 cancelOrder s' sub id reason' now'
                 = (s', Json 400 (ErrorBody "Order cannot be cancelled")))).
Proof.
  intros s sub id reason now Hv. split.
  - intros Hnone. unfold cancelOrder. rewrite Hv, Hnone. reflexivity.
  - intros order Ho. split; [|split].
    + intros Hne. unfold cancelOrder. rewrite Hv, Ho. cbn [negb].
      apply String.eqb_neq in Hne. rewrite Hne. reflexivity.
    + intros Hu Hp Hq. apply (cancelOrder_finalized _ _ _ _ _ order); auto.
      destruct (Order.status order); try reflexivity; congruence.
    + intros Hu Hst Hbag.
      assert (Hin : includes [pending; paid] (Order.status order) = true)
        by (destruct Hst as [-> | ->]; reflexivity).
      rewrite (cancelOrder_releases_once _ _ _ _ _ order Hv Ho Hu Hin Hbag).
      eexists. split; [reflexivity|].
      assert (Hfound : findUnique Order.id
                (rewritten Order.id id (Order_cancel_buyer now reason sub)
                   (orders s)) id
              = Some (Order_cancel_buyer now reason sub order)).
      { rewrite (findUnique_rewritten Order.id
                   (Order_cancel_buyer now reason sub)) by reflexivity.
        rewrite Ho. reflexivity. }
      split; [unfold status_of; cbn [orders]; rewrite Hfound; reflexivity|].
      split; [reflexivity|]. split; [reflexivity|]. split; [reflexivity|].
      intros reason' now' Hv'.
      apply (cancelOrder_finalized _ _ _ _ _
               (Order_cancel_buyer now reason sub order));
        [exact Hv' | exact Hfound | exact Hu | reflexivity].
Qed.

Lemma cancel_outcomes_witness :
  cancelOrder Scenario.ordered "user-1" "order-9" None 1600
  = (Scenario.ordered, Json 404 (ErrorBody "Order not found"))
  /\ cancelOrder Scenario.ordered "owner-1" "order-1" None 1600
     = (Scenario.ordered, Json 403 (ErrorBody "Not authorized"))
  /\ (exists s',
        cancelOrder Scenario.paidFor "user-1" "order-1" (Some "late") 1800
        = (s', Json 200 (MessageBody "Order cancelled"))
        /\ status_of s' "order-1" = Some cancelled
        /\ remaining_of s' "bag-1" = Some 1
        /\ payment_status_of s' "order-1" = Some p_succeeded
        /\ cancelOrder s' "user-1" "order-1" None 1900
           = (s', Json 400 (ErrorBody "Order cannot be cancelled"))).
Proof.
  split; [|split].
  - apply (proj1 (cancel_outcomes Scenario.ordered "user-1" "order-9" None
                    1600 eq_refl)).
    reflexivity.
  - destruct (cancel_outcomes Scenario.ordered "owner-1" "order-1" None 1600
                eq_refl) as [_ H].
    destruct (H (Scenario.placed 1) eq_refl) as [H403 _].
    apply H403. discriminate.
  - destruct (cancel_outcomes Scenario.paidFor "user-1" "order-1"
                (Some "late") 1800 eq_refl) as [_ H].
    destruct (H (Order_status paid (Scenario.placed 1)) eq_refl)
      as [_ [_ H200]].
    destruct (H200 eq_refl (or_intror eq_refl) eq_refl)
      as [s' [Hrun [Hst [Hbags [Hpay [_ Hagain]]]]]].
    exists s'. split; [exact Hrun|]. split; [exact Hst|].
    split; [unfold remaining_of; rewrite Hbags; reflexivity|].
    split; [unfold payment_status_of, payment_of_order; rewrite Hpay;
            reflexivity|].
    apply Hagain. reflexivity.
Defined.

(** ** The business status route *)

Lemma parse_status_cases (status : string) (st : OrderStatus) :
  parse_status status = Some st ->
  st = ready \/ st = collected \/ st = cancelled.
Proof.
  unfold parse_status.
  destruct (String.eqb status "ready"); [intros H; inversion H; auto|].
  destruct (String.eqb status "collected"); [intros H; inversion H; auto|].
  destruct (String.eqb status "cancelled"); [intros H; inversion H; auto|].
  discriminate.
Qed.

(** X7. PATCH /business/orders/:id/status: a status other than 'ready',
    'collected' and 'cancelled' is refused with 400; an order that does not
    exist or is not of the caller's restaurant gives 404; nothing is
    written in these cases.  Otherwise the order takes the requested
    status whatever its current one (also when it is collected, cancelled
    or refunded), and listings, payments and users are left as they
    are. *)
Theorem updateOrderStatus_outcomes :
  forall (s : Store) (sub id status : string) (now : Z),
  (parse_status status = None ->
   updateOrderStatus s sub id status now
   = (s, Json 400 (ErrorBody "Invalid status")))
  /\ (forall st, parse_status status = Some st ->
      (st = ready \/ st = collected \/ st = cancelled)
      /\ (findUnique Order.id (orders s) id = None ->
          updateOrderStatus s sub id status now
          = (s, Json 404 (ErrorBody "Order not found")))
      /\ (forall order, findUnique Order.id (orders s) id = Some order ->
          (restaurant_of_owner s sub = None ->
           updateOrderStatus s sub id status now
           = (s, Json 404 (ErrorBody "Order not found")))
          /\ (forall restaurant,
                restaurant_of_owner s sub = Some restaurant ->
                (Order.restaurantId order <> Restaurant.id restaurant ->
                 updateOrderStatus s sub id status now
                 = (s, Json 404 (ErrorBody "Order not found")))
                /\ (Order.restaurantId order = Restaurant.id restaurant ->
                    exists s' scanned,
                      updateOrderStatus s sub id status now
                      = (s', Json 200
                               (StatusBody id (Order.orderNumber order) st
                                  scanned))
                      /\ status_of s' id = Some st
                      /\ orders s'
                         = rewritten Order.id id (Order_business st now sub)
                             (orders s)
                      /\ bags s' = bags s
                      /\ payments s' = payments s
                      /\ users s' = users s)))).
Proof.
  intros s sub id status now. split.
  - intros Hp. unfold updateOrderStatus. rewrite Hp. reflexivity.
  - intros st Hp. split; [apply (parse_status_cases _ _ Hp)|]. split.
    + intros Hnone. unfold updateOrderStatus. rewrite Hp, Hnone. reflexivity.
    + intros order Ho. split.
      * intros Hr. unfold updateOrderStatus. rewrite Hp, Ho, Hr. reflexivity.
      * intros restaurant Hr. split.
        -- intros Hne. unfold updateOrderStatus. rewrite Hp, Ho, Hr.
           apply String.eqb_neq in Hne. rewrite Hne. reflexivity.
        -- intros Heq. unfold updateOrderStatus. rewrite Hp, Ho, Hr.
           apply String.eqb_eq in Heq. rewrite Heq. cbn [negb].
           rewrite (order_update_found _ _ _ (findUnique_existsb _ _ _ _ Ho)).
           cbn [orders with_orders].
           rewrite (findUnique_rewritten Order.id (Order_business st now sub))
             by reflexivity.
           rewrite Ho. cbn [option_map].
           do 2 eexists. split.
           { cbn [Order.id Order.orderNumber Order.status Order.qrScannedAt
                    Order_business Order_set].
             rewrite (findUnique_key Order.id _ _ _ Ho). reflexivity. }
           split.
           { unfold status_of. cbn [orders with_orders].
             rewrite (findUnique_rewritten Order.id
                        (Order_business st now sub)) by reflexivity.
             rewrite Ho. reflexivity. }
           repeat split.
Qed.

Lemma updateOrderStatus_outcomes_witness :
  updateOrderStatus Scenario.ordered "owner-1" "order-1" "paid" 1600
  = (Scenario.ordered, Json 400 (ErrorBody "Invalid status"))
  /\ updateOrderStatus Scenario.ordered "owner-2" "order-1" "ready" 1600
     = (Scenario.ordered, Json 404 (ErrorBody "Order not found"))
  /\ (exists s' scanned,
        updateOrderStatus
          (fst (cancelOrder Scenario.ordered "user-1" "order-1" None 1550))
          "owner-1" "order-1" "collected" 1600
        = (s', Json 200 (StatusBody "order-1" "KULA-ABC234" collected scanned))
        /\ status_of s' "order-1" = Some collected).
Proof.
  split; [|split].
  - apply (proj1 (updateOrderStatus_outcomes Scenario.ordered "owner-1"
                    "order-1" "paid" 1600)).
    reflexivity.
  - destruct (updateOrderStatus_outcomes Scenario.ordered "owner-2" "order-1"
                "ready" 1600) as [_ H].
    destruct (H ready eq_refl) as [_ [_ H']].
    destruct (H' (Scenario.placed 1) eq_refl) as [_ H''].
    destruct (H'' Scenario.bakery eq_refl) as [H404 _].
    apply H404. discriminate.
  - destruct (updateOrderStatus_outcomes
                (fst (cancelOrder Scenario.ordered "user-1" "order-1" None
                        1550))
                "owner-1" "order-1" "collected" 1600) as [_ H].
    destruct (H collected eq_refl) as [_ [_ H']].
    destruct (H' (Order_cancel_buyer 1550 None "user-1" (Scenario.placed 1))
                eq_refl) as [_ H''].
    destruct (H'' Scenario.deli eq_refl) as [_ H200].
    destruct (H200 eq_refl) as [s' [scanned [Hrun [Hst _]]]].
    exists s', scanned. split; [exact Hrun | exact Hst].
Defined.

(** ** Ordering, then cancelling or ordering again *)

Lemma reserveTransaction_fresh (s : Store) (sub bagId : string) (q now : Z)
  (newId orderNumber qrCode : string) (r : Reservation) :
  reserveTransaction s sub bagId q now newId orderNumber qrCode = Ok r ->
  existsb (has_key Order.id newId) (orders s) = false.
Proof.
  unfold reserveTransaction.
  destruct (findUnique Bag.id (bags s) bagId) as [bag|]; [|discriminate].
  destruct (negb (Bag.isActive bag) || Bag.isSoldOut bag); [discriminate|].
  destruct (Bag.quantityRemaining bag <? q); [discriminate|].
  destruct (Bag.pickupEnd bag <? now); [discriminate|].
  intros H. apply bind_Ok in H. destruct H as [s1 [Hs1 H]].
  apply bag_update_orders in Hs1.
  destruct (findUnique Bag.id _ bagId) as [updatedBag|]; [|discriminate].
  destruct (Bag.quantityRemaining updatedBag <? 0); [discriminate|].
  apply bind_Ok in H. destruct H as [s2 [Hs2 _]].
  unfold order_create in Hs2. destruct (existsb _ _); [discriminate|].
  destruct (existsb _ _); [discriminate|].
  apply bind_Ok in Hs2. destruct Hs2 as [t [Ht _]].
  unfold create in Ht. cbn [Order.id] in Ht. rewrite Hs1 in Ht.
  destruct (existsb (has_key Order.id newId) (orders s));
    [discriminate | reflexivity].
Qed.

Lemma createOrder_created_inv (APP_URL : string) (onDelete : ReferentialAction)
  (s : Store) (sub bagId : string) (quantity : option Z) (now : Z)
  (newId orderNumber qrCode paymentId : string)
  (post : Yoco.CheckoutRequest -> result Yoco.YocoCheckoutResponse)
  (s' : Store) (body : Body) :
  createOrder APP_URL onDelete s sub bagId quantity now newId orderNumber
    qrCode paymentId post = (s', Json 201 body) ->
  exists q r,
    validate_quantity quantity = Some q
    /\ reserveTransaction s sub bagId q now newId orderNumber qrCode = Ok r
    /\ bags s' = bags (r_store r)
    /\ orders s' = orders (r_store r)
    /\ users s' = users (r_store r).
Proof.
  unfold createOrder.
  destruct (validate_quantity quantity) as [q|]; [|discriminate].
  destruct (reserveTransaction s sub bagId q now newId orderNumber qrCode)
    as [r|e] eqn:Hr; [|discriminate].
  match goal with
  | |- context [bind ?m ?k] => destruct (bind m k) as [[s2 checkout]|e] eqn:Hb
  end.
  2:{ destruct (order_delete _ _ _); discriminate. }
  intros H. inversion H; subst s2; clear H.
  apply bind_Ok in Hb. destruct Hb as [c [_ Hb]].
  apply bind_Ok in Hb. destruct Hb as [s3 [Hs3 Hb]].
  inversion Hb; subst s3; clear Hb.
  unfold payment_create in Hs3. apply bind_Ok in Hs3.
  destruct Hs3 as [t [_ Hs3]]. inversion Hs3; subst s'.
  exists q, r. repeat split; auto.
Qed.

Lemma findUnique_app_fresh {R : Type} (key : R -> string) (t : list R)
  (r : R) :
  existsb (has_key key (key r)) t = false ->
  findUnique key (t ++ [r]) (key r) = Some r.
Proof.
  unfold findUnique. induction t as [|x t IH]; simpl.
  - intros _. unfold has_key. rewrite String.eqb_refl. reflexivity.
  - intros H. apply orb_false_iff in H. destruct H as [Hx Ht].
    rewrite Hx. exact (IH Ht).
Qed.

(** X8. Round trip of a reservation: when an order has been created (201)
    and its buyer then cancels it, the listing has again the
    [quantityRemaining] it had before the order, its sold-out flag is off,
    every other listing is as it was, and the order is cancelled. *)
Theorem order_then_cancel_restores :
  forall (APP_URL : string) (onDelete : ReferentialAction) (s : Store)
         (sub bagId : string) (quantity : option Z) (now : Z)
         (newId orderNumber qrCode paymentId : string)
         (post : Yoco.CheckoutRequest -> result Yoco.YocoCheckoutResponse)
         (s1 : Store) (body : Body) (reason : option string) (later : Z),
  createOrder APP_URL onDelete s sub bagId quantity now newId orderNumber
    qrCode paymentId post = (s1, Json 201 body) ->
  validate_reason reason = true ->
  exists s2,
    cancelOrder s1 sub newId reason later
    = (s2, Json 200 (MessageBody "Order cancelled"))
    /\ remaining_of s2 bagId = remaining_of s bagId
    /\ option_map Bag.isSoldOut (findUnique Bag.id (bags s2) bagId)
       = Some false
    /\ (forall other, other <> bagId ->
          findUnique Bag.id (bags s2) other = findUnique Bag.id (bags s) other)
    /\ status_of s2 newId = Some cancelled.
Proof.
  intros APP_URL onDelete s sub bagId quantity now newId orderNumber qrCode
    paymentId post s1 body reason later Hcreate Hv.
  apply createOrder_created_inv in Hcreate.
  destruct Hcreate as [q [r [_ [Hr [Hb1 [Ho1 _]]]]]].
  assert (Hfresh := reserveTransaction_fresh _ _ _ _ _ _ _ _ _ Hr).
  apply reserveTransaction_inv in Hr.
  destruct Hr as [bag [Hbag [_ [_ [Horder [Horders [_ [_ [Hbags _]]]]]]]]].
  assert (Hkey : Bag.id bag = bagId) by apply (findUnique_key Bag.id _ _ _ Hbag).
  assert (Hfound : findUnique Order.id (orders s1) newId = Some (r_order r)).
  { assert (Hid : Order.id (r_order r) = newId)
      by (rewrite Horder; reflexivity).
    rewrite Ho1, Horders, <- Hid.
    apply findUnique_app_fresh. rewrite Hid. exact Hfresh. }
  assert (Hbagid : Order.bagId (r_order r) = bagId)
    by (rewrite Horder; exact Hkey).
  assert (Hexists : existsb (has_key Bag.id (Order.bagId (r_order r))) (bags s1)
                    = true).
  { rewrite Hbagid, Hb1, Hbags.
    rewrite (existsb_rewritten Bag.id _ (Bag_reserve_id bag q)).
    apply (findUnique_existsb _ _ _ _ Hbag). }
  rewrite (cancelOrder_releases_once s1 sub newId reason later (r_order r)
             Hv Hfound);
    [|rewrite Horder; reflexivity|rewrite Horder; reflexivity|exact Hexists].
  eexists. split; [reflexivity|].
  assert (Hrow : findUnique Bag.id
                   (rewritten Bag.id (Order.bagId (r_order r))
                      (Bag_restore (Order.quantity (r_order r))) (bags s1))
                   bagId
                 = Some (Bag_restore q (Bag_reserve bag q bag))).
  { rewrite Hbagid, Hb1, Hbags.
    rewrite (findUnique_rewritten Bag.id _ (Bag_restore_id _)).
    rewrite (findUnique_rewritten Bag.id _ (Bag_reserve_id bag q)).
    rewrite Hbag, Horder. reflexivity. }
  split; [|split; [|split]].
  - unfold remaining_of. cbn [bags]. rewrite Hrow, Hbag. cbn. f_equal. lia.
  - cbn [bags]. rewrite Hrow. reflexivity.
  - intros other Hne. cbn [bags]. rewrite Hbagid, Hb1, Hbags.
    rewrite (findUnique_rewritten_other Bag.id _ _ _ _ (Bag_restore_id _) Hne).
    apply (findUnique_rewritten_other Bag.id _ _ _ _ (Bag_reserve_id bag q)
             Hne).
  - unfold status_of. cbn [orders].
    rewrite (findUnique_rewritten Order.id
               (Order_cancel_buyer later reason sub)) by reflexivity.
    rewrite Hfound. reflexivity.
Qed.

Lemma order_then_cancel_restores_witness :
  exists s2,
    cancelOrder Scenario.ordered "user-1" "order-1" None 1600
    = (s2, Json 200 (MessageBody "Order cancelled"))
    /\ remaining_of s2 "bag-1" = remaining_of (Scenario.market 1 1) "bag-1"
    /\ option_map Bag.isSoldOut (findUnique Bag.id (bags s2) "bag-1")
       = Some false
    /\ (forall other, other <> "bag-1" ->
          findUnique Bag.id (bags s2) other
          = findUnique Bag.id (bags (Scenario.market 1 1)) other)
    /\ status_of s2 "order-1" = Some cancelled.
Proof.
  apply (order_then_cancel_restores Scenario.APP_URL Cascade
           (Scenario.market 1 1) "user-1" "bag-1" (Some 1) 1500 "order-1"
           "KULA-ABC234" "SAVR-0001" "pay-1" Scenario.gatewayUp
           Scenario.ordered
           (CheckoutBody (Scenario.placed 1) "chk-1"
              "https://pay.example/chk-1") None 1600);
    reflexivity.
Defined.

(** X9. The last units: when an order has been created (201) and has left
    the listing with no bag, every later order on that listing, whatever
    its valid quantity, buyer and time, is refused with 'Bag is not
    available' and writes nothing. *)
Theorem sold_out_refuses_orders :
  forall (APP_URL : string) (onDelete : ReferentialAction) (s : Store)
         (sub bagId : string) (quantity : option Z) (now : Z)
         (newId orderNumber qrCode paymentId : string)
         (post : Yoco.CheckoutRequest -> result Yoco.YocoCheckoutResponse)
         (s1 : Store) (body : Body),
  createOrder APP_URL onDelete s sub bagId quantity now newId orderNumber
    qrCode paymentId post = (s1, Json 201 body) ->
  remaining_of s1 bagId = Some 0 ->
  forall sub' quantity' q' now' newId' orderNumber' qrCode' paymentId' post',
    validate_quantity quantity' = Some q' ->
    createOrder APP_URL onDelete s1 sub' bagId quantity' now' newId'
      orderNumber' qrCode' paymentId' post'
    = (s1, Rejected (ApiError "Bag is not available" 400)).
Proof.
  intros APP_URL onDelete s sub bagId quantity now newId orderNumber qrCode
    paymentId post s1 body Hcreate Hzero sub' quantity' q' now' newId'
    orderNumber' qrCode' paymentId' post' Hv'.
  apply createOrder_created_inv in Hcreate.
  destruct Hcreate as [q [r [_ [Hr [Hb1 _]]]]].
  apply reserveTransaction_inv in Hr.
  destruct Hr as [bag [Hbag [_ [_ [_ [_ [_ [_ [Hbags _]]]]]]]]].
  assert (Hrow : findUnique Bag.id (bags s1) bagId
                 = Some (Bag_reserve bag q bag)).
  { rewrite Hb1, Hbags.
    rewrite (findUnique_rewritten Bag.id _ (Bag_reserve_id bag q)).
    rewrite Hbag. reflexivity. }
  unfold remaining_of in Hzero. rewrite Hrow in Hzero.
  cbn in Hzero. inversion Hzero as [Hz].
  unfold createOrder. rewrite Hv'. unfold reserveTransaction. rewrite Hrow.
  cbn [Bag.isSoldOut Bag.isActive Bag_reserve].
  assert (Hsold : (Bag.quantityRemaining bag - q <=? 0) = true)
    by (apply Z.leb_le; lia).
  rewrite Hsold, orb_true_r. reflexivity.
Qed.

Lemma sold_out_refuses_orders_witness :
  createOrder Scenario.APP_URL Cascade Scenario.ordered "owner-2" "bag-1"
    (Some 1) 1501 "order-2" "KULA-XYZ789" "SAVR-0002" "pay-2"
    Scenario.gatewayUp
  = (Scenario.ordered, Rejected (ApiError "Bag is not available" 400)).
Proof.
  apply (sold_out_refuses_orders Scenario.APP_URL Cascade
           (Scenario.market 1 1) "user-1" "bag-1" (Some 1) 1500 "order-1"
           "KULA-ABC234" "SAVR-0001" "pay-1" Scenario.gatewayUp
           Scenario.ordered
           (CheckoutBody (Scenario.placed 1) "chk-1"
              "https://pay.example/chk-1") eq_refl eq_refl "owner-2" (Some 1)
           1);
    reflexivity.
Defined.

(** ** The lower bound, applied *)

Lemma remaining_never_negative_witness :
  Forall (fun b => 0 <= Bag.quantityRemaining b)
    (bags (run Scenario.APP_URL Scenario.APP_SCHEME (Some "whsec_c2VjcmV0")
             Cascade (fun x => x) (fun key _ => key) (Scenario.market 1 1)
             [Scenario.order1 1 Scenario.gatewayUp;
              CancelOrder "user-1" "order-1" None 1600;
              YocoCancel (Some "order-1");
              Scenario.order1 2 Scenario.gatewayDown])).
Proof.
  apply remaining_never_negative.
  unfold stock_sound. cbn [Scenario.market bags orders map].
  split; [|split].
  - constructor; [intros [] | constructor].
  - constructor; [vm_compute; discriminate | constructor].
  - constructor.
Defined.

(** ** What no handler changes in an order *)

Lemma keeps_transaction_of (I : Store -> Prop)
  (ops : list (Store -> result Store)) :
  Forall (keeps I) ops -> keeps I (transaction ops).
Proof.
  induction ops as [|op ops IH]; intros Hops s s' Hs H.
  - inversion H; subst. exact Hs.
  - inversion Hops as [|? ? Hop Hrest]; subst.
    cbn [transaction] in H. apply bind_Ok in H. destruct H as [s1 [H1 H]].
    apply (IH Hrest s1 s'); [|exact H]. apply (Hop s s1 Hs H1).
Qed.

Lemma payment_update_orders (s s' : Store) (id : string)
  (f : Payment.t -> Payment.t) :
  payment_update s id f = Ok s' -> orders s' = orders s /\ bags s' = bags s.
Proof.
  unfold payment_update. intros H. apply bind_Ok in H.
  destruct H as [t [_ H]]. inversion H. auto.
Qed.

Lemma user_update_orders (s s' : Store) (id : string) (f : User.t -> User.t) :
  user_update s id f = Ok s' -> orders s' = orders s /\ bags s' = bags s.
Proof.
  unfold user_update. intros H. apply bind_Ok in H.
  destruct H as [t [_ H]]. inversion H. auto.
Qed.

Lemma payment_create_orders (s s' : Store) (p : Payment.t) :
  payment_create s p = Ok s' -> orders s' = orders s /\ bags s' = bags s.
Proof.
  unfold payment_create. intros H. apply bind_Ok in H.
  destruct H as [t [_ H]]. inversion H. auto.
Qed.

Lemma order_update_inv (s s' : Store) (id : string) (f : Order.t -> Order.t) :
  order_update s id f = Ok s' ->
  orders s' = rewritten Order.id id f (orders s) /\ bags s' = bags s.
Proof.
  unfold order_update. intros H. apply bind_Ok in H.
  destruct H as [t [Ht H]]. apply update_inv in Ht. destruct Ht as [_ ->].
  inversion H. auto.
Qed.

Lemma yocoWebhook_store_unchanged (secret : option string)
  (onDelete : ReferentialAction) (base64Decode : string -> string)
  (hmacSha256Base64 : string -> string -> string) (s : Store)
  (req : WebhookRequest) (now : Z) :
  fst (yocoWebhook secret onDelete base64Decode hmacSha256Base64 s req now) = s.
Proof.
  unfold yocoWebhook.
  destruct (negb (truthy secret)); [reflexivity|].
  destruct (negb (truthy (signatureHeader req))); reflexivity.
Qed.

Section OrderRows.

(** A property of order rows that no status or stamp changes and that the
    rows written by the reservation have. *)
Variable P : Order.t -> Prop.
Variable allowed : Op -> Prop.
Hypothesis P_set :
  forall st scanned cancelledAt reason cancelledBy o,
    P o -> P (Order_set st scanned cancelledAt reason cancelledBy o).
Hypothesis P_created :
  forall sub bagId quantity now newId orderNumber qrCode paymentId post bag q,
    allowed
      (CreateOrder sub bagId quantity now newId orderNumber qrCode paymentId
         post) ->
    validate_quantity quantity = Some q ->
    Bag.id bag = bagId ->
    P (Order.mk newId orderNumber sub (Bag.id bag) (Bag.restaurantId bag) q
         (Bag.priceCurrent bag * q) 250 (Bag.priceCurrent bag * q + 250)
         pending (Bag.pickupStart bag) (Bag.pickupEnd bag) qrCode None None
         None None).

Let rows_ok (s : Store) : Prop := Forall P (orders s).

Lemma rows_order_update (id : string) (f : Order.t -> Order.t) :
  (forall o, P o -> P (f o)) ->
  keeps rows_ok (fun s => order_update s id f).
Proof.
  intros Hf s s' Hs H. apply order_update_inv in H. destruct H as [Ho _].
  unfold rows_ok. rewrite Ho. apply Forall_rewritten; [exact Hs|].
  intros r Hr _. apply Hf. unfold rows_ok in Hs.
  rewrite Forall_forall in Hs. apply Hs, Hr.
Qed.

Lemma rows_bag_update (id : string) (f : Bag.t -> Bag.t) :
  keeps rows_ok (fun s => bag_update s id f).
Proof.
  intros s s' Hs H. apply bag_update_orders in H.
  unfold rows_ok. rewrite H. exact Hs.
Qed.

Lemma rows_payment_update (id : string) (f : Payment.t -> Payment.t) :
  keeps rows_ok (fun s => payment_update s id f).
Proof.
  intros s s' Hs H. apply payment_update_orders in H.
  unfold rows_ok. rewrite (proj1 H). exact Hs.
Qed.

Lemma rows_user_update (id : string) (f : User.t -> User.t) :
  keeps rows_ok (fun s => user_update s id f).
Proof.
  intros s s' Hs H. apply user_update_orders in H.
  unfold rows_ok. rewrite (proj1 H). exact Hs.
Qed.

Lemma rows_order_delete (onDelete : ReferentialAction) (id : string) :
  keeps rows_ok (fun s => order_delete onDelete s id).
Proof.
  intros s s' Hs H. apply order_delete_inv in H. destruct H as [_ [Ho _]].
  unfold rows_ok. rewrite Ho. apply Forall_forall. intros o Hin.
  apply filter_In in Hin. unfold rows_ok in Hs.
  rewrite Forall_forall in Hs. apply Hs, Hin.
Qed.

Lemma rows_successTransaction (orderId paymentId userId : string)
  (quantity : Z) (f : Payment.t -> Payment.t) :
  keeps rows_ok
    (transaction (successTransaction orderId paymentId userId quantity f)).
Proof.
  apply keeps_transaction_of. unfold successTransaction. each_operation.
  - apply rows_order_update. intros o. apply P_set.
  - apply rows_payment_update.
  - apply rows_user_update.
Qed.

Variable APP_URL : string.
Variable APP_SCHEME : string.
Variable YOCO_WEBHOOK_SECRET : option string.
Variable onDelete : ReferentialAction.
Variable base64Decode : string -> string.
Variable hmacSha256Base64 : string -> string -> string.

Lemma rows_createOrder (s : Store) (sub bagId : string)
  (quantity : option Z) (now : Z)
  (newId orderNumber qrCode paymentId : string)
  (post : Yoco.CheckoutRequest -> result Yoco.YocoCheckoutResponse) :
  allowed
    (CreateOrder sub bagId quantity now newId orderNumber qrCode paymentId
       post) ->
  rows_ok s ->
  rows_ok (fst (createOrder APP_URL onDelete s sub bagId quantity now newId
                  orderNumber qrCode paymentId post)).
Proof.
  intros Hop Hs. unfold createOrder.
  destruct (validate_quantity quantity) as [q|] eqn:Hv; [|exact Hs].
  destruct (reserveTransaction s sub bagId q now newId orderNumber qrCode)
    as [r|e] eqn:Hr; [|exact Hs].
  assert (Hr1 : rows_ok (r_store r)).
  { apply reserveTransaction_inv in Hr.
    destruct Hr as [bag [Hbag [_ [_ [Horder [Horders _]]]]]].
    unfold rows_ok. rewrite Horders. apply Forall_app. split; [exact Hs|].
    constructor; [|constructor]. rewrite Horder.
    apply (P_created sub bagId quantity now newId orderNumber qrCode
             paymentId post bag q Hop Hv).
    apply (findUnique_key Bag.id _ _ _ Hbag). }
  match goal with
  | |- context [bind ?m ?k] => destruct (bind m k) as [[s2 checkout]|e] eqn:Hb
  end.
  - apply bind_Ok in Hb. destruct Hb as [c [_ Hb]].
    apply bind_Ok in Hb. destruct Hb as [s3 [Hs3 Hb]].
    inversion Hb; subst. cbn [fst]. apply payment_create_orders in Hs3.
    unfold rows_ok. rewrite (proj1 Hs3). exact Hr1.
  - destruct (order_delete onDelete (r_store r) (Order.id (r_order r)))
      as [s3|e'] eqn:Hd; cbn [fst]; [|exact Hr1].
    apply (rows_order_delete _ _ _ _ Hr1 Hd).
Qed.

Lemma rows_cancelOrder (s : Store) (sub id : string)
  (reason : option string) (now : Z) :
  rows_ok s -> rows_ok (fst (cancelOrder s sub id reason now)).
Proof.
  intros Hs. unfold cancelOrder.
  destruct (negb (validate_reason reason)); [exact Hs|].
  destruct (findUnique Order.id (orders s) id) as [order|]; [|exact Hs].
  destruct (negb (String.eqb (Order.userId order) sub)); [exact Hs|].
  destruct (negb (includes [pending; paid] (Order.status order)));
    [exact Hs|].
  destruct (transaction _ s) as [s'|e] eqn:Ht; cbn [fst]; [|exact Hs].
  revert Ht. apply keeps_transaction_of; [|exact Hs].
  each_operation.
  - apply rows_order_update. intros o. apply P_set.
  - apply rows_bag_update.
Qed.

Lemma rows_updateOrderStatus (s : Store) (sub id status : string) (now : Z) :
  rows_ok s -> rows_ok (fst (updateOrderStatus s sub id status now)).
Proof.
  intros Hs. unfold updateOrderStatus.
  destruct (parse_status status) as [st|]; [|exact Hs].
  destruct (findUnique Order.id (orders s) id); [|exact Hs].
  destruct (restaurant_of_owner s sub); [|exact Hs].
  destruct (negb _); [exact Hs|].
  destruct (order_update s id (Order_business st now sub)) as [s'|e] eqn:Hu;
    [|exact Hs].
  assert (Hs' : rows_ok s').
  { revert Hu. apply (rows_order_update id (Order_business st now sub));
      [|exact Hs].
    intros o. apply P_set. }
  destruct (findUnique Order.id (orders s') id); exact Hs'.
Qed.

Lemma rows_scanOrder (s : Store) (sub : string) (qrCode : option string)
  (now : Z) :
  rows_ok s -> rows_ok (fst (scanOrder s sub qrCode now)).
Proof.
  intros Hs. unfold scanOrder.
  destruct (negb (truthy qrCode)); [exact Hs|].
  destruct (restaurant_of_owner s sub); [|exact Hs].
  destruct (order_of_qrCode s (template qrCode)) as [order|]; [|exact Hs].
  destruct (negb (String.eqb _ _)); [exact Hs|].
  destruct (negb (includes _ _)); [exact Hs|].
  destruct (order_update s (Order.id order) (Order_collect now))
    as [s'|e] eqn:Hu; [|exact Hs].
  revert Hu. apply (rows_order_update _ (Order_collect now)); [|exact Hs].
  intros o. apply P_set.
Qed.

Lemma rows_yocoSuccess (s : Store) (orderId : option string) (now : Z)
  (get : string -> result Yoco.YocoPaymentResponse) :
  rows_ok s -> rows_ok (fst (yocoSuccess APP_SCHEME s orderId now get)).
Proof.
  intros Hs. unfold yocoSuccess.
  destruct (negb (truthy orderId)); [exact Hs|].
  destruct (findUnique Order.id (orders s) (template orderId)) as [order|];
    [|exact Hs].
  destruct (payment_of_order s (Order.id order)) as [payment|]; [|exact Hs].
  destruct (negb (truthy _)); [exact Hs|].
  destruct (Yoco.getCheckoutStatus get _) as [c|e]; [|exact Hs].
  destruct (isSuccessful c); [|exact Hs].
  destruct (transaction _ s) as [s'|e] eqn:Ht; [|exact Hs].
  apply (rows_successTransaction _ _ _ _ _ s s' Hs Ht).
Qed.

Lemma rows_abandonOrder (s : Store) (orderId : option string) :
  rows_ok s -> rows_ok (abandonOrder onDelete s orderId).
Proof.
  intros Hs. unfold abandonOrder.
  destruct (truthy orderId); [|exact Hs].
  destruct (restoreInventory s (template orderId)) as [s1|e] eqn:Hr;
    [|exact Hs].
  assert (Hs1 : rows_ok s1).
  { unfold restoreInventory in Hr.
    destruct (findUnique Order.id (orders s) (template orderId)).
    - apply (rows_bag_update _ _ _ _ Hs Hr).
    - inversion Hr; subst. exact Hs. }
  destruct (order_delete onDelete s1 (template orderId)) as [s2|e] eqn:Hd;
    [|exact Hs1].
  apply (rows_order_delete _ _ _ _ Hs1 Hd).
Qed.

Lemma rows_webhookEvent (s : Store) (type : string) (p : Payload) (now : Z) :
  rows_ok s -> rows_ok (fst (webhookEvent onDelete s type p now)).
Proof.
  intros Hs. unfold webhookEvent.
  match goal with
  | |- context [match ?a with Ok _ => _ | Throw _ => _ end] =>
      destruct a as [s'|e] eqn:Ha
  end; cbn [fst]; [|exact Hs].
  destruct (String.eqb type "payment.succeeded").
  { unfold paymentSucceeded in Ha.
    destruct (payment_with_order s _) as [[payment order]|];
      [|inversion Ha; subst; exact Hs].
    apply (rows_successTransaction _ _ _ _ _ s s' Hs Ha). }
  destruct (String.eqb type "payment.failed").
  { unfold paymentFailed in Ha.
    destruct (payment_with_order s _) as [[payment order]|];
      [|inversion Ha; subst; exact Hs].
    revert Ha. apply keeps_transaction_of; [|exact Hs].
    each_operation.
    - apply rows_bag_update.
    - apply rows_payment_update.
    - apply rows_order_delete. }
  destruct (String.eqb type "refund.succeeded").
  { unfold refundSucceeded in Ha.
    destruct (payment_with_order s _) as [[payment order]|];
      [|inversion Ha; subst; exact Hs].
    revert Ha. apply keeps_transaction_of; [|exact Hs].
    each_operation.
    - apply rows_bag_update.
    - apply rows_payment_update.
    - apply rows_order_update. intros o. apply P_set. }
  inversion Ha; subst. exact Hs.
Qed.

Lemma rows_step (s : Store) (op : Op) :
  allowed op ->
  rows_ok s ->
  rows_ok
    (step APP_URL APP_SCHEME YOCO_WEBHOOK_SECRET onDelete base64Decode
       hmacSha256Base64 s op).
Proof.
  intros Hop Hs. unfold step. destruct op; cbn [handle].
  - apply rows_createOrder; [exact Hop | exact Hs].
  - apply rows_cancelOrder, Hs.
  - apply rows_updateOrderStatus, Hs.
  - apply rows_scanOrder, Hs.
  - apply rows_yocoSuccess, Hs.
  - apply rows_abandonOrder, Hs.
  - apply rows_abandonOrder, Hs.
  - rewrite (yocoWebhook_store_unchanged YOCO_WEBHOOK_SECRET onDelete
               base64Decode hmacSha256Base64 s req now).
    exact Hs.
  - apply rows_webhookEvent, Hs.
Qed.

Lemma run_keeps_rows (s : Store) (ops : list Op) :
  Forall allowed ops ->
  Forall P (orders s) ->
  Forall P
    (orders (run APP_URL APP_SCHEME YOCO_WEBHOOK_SECRET onDelete base64Decode
               hmacSha256Base64 s ops)).
Proof.
  revert s. induction ops as [|op ops IH]; intros s Hops Hs; [exact Hs|].
  inversion Hops as [|? ? Hop Hrest]; subst.
  cbn [run fold_left]. apply (IH _ Hrest). apply rows_step; assumption.
Qed.

End OrderRows.

Lemma same_frozen_refl (o : Order.t) : same_frozen o o.
Proof. unfold same_frozen. repeat split. Qed.

Lemma same_frozen_set (st : OrderStatus) (a b : option Z)
  (c d : option string) (o o' : Order.t) :
  same_frozen o o' -> same_frozen o (Order_set st a b c d o').
Proof. unfold same_frozen. cbn. tauto. Qed.

Lemma priced_set (st : OrderStatus) (a b : option Z) (c d : option string)
  (o : Order.t) :
  priced o -> priced (Order_set st a b c d o).
Proof. unfold priced. cbn. tauto. Qed.

Lemma priced_created (newId orderNumber sub qrCode : string) (bag : Bag.t)
  (q : Z) :
  1 <= q <= 10 ->
  priced
    (Order.mk newId orderNumber sub (Bag.id bag) (Bag.restaurantId bag) q
       (Bag.priceCurrent bag * q) 250 (Bag.priceCurrent bag * q + 250)
       pending (Bag.pickupStart bag) (Bag.pickupEnd bag) qrCode None None
       None None).
Proof. intros Hq. unfold priced. cbn. auto. Qed.

Lemma placed_by_set (op : Op) (st : OrderStatus) (a b : option Z)
  (c d : option string) (o : Order.t) :
  placed_by op o -> placed_by op (Order_set st a b c d o).
Proof. destruct op; cbn; unfold priced; cbn; tauto. Qed.

(** X10. Frozen at creation: after any sequence of handlers, every order in
    the store either has the identifier, number, buyer, listing,
    restaurant, quantity, subtotal, fee, total, pickup window and code of
    an order that was in the store at the start, or was written by one of
    the sequence's requests to POST /api/v1/orders and has that request's
    order id, order number, buyer, listing, code and validated quantity,
    with the reservation's pricing (fee 250, total = subtotal + 250).  No
    handler rewrites these fields of an order. *)
Theorem orders_frozen_or_priced :
  forall (APP_URL APP_SCHEME : string) (secret : option string)
         (onDelete : ReferentialAction) (base64Decode : string -> string)
         (hmacSha256Base64 : string -> string -> string) (s : Store)
         (ops : list Op) (o' : Order.t),
  In o'
    (orders (run APP_URL APP_SCHEME secret onDelete base64Decode
               hmacSha256Base64 s ops)) ->
  (exists o, In o (orders s) /\ same_frozen o o')
  \/ (exists op, In op ops /\ placed_by op o').
Proof.
  intros APP_URL APP_SCHEME secret onDelete base64Decode hmacSha256Base64 s
    ops o' Hin.
  pose (P := fun x : Order.t =>
               (exists o, In o (orders s) /\ same_frozen o x)
               \/ (exists op, In op ops /\ placed_by op x)).
  assert (H : Forall P
                (orders (run APP_URL APP_SCHEME secret onDelete base64Decode
                           hmacSha256Base64 s ops))).
  { apply (run_keeps_rows P (fun op => In op ops)).
    - intros st a b c d x [[o [Ho Hf]] | [op [Hop Hp]]].
      + left. exists o. split; [exact Ho | apply same_frozen_set, Hf].
      + right. exists op. split; [exact Hop | apply placed_by_set, Hp].
    - intros sub bagId quantity now newId orderNumber qrCode paymentId post
        bag q Hop Hv Hbag.
      right. eexists. split; [exact Hop|]. cbn.
      repeat split; try assumption.
      + apply (validate_quantity_bounds quantity), Hv.
      + apply (validate_quantity_bounds quantity), Hv.
    - apply Forall_forall. intros op Hop. exact Hop.
    - apply Forall_forall. intros x Hx. left. exists x.
      split; [exact Hx | apply same_frozen_refl]. }
  rewrite Forall_forall in H. apply (H o' Hin).
Qed.

(** ** The analytics figures *)

Lemma fold_left_sum (f : Order.t -> Z) (l : list Order.t) (a : Z) :
  fold_left (fun sum o => sum + f o) l a = a + reduce_sum f l.
Proof.
  unfold reduce_sum. revert a. induction l as [|x l IH]; intros a; simpl.
  - lia.
  - rewrite IH, (IH (f x)). lia.
Qed.

Lemma reduce_sum_cons (f : Order.t -> Z) (x : Order.t) (l : list Order.t) :
  reduce_sum f (x :: l) = f x + reduce_sum f l.
Proof. unfold reduce_sum at 1. simpl. apply fold_left_sum. Qed.

Lemma filter_lengths_disjoint {A : Type} (p q : A -> bool) (l : list A) :
  (forall x, p x = true -> q x = false) ->
  (List.length (filter p l) + List.length (filter q l) <= List.length l)%nat.
Proof.
  intros Hd. induction l as [|x l IH]; simpl; [lia|].
  destruct (p x) eqn:Ep.
  - rewrite (Hd x Ep). simpl. lia.
  - destruct (q x); simpl; lia.
Qed.

(** X11. The analytics summary, on orders taken from a store reached from
    one whose orders are priced as the reservation prices: the platform
    fees are 250 per collected order, the net revenue is the sum of the
    subtotals of the collected orders, and collected and cancelled or
    refunded orders together are at most all orders. *)
Theorem analytics_figures :
  forall (APP_URL APP_SCHEME : string) (secret : option string)
         (onDelete : ReferentialAction) (base64Decode : string -> string)
         (hmacSha256Base64 : string -> string -> string) (s : Store)
         (ops : list Op) (selected : list Order.t),
  Forall priced (orders s) ->
  incl selected
    (orders (run APP_URL APP_SCHEME secret onDelete base64Decode
               hmacSha256Base64 s ops)) ->
  let summary := analyticsSummary selected in
  platformFees summary = 250 * completedOrders summary
  /\ netRevenue summary
     = reduce_sum Order.subtotal (filter is_collected selected)
  /\ totalRevenue summary = netRevenue summary + platformFees summary
  /\ completedOrders summary + cancelledOrders summary <= totalOrders summary.
Proof.
  intros APP_URL APP_SCHEME secret onDelete base64Decode hmacSha256Base64 s
    ops selected Hs Hincl summary.
  assert (Hall : Forall priced
                   (orders (run APP_URL APP_SCHEME secret onDelete
                              base64Decode hmacSha256Base64 s ops)))
    by (apply (run_keeps_rows priced (fun _ => True));
        [intros; apply priced_set; assumption
        |intros; apply priced_created;
         apply (validate_quantity_bounds quantity); assumption
        |apply Forall_forall; intros; exact I
        |exact Hs]).
  assert (Hsel : Forall priced (filter is_collected selected)).
  { apply Forall_forall. intros o Ho. apply filter_In in Ho.
    rewrite Forall_forall in Hall. apply Hall, Hincl, Ho. }
  subst summary. unfold analyticsSummary.
  cbn [platformFees completedOrders netRevenue totalRevenue cancelledOrders
         totalOrders].
  assert (Hfees : reduce_sum Order.platformFee (filter is_collected selected)
                  = 250 * Z.of_nat (List.length (filter is_collected selected))).
  { induction Hsel as [|o l Ho _ IH]; [reflexivity|].
    rewrite reduce_sum_cons, IH. destruct Ho as [Hf _]. rewrite Hf.
    cbn [List.length]. lia. }
  assert (Hnet : reduce_sum Order.total (filter is_collected selected)
                 - reduce_sum Order.platformFee (filter is_collected selected)
                 = reduce_sum Order.subtotal (filter is_collected selected)).
  { induction Hsel as [|o l Ho Hl IH]; [reflexivity|].
    rewrite !reduce_sum_cons. destruct Ho as [Hf [Ht _]].
    assert (Hfl : reduce_sum Order.platformFee l
                  = 250 * Z.of_nat (List.length l)).
    { clear IH Hfees. induction Hl as [|x l' Hx _ IH']; [reflexivity|].
      rewrite reduce_sum_cons, IH'. destruct Hx as [Hxf _]. rewrite Hxf.
      cbn [List.length]. lia. }
    specialize (IH Hfl). lia. }
  split; [exact Hfees|]. split; [exact Hnet|]. split; [lia|].
  assert (Hd := filter_lengths_disjoint is_collected
                  (fun o => includes [cancelled; refunded] (Order.status o))
                  selected).
  assert (Hdis : forall x, is_collected x = true ->
                   includes [cancelled; refunded] (Order.status x) = false).
  { intros x. unfold is_collected. destruct (Order.status x);
      try discriminate; reflexivity. }
  specialize (Hd Hdis). lia.
Qed.

Lemma analytics_figures_witness :
  platformFees
    (analyticsSummary
       (orders (fst (scanOrder Scenario.paidFor "owner-1" (Some "SAVR-0001")
                       1900))))
  = 250 * completedOrders
            (analyticsSummary
               (orders (fst (scanOrder Scenario.paidFor "owner-1"
                               (Some "SAVR-0001") 1900))))
  /\ netRevenue
       (analyticsSummary
          (orders (fst (scanOrder Scenario.paidFor "owner-1"
                          (Some "SAVR-0001") 1900))))
     = 4500.
Proof.
  destruct (analytics_figures Scenario.APP_URL Scenario.APP_SCHEME None
              Cascade (fun x => x) (fun key _ => key) (Scenario.market 1 1)
              [Scenario.order1 1 Scenario.gatewayUp;
               WebhookEvent "payment.succeeded" Scenario.event1 1700;
               ScanOrder "owner-1" (Some "SAVR-0001") 1900]
              (orders (fst (scanOrder Scenario.paidFor "owner-1"
                              (Some "SAVR-0001") 1900))))
    as [Hfees [Hnet _]].
  - constructor.
  - intros o Ho. exact Ho.
  - split; [exact Hfees|]. rewrite Hnet. reflexivity.
Defined.

Lemma orders_frozen_or_priced_witness :
  ((exists o,
      In o (orders Scenario.ordered)
      /\ same_frozen o
           (Order_cancel_buyer 1600 None "user-1" (Scenario.placed 1)))
   \/ (exists op,
         In op
           [CancelOrder "user-1" "order-1" None 1600;
            CreateOrder "owner-2" "bag-1" (Some 1) 1700 "order-2"
              "KULA-XYZ789" "SAVR-0002" "pay-2" Scenario.gatewayUp;
            UpdateOrderStatus "owner-1" "order-2" "ready" 1800]
         /\ placed_by op
              (Order_cancel_buyer 1600 None "user-1" (Scenario.placed 1))))
  /\ ((exists o,
         In o (orders Scenario.ordered)
         /\ same_frozen o
              (Order_business ready 1800 "owner-1"
                 (Order.mk "order-2" "KULA-XYZ789" "owner-2" "bag-1" "rest-1"
                    1 4500 250 4750 pending 1000 2000 "SAVR-0002" None None
                    None None)))
      \/ (exists op,
            In op
              [CancelOrder "user-1" "order-1" None 1600;
               CreateOrder "owner-2" "bag-1" (Some 1) 1700 "order-2"
                 "KULA-XYZ789" "SAVR-0002" "pay-2" Scenario.gatewayUp;
               UpdateOrderStatus "owner-1" "order-2" "ready" 1800]
            /\ placed_by op
                 (Order_business ready 1800 "owner-1"
                    (Order.mk "order-2" "KULA-XYZ789" "owner-2" "bag-1"
                       "rest-1" 1 4500 250 4750 pending 1000 2000 "SAVR-0002"
                       None None None None)))).
Proof.
  split.
  - apply (orders_frozen_or_priced Scenario.APP_URL Scenario.APP_SCHEME None
             Cascade (fun x => x) (fun key _ => key) Scenario.ordered
             [CancelOrder "user-1" "order-1" None 1600;
              CreateOrder "owner-2" "bag-1" (Some 1) 1700 "order-2"
                "KULA-XYZ789" "SAVR-0002" "pay-2" Scenario.gatewayUp;
              UpdateOrderStatus "owner-1" "order-2" "ready" 1800]).
    left. reflexivity.
  - apply (orders_frozen_or_priced Scenario.APP_URL Scenario.APP_SCHEME None
             Cascade (fun x => x) (fun key _ => key) Scenario.ordered
             [CancelOrder "user-1" "order-1" None 1600;
              CreateOrder "owner-2" "bag-1" (Some 1) 1700 "order-2"
                "KULA-XYZ789" "SAVR-0002" "pay-2" Scenario.gatewayUp;
              UpdateOrderStatus "owner-1" "order-2" "ready" 1800]).
    right. left. reflexivity.
Defined.

(** ** No overselling *)

Lemma sum_holding_app (b : string) (l l' : list Order.t) :
  sum_holding b (l ++ l') = sum_holding b l + sum_holding b l'.
Proof.
  unfold sum_holding. induction l as [|x l IH]; simpl; [reflexivity|].
  rewrite IH. lia.
Qed.

Lemma holding_nonneg (b : string) (o : Order.t) :
  0 <= Order.quantity o -> 0 <= holding b o.
Proof. unfold holding. destruct (_ && _); lia. Qed.

Lemma sum_holding_filter_le (b : string) (p : Order.t -> bool)
  (l : list Order.t) :
  Forall (fun o => 0 <= Order.quantity o) l ->
  sum_holding b (filter p l) <= sum_holding b l.
Proof.
  unfold sum_holding. induction 1 as [|x l Hx _ IH]; simpl; [lia|].
  pose proof (holding_nonneg b x Hx).
  destruct (p x); simpl; lia.
Qed.

Lemma sum_holding_rewritten_same (b k : string) (f : Order.t -> Order.t)
  (l : list Order.t) :
  (forall x, In x l -> Order.id x = k -> holding b (f x) = holding b x) ->
  sum_holding b (rewritten Order.id k f l) = sum_holding b l.
Proof.
  unfold sum_holding, rewritten.
  induction l as [|x l IH]; intros H; simpl; [reflexivity|].
  rewrite IH by (intros y Hy; apply H; right; exact Hy).
  destruct (has_key Order.id k x) eqn:E; [|reflexivity].
  rewrite (H x (or_introl eq_refl)); [reflexivity|].
  apply has_key_eq, E.
Qed.

Lemma sum_holding_rewritten_one (b : string) (f : Order.t -> Order.t)
  (l : list Order.t) (o : Order.t) :
  NoDup (map Order.id l) -> In o l ->
  sum_holding b (rewritten Order.id (Order.id o) f l)
  = sum_holding b l - holding b o + holding b (f o).
Proof.
  unfold sum_holding, rewritten.
  induction l as [|x l IH]; intros Hnd Hin; [contradiction|].
  inversion Hnd as [|? ? Hx Hnd']; subst. simpl.
  destruct Hin as [<- | Hin].
  - assert (Hself : has_key Order.id (Order.id x) x = true)
      by (apply has_key_eq; reflexivity).
    rewrite Hself.
    assert (Hrest : map (fun r => if has_key Order.id (Order.id x) r
                                  then f r else r) l = l).
    { rewrite <- (map_id l) at 2. apply map_ext_in. intros y Hy.
      destruct (has_key Order.id (Order.id x) y) eqn:E; [|reflexivity].
      exfalso. apply Hx. apply has_key_eq in E. rewrite <- E.
      apply in_map, Hy. }
    rewrite Hrest. lia.
  - assert (Hne : has_key Order.id (Order.id o) x = false).
    { unfold has_key. apply String.eqb_neq. intros E. apply Hx.
      rewrite E. apply in_map, Hin. }
    rewrite Hne, (IH Hnd' Hin). lia.
Qed.

Lemma filter_unique_keys {K R : Type} (key : R -> K) (keep : R -> bool)
  (t : list R) (Hnd : NoDup (map key t)) :
  NoDup (map key (filter keep t)).
Proof.
  induction t as [|r t IH]; simpl; [constructor|].
  simpl in Hnd. apply NoDup_cons_iff in Hnd. destruct Hnd as [Hr Hnd].
  destruct (keep r); simpl; [|exact (IH Hnd)].
  apply NoDup_cons; [|exact (IH Hnd)].
  intros Hin. apply Hr. apply in_map_iff in Hin.
  destruct Hin as [y [Hy Hin]]. apply filter_In in Hin.
  rewrite <- Hy. apply in_map, Hin.
Qed.

Lemma NoDup_map_app_fresh (t : list Order.t) (o : Order.t) :
  NoDup (map Order.id t) ->
  existsb (has_key Order.id (Order.id o)) t = false ->
  NoDup (map Order.id (t ++ [o])).
Proof.
  intros Hnd Hfresh. rewrite map_app. simpl.
  apply NoDup_app; [exact Hnd | repeat constructor; auto |].
  intros k Hk [<- | []]. apply in_map_iff in Hk.
  destruct Hk as [x [Hx Hin]].
  assert (Htrue : existsb (has_key Order.id (Order.id o)) t = true)
    by (apply existsb_exists; exists x; split;
        [exact Hin | apply has_key_eq, Hx]).
  congruence.
Qed.

Lemma conserved_refl (b : string) (s : Store) : conserved b s s.
Proof. intros r Hr. exists r. split; [exact Hr | lia]. Qed.

Lemma conserved_trans (b : string) (s1 s2 s3 : Store) :
  conserved b s1 s2 -> conserved b s2 s3 -> conserved b s1 s3.
Proof.
  intros H12 H23 r Hr. destruct (H12 r Hr) as [r2 [Hr2 Hle2]].
  destruct (H23 r2 Hr2) as [r3 [Hr3 Hle3]]. exists r3.
  split; [exact Hr3 | lia].
Qed.

Lemma conserved_same (b : string) (s s' : Store) :
  bags s' = bags s -> orders s' = orders s -> conserved b s s'.
Proof.
  intros Hb Ho r Hr. exists r. unfold remaining_of, held in *.
  rewrite Hb, Ho. split; [exact Hr | lia].
Qed.

Lemma holding_cancelled (b : string) (o : Order.t) (a c : option Z)
  (d e : option string) :
  holding b (Order_set cancelled a c d e o) = 0.
Proof. unfold holding. cbn. rewrite andb_false_r. reflexivity. Qed.

Lemma holding_live (b : string) (o : Order.t) :
  includes [cancelled; refunded] (Order.status o) = false ->
  holding b o = if String.eqb (Order.bagId o) b then Order.quantity o else 0.
Proof.
  intros H. unfold holding, holds_stock. rewrite H.
  destruct (String.eqb (Order.bagId o) b); reflexivity.
Qed.

Lemma remaining_rewritten (t : list Bag.t) (b k : string)
  (f : Bag.t -> Bag.t) :
  (forall x, Bag.id (f x) = Bag.id x) ->
  option_map Bag.quantityRemaining
    (findUnique Bag.id (rewritten Bag.id k f t) b)
  = if String.eqb b k
    then option_map (fun x => Bag.quantityRemaining (f x))
           (findUnique Bag.id t b)
    else option_map Bag.quantityRemaining (findUnique Bag.id t b).
Proof.
  intros Hf. destruct (String.eqb b k) eqn:E.
  - apply String.eqb_eq in E. subst k.
    rewrite (findUnique_rewritten Bag.id f Hf).
    destruct (findUnique Bag.id t b); reflexivity.
  - apply String.eqb_neq in E.
    rewrite (findUnique_rewritten_other Bag.id f _ _ _ Hf E). reflexivity.
Qed.

Lemma conserved_cancelOrder (b : string) (s : Store) (sub id : string)
  (reason : option string) (now : Z) :
  ledger_sound s ->
  NoDup (map Order.id (orders (fst (cancelOrder s sub id reason now))))
  /\ conserved b s (fst (cancelOrder s sub id reason now)).
Proof.
  intros [Hsound Hnd].
  assert (Hsame : NoDup (map Order.id (orders s)) /\ conserved b s s)
    by (split; [exact Hnd | apply conserved_refl]).
  unfold cancelOrder.
  destruct (negb (validate_reason reason)) eqn:Hv; [exact Hsame|].
  destruct (findUnique Order.id (orders s) id) as [order|] eqn:Ho;
    [|exact Hsame].
  destruct (negb (String.eqb (Order.userId order) sub)) eqn:Hu;
    [exact Hsame|].
  destruct (negb (includes [pending; paid] (Order.status order))) eqn:Hst;
    [exact Hsame|].
  destruct (existsb (has_key Bag.id (Order.bagId order)) (bags s)) eqn:Hbag.
  - cbn [transaction].
    rewrite (order_update_found _ _ _ (findUnique_existsb _ _ _ _ Ho)).
    cbn [bind]. rewrite bag_update_found by exact Hbag.
    cbn [bind fst].
    match goal with
    | |- _ /\ conserved b s ?x => set (s' := x)
    end.
    assert (Hb' : bags s'
                  = rewritten Bag.id (Order.bagId order)
                      (Bag_restore (Order.quantity order)) (bags s))
      by reflexivity.
    assert (Ho' : orders s'
                  = rewritten Order.id id (Order_cancel_buyer now reason sub)
                      (orders s))
      by reflexivity.
    clearbody s'.
    assert (Hid : Order.id order = id)
      by apply (findUnique_key Order.id _ _ _ Ho).
    assert (Hin : In order (orders s))
      by apply (findUnique_In Order.id _ _ _ Ho).
    split.
    + rewrite Ho', rewritten_keys by reflexivity. exact Hnd.
    + intros r Hr.
      assert (Hlive : includes [cancelled; refunded] (Order.status order)
                      = false).
      { apply negb_false_iff in Hst.
        destruct (Order.status order); try discriminate Hst; reflexivity. }
      assert (Hheld : held s' b = held s b - holding b order).
      { unfold held. rewrite Ho', <- Hid.
        rewrite (sum_holding_rewritten_one b _ _ order Hnd Hin).
        unfold Order_cancel_buyer. rewrite holding_cancelled. lia. }
      rewrite Hheld, (holding_live b order Hlive).
      unfold remaining_of in *. rewrite Hb'.
      rewrite (remaining_rewritten _ b _ _ (Bag_restore_id _)).
      rewrite String.eqb_sym.
      destruct (String.eqb (Order.bagId order) b) eqn:E.
      * destruct (findUnique Bag.id (bags s) b) as [bag|]; [|discriminate].
        cbn in Hr. inversion Hr; subst r. eexists. split; [reflexivity|].
        cbn. lia.
      * exists r. split; [exact Hr | lia].
  - cbn [transaction].
    rewrite (order_update_found _ _ _ (findUnique_existsb _ _ _ _ Ho)).
    cbn [bind]. unfold bag_update. cbn [bags with_orders].
    rewrite (update_missing _ _ _ _ Hbag). exact Hsame.
Qed.

Lemma conserved_scanOrder (b : string) (s : Store) (sub : string)
  (qrCode : option string) (now : Z) :
  ledger_sound s ->
  NoDup (map Order.id (orders (fst (scanOrder s sub qrCode now))))
  /\ conserved b s (fst (scanOrder s sub qrCode now)).
Proof.
  intros [Hsound Hnd].
  assert (Hsame : NoDup (map Order.id (orders s)) /\ conserved b s s)
    by (split; [exact Hnd | apply conserved_refl]).
  unfold scanOrder.
  destruct (negb (truthy qrCode)); [exact Hsame|].
  destruct (restaurant_of_owner s sub); [|exact Hsame].
  destruct (order_of_qrCode s (template qrCode)) as [order|] eqn:Ho;
    [|exact Hsame].
  destruct (negb (String.eqb _ _)); [exact Hsame|].
  destruct (negb (includes [paid; ready] (Order.status order))) eqn:Hst;
    [exact Hsame|].
  assert (Hin : In order (orders s))
    by (unfold order_of_qrCode in Ho; apply find_some in Ho; apply Ho).
  rewrite (order_update_found _ _ _ (found_row_has_key Order.id _ _ _ Ho)).
  cbn [fst].
  match goal with
  | |- _ /\ conserved b s ?x => set (s' := x)
  end.
  assert (Hb' : bags s' = bags s) by reflexivity.
  assert (Ho' : orders s'
                = rewritten Order.id (Order.id order) (Order_collect now)
                    (orders s))
    by reflexivity.
  clearbody s'. split.
  - rewrite Ho', rewritten_keys by reflexivity. exact Hnd.
  - intros r Hr. exists r. unfold remaining_of, held in *. rewrite Hb', Ho'.
    split; [exact Hr|].
    rewrite sum_holding_rewritten_same; [lia|].
    intros x Hx Hk.
    assert (x = order)
      by (apply (NoDup_keys_row Order.id (orders s)); auto).
    subst x. apply negb_false_iff in Hst.
    unfold holding, holds_stock. cbn.
    destruct (Order.status order); try discriminate Hst; reflexivity.
Qed.

Lemma conserved_createOrder (b : string) (APP_URL : string)
  (onDelete : ReferentialAction) (s : Store) (sub bagId : string)
  (quantity : option Z) (now : Z)
  (newId orderNumber qrCode paymentId : string)
  (post : Yoco.CheckoutRequest -> result Yoco.YocoCheckoutResponse) :
  ledger_sound s ->
  NoDup
    (map Order.id
       (orders (fst (createOrder APP_URL onDelete s sub bagId quantity now
                       newId orderNumber qrCode paymentId post))))
  /\ conserved b s
       (fst (createOrder APP_URL onDelete s sub bagId quantity now newId
               orderNumber qrCode paymentId post)).
Proof.
  intros [Hsound Hnd].
  assert (Hsame : NoDup (map Order.id (orders s)) /\ conserved b s s)
    by (split; [exact Hnd | apply conserved_refl]).
  unfold createOrder.
  destruct (validate_quantity quantity) as [q|] eqn:Hv; [|exact Hsame].
  apply validate_quantity_bounds in Hv.
  destruct (reserveTransaction s sub bagId q now newId orderNumber qrCode)
    as [r|e] eqn:Hr; [|exact Hsame].
  assert (Hfresh := reserveTransaction_fresh _ _ _ _ _ _ _ _ _ Hr).
  assert (Hq0 : 0 <= q) by lia.
  assert (Hsound1 : stock_sound (r_store r))
    by (apply (sound_reserve _ _ _ _ _ _ _ _ _ Hq0 Hsound Hr)).
  apply reserveTransaction_inv in Hr.
  destruct Hr as [bag [Hbag [_ [_ [Horder [Horders [_ [_ [Hbags Hle]]]]]]]]].
  assert (Hkey : Bag.id bag = bagId)
    by apply (findUnique_key Bag.id _ _ _ Hbag).
  assert (Hnd1 : NoDup (map Order.id (orders (r_store r)))).
  { rewrite Horders. apply NoDup_map_app_fresh; [exact Hnd|].
    rewrite Horder. exact Hfresh. }
  assert (Hcons1 : conserved b s (r_store r)).
  { intros r0 Hr0.
    assert (Hheld : held (r_store r) b = held s b + holding b (r_order r)).
    { unfold held. rewrite Horders, sum_holding_app. cbn. lia. }
    assert (Hnew : holding b (r_order r)
                   = if String.eqb bagId b then q else 0).
    { rewrite Horder. unfold holding. cbn. rewrite Hkey, andb_true_r.
      reflexivity. }
    rewrite Hheld, Hnew.
    assert (Hrem : remaining_of (r_store r) b
                   = if String.eqb b bagId
                     then option_map
                            (fun x => Bag.quantityRemaining
                                        (Bag_reserve bag q x))
                            (findUnique Bag.id (bags s) b)
                     else remaining_of s b).
    { unfold remaining_of. rewrite Hbags.
      apply (remaining_rewritten _ b bagId _ (Bag_reserve_id bag q)). }
    rewrite Hrem, (String.eqb_sym bagId b).
    destruct (String.eqb b bagId) eqn:E.
    - apply String.eqb_eq in E. unfold remaining_of in Hr0.
      rewrite E in Hr0. rewrite E, Hbag in *. cbn in Hr0.
      inversion Hr0; subst r0. eexists. split; [reflexivity|]. cbn. lia.
    - exists r0. split; [exact Hr0 | lia]. }
  match goal with
  | |- context [bind ?m ?k] => destruct (bind m k) as [[s2 checkout]|e] eqn:Hb
  end.
  - apply bind_Ok in Hb. destruct Hb as [c [_ Hb]].
    apply bind_Ok in Hb. destruct Hb as [s3 [Hs3 Hb]].
    inversion Hb; subst. cbn [fst]. apply payment_create_orders in Hs3.
    destruct Hs3 as [Ho3 Hb3]. split; [rewrite Ho3; exact Hnd1|].
    apply (conserved_trans b s (r_store r)); [exact Hcons1|].
    apply conserved_same; assumption.
  - destruct (order_delete onDelete (r_store r) (Order.id (r_order r)))
      as [s3|e'] eqn:Hd; cbn [fst]; [|split; assumption].
    apply order_delete_inv in Hd. destruct Hd as [_ [Ho3 [Hb3 _]]].
    split; [rewrite Ho3; apply filter_unique_keys, Hnd1|].
    apply (conserved_trans b s (r_store r)); [exact Hcons1|].
    intros r1 Hr1. exists r1. unfold remaining_of, held in *.
    rewrite Hb3, Ho3. split; [exact Hr1|].
    pose proof (sum_holding_filter_le b
                  (fun x => negb (has_key Order.id (Order.id (r_order r)) x))
                  (orders (r_store r)) (proj2 (proj2 Hsound1))).
    lia.
Qed.

Section Conserving.

Variable APP_URL : string.
Variable APP_SCHEME : string.
Variable YOCO_WEBHOOK_SECRET : option string.
Variable onDelete : ReferentialAction.
Variable base64Decode : string -> string.
Variable hmacSha256Base64 : string -> string -> string.

Lemma conserving_step (b : string) (s : Store) (op : Op) :
  ledger_sound s -> conserving op = true ->
  ledger_sound
    (step APP_URL APP_SCHEME YOCO_WEBHOOK_SECRET onDelete base64Decode
       hmacSha256Base64 s op)
  /\ conserved b s
       (step APP_URL APP_SCHEME YOCO_WEBHOOK_SECRET onDelete base64Decode
          hmacSha256Base64 s op).
Proof.
  intros Hs Hop.
  assert (Hsound : stock_sound
                     (step APP_URL APP_SCHEME YOCO_WEBHOOK_SECRET onDelete
                        base64Decode hmacSha256Base64 s op))
    by (apply sound_step, Hs).
  unfold ledger_sound. unfold step in *.
  destruct op; try discriminate Hop; cbn [handle] in *.
  - match goal with
    | |- context [createOrder ?a ?o ?x ?u ?bg ?q ?n ?i ?on ?qr ?p ?post] =>
        destruct (conserved_createOrder b a o x u bg q n i on qr p post Hs)
    end; auto.
  - match goal with
    | |- context [cancelOrder ?x ?u ?i ?re ?n] =>
        destruct (conserved_cancelOrder b x u i re n Hs)
    end; auto.
  - match goal with
    | |- context [scanOrder ?x ?u ?q ?n] =>
        destruct (conserved_scanOrder b x u q n Hs)
    end; auto.
  - rewrite yocoWebhook_store_unchanged in *. split; [exact Hs|].
    apply conserved_refl.
Qed.

Lemma conserving_run (b : string) (s : Store) (ops : list Op) :
  ledger_sound s -> forallb conserving ops = true ->
  ledger_sound
    (run APP_URL APP_SCHEME YOCO_WEBHOOK_SECRET onDelete base64Decode
       hmacSha256Base64 s ops)
  /\ conserved b s
       (run APP_URL APP_SCHEME YOCO_WEBHOOK_SECRET onDelete base64Decode
          hmacSha256Base64 s ops).
Proof.
  revert s. induction ops as [|op ops IH]; intros s Hs Hops.
  - split; [exact Hs | apply conserved_refl].
  - cbn [forallb] in Hops. apply andb_true_iff in Hops.
    destruct Hops as [Hop Hops]. cbn [run fold_left].
    destruct (conserving_step b s op Hs Hop) as [Hs1 Hc1].
    destruct (IH _ Hs1 Hops) as [Hs2 Hc2].
    split; [exact Hs2|].
    apply (conserved_trans b s _ _ Hc1 Hc2).
Qed.

(** X12. No overselling: from a store with unique listing and order
    identifiers and no negative quantity, along any sequence of orders,
    buyer's cancels, pickup scans and webhook requests, what a listing has
    left is never negative and, added to the quantities of its orders that
    are not cancelled or refunded, never exceeds that sum at the start. *)
Theorem live_orders_never_exceed_stock :
  forall (s : Store) (ops : list Op) (bagId : string) (r : Z),
  ledger_sound s ->
  forallb conserving ops = true ->
  remaining_of s bagId = Some r ->
  exists r',
    remaining_of
      (run APP_URL APP_SCHEME YOCO_WEBHOOK_SECRET onDelete base64Decode
         hmacSha256Base64 s ops) bagId = Some r'
    /\ 0 <= r'
    /\ r' + held
              (run APP_URL APP_SCHEME YOCO_WEBHOOK_SECRET onDelete
                 base64Decode hmacSha256Base64 s ops) bagId
       <= r + held s bagId.
Proof.
  intros s ops bagId r Hs Hops Hr.
  destruct (conserving_run bagId s ops Hs Hops) as [[Hsound _] Hc].
  destruct (Hc r Hr) as [r' [Hr' Hle]]. exists r'.
  split; [exact Hr'|]. split; [|exact Hle].
  destruct Hsound as [_ [Hbags _]]. unfold remaining_of in Hr'.
  destruct (findUnique Bag.id _ bagId) as [bag|] eqn:E; [|discriminate].
  cbn in Hr'. inversion Hr'; subst r'.
  rewrite Forall_forall in Hbags.
  apply Hbags, (findUnique_In Bag.id _ _ _ E).
Qed.

End Conserving.

Lemma live_orders_never_exceed_stock_witness :
  exists r',
    remaining_of
      (run Scenario.APP_URL Scenario.APP_SCHEME (Some "whsec_c2VjcmV0")
         Cascade (fun x => x) (fun key _ => key) (Scenario.market 2 2)
         [Scenario.order1 1 Scenario.gatewayUp;
          CancelOrder "user-1" "order-1" None 1600;
          CreateOrder "owner-2" "bag-1" (Some 2) 1700 "order-2" "KULA-XYZ789"
            "SAVR-0002" "pay-2" Scenario.gatewayUp;
          ScanOrder "owner-1" (Some "SAVR-0002") 1800])
      "bag-1" = Some r'
    /\ 0 <= r'
    /\ r' + held
              (run Scenario.APP_URL Scenario.APP_SCHEME
                 (Some "whsec_c2VjcmV0") Cascade (fun x => x)
                 (fun key _ => key) (Scenario.market 2 2)
                 [Scenario.order1 1 Scenario.gatewayUp;
                  CancelOrder "user-1" "order-1" None 1600;
                  CreateOrder "owner-2" "bag-1" (Some 2) 1700 "order-2"
                    "KULA-XYZ789" "SAVR-0002" "pay-2" Scenario.gatewayUp;
                  ScanOrder "owner-1" (Some "SAVR-0002") 1800])
              "bag-1"
       <= 2 + held (Scenario.market 2 2) "bag-1".
Proof.
  apply live_orders_never_exceed_stock; [|reflexivity|reflexivity].
  unfold ledger_sound, stock_sound.
  cbn [Scenario.market bags orders map].
  split; [split; [|split]|].
  - constructor; [intros [] | constructor].
  - constructor; [vm_compute; discriminate | constructor].
  - constructor.
  - constructor.
Defined.

(** ** Order numbers *)

Lemma charAt_chars (n : nat) :
  (n < 32)%nat ->
  exists c,
    String.get n chars = Some c
    /\ charAt chars n = String c EmptyString
    /\ contains c chars = true.
Proof.
  intros Hn.
  do 32 (destruct n as [|n];
         [eexists; split; [reflexivity | split; reflexivity]|]).
  lia.
Qed.

Lemma chars_distinct (n m : nat) :
  (n < 32)%nat -> (m < 32)%nat ->
  String.get n chars = String.get m chars -> n = m.
Proof.
  intros Hn Hm.
  do 32 (destruct n as [|n];
         [do 32 (destruct m as [|m];
                 [cbv; intros H; first [reflexivity | discriminate H]|]);
          lia|]).
  lia.
Qed.

Lemma generateOrderNumber_chars (random : nat -> nat)
  (c0 c1 c2 c3 c4 c5 : ascii) :
  charAt chars (random 0%nat) = String c0 EmptyString ->
  charAt chars (random 1%nat) = String c1 EmptyString ->
  charAt chars (random 2%nat) = String c2 EmptyString ->
  charAt chars (random 3%nat) = String c3 EmptyString ->
  charAt chars (random 4%nat) = String c4 EmptyString ->
  charAt chars (random 5%nat) = String c5 EmptyString ->
  generateOrderNumber random
  = String.append "KULA-"
      (String c0
         (String c1 (String c2 (String c3 (String c4 (String c5 EmptyString)))))).
Proof.
  intros H0 H1 H2 H3 H4 H5. unfold generateOrderNumber.
  cbn [seq fold_left]. rewrite H0, H1, H2, H3, H4, H5. reflexivity.
Qed.

Lemma generateOrderNumber_drawn (random : nat -> nat) :
  (forall i, (i < 6)%nat -> (random i < 32)%nat) ->
  exists c0 c1 c2 c3 c4 c5,
    generateOrderNumber random
    = String.append "KULA-"
        (String c0
           (String c1
              (String c2 (String c3 (String c4 (String c5 EmptyString))))))
    /\ String.get (random 0%nat) chars = Some c0
    /\ String.get (random 1%nat) chars = Some c1
    /\ String.get (random 2%nat) chars = Some c2
    /\ String.get (random 3%nat) chars = Some c3
    /\ String.get (random 4%nat) chars = Some c4
    /\ String.get (random 5%nat) chars = Some c5.
Proof.
  intros Hr.
  destruct (charAt_chars (random 0%nat)) as [c0 [G0 [E0 _]]]; [apply Hr; lia|].
  destruct (charAt_chars (random 1%nat)) as [c1 [G1 [E1 _]]]; [apply Hr; lia|].
  destruct (charAt_chars (random 2%nat)) as [c2 [G2 [E2 _]]]; [apply Hr; lia|].
  destruct (charAt_chars (random 3%nat)) as [c3 [G3 [E3 _]]]; [apply Hr; lia|].
  destruct (charAt_chars (random 4%nat)) as [c4 [G4 [E4 _]]]; [apply Hr; lia|].
  destruct (charAt_chars (random 5%nat)) as [c5 [G5 [E5 _]]]; [apply Hr; lia|].
  exists c0, c1, c2, c3, c4, c5.
  split; [apply generateOrderNumber_chars; assumption|].
  repeat split; assumption.
Qed.

(** X14.  With every draw an index of the alphabet (what
    [Math.floor(Math.random() * chars.length)] gives), an order number has
    eleven characters: 'KULA-', then for each of the six iterations the
    character of the alphabet at the index drawn, which is never one of
    I, O, 0 and 1. *)
Theorem generateOrderNumber_format :
  forall (random : nat -> nat),
  (forall i, (i < 6)%nat -> (random i < 32)%nat) ->
  String.length (generateOrderNumber random) = 11%nat
  /\ String.prefix "KULA-" (generateOrderNumber random) = true
  /\ forall i, (i < 6)%nat ->
       exists c,
         String.get (5 + i) (generateOrderNumber random) = Some c
         /\ String.get (random i) chars = Some c
         /\ contains c "IO01" = false.
Proof.
  intros random Hr.
  destruct (generateOrderNumber_drawn random Hr)
    as [c0 [c1 [c2 [c3 [c4 [c5 [E [G0 [G1 [G2 [G3 [G4 G5]]]]]]]]]]]].
  rewrite E. split; [reflexivity|]. split; [reflexivity|].
  assert (Hclear : forall n c, (n < 32)%nat -> String.get n chars = Some c ->
                     contains c "IO01" = false).
  { intros n c Hn.
    do 32 (destruct n as [|n];
           [cbv; intros H; inversion H; reflexivity|]).
    lia. }
  intros i Hi.
  destruct i as [|[|[|[|[|[|i]]]]]]; [| | | | | |lia].
  - exists c0. repeat split; [exact G0 | apply (Hclear _ _ (Hr _ Hi) G0)].
  - exists c1. repeat split; [exact G1 | apply (Hclear _ _ (Hr _ Hi) G1)].
  - exists c2. repeat split; [exact G2 | apply (Hclear _ _ (Hr _ Hi) G2)].
  - exists c3. repeat split; [exact G3 | apply (Hclear _ _ (Hr _ Hi) G3)].
  - exists c4. repeat split; [exact G4 | apply (Hclear _ _ (Hr _ Hi) G4)].
  - exists c5. repeat split; [exact G5 | apply (Hclear _ _ (Hr _ Hi) G5)].
Qed.

Lemma generateOrderNumber_format_witness :
  String.length (generateOrderNumber (fun i => (5 * i)%nat)) = 11%nat
  /\ String.prefix "KULA-" (generateOrderNumber (fun i => (5 * i)%nat)) = true
  /\ forall i, (i < 6)%nat ->
       exists c,
         String.get (5 + i) (generateOrderNumber (fun i => (5 * i)%nat))
         = Some c
         /\ String.get (5 * i) chars = Some c
         /\ contains c "IO01" = false.
Proof.
  apply (generateOrderNumber_format (fun i => (5 * i)%nat)).
  intros i Hi. lia.
Defined.

(** X15.  Two runs whose draws are indices of the alphabet give the same
    order number only when all six draws are the same: the 32 characters
    of the alphabet are distinct, so the number determines the draws. *)
Theorem generateOrderNumber_determines_draws :
  forall (random random' : nat -> nat),
  (forall i, (i < 6)%nat -> (random i < 32)%nat) ->
  (forall i, (i < 6)%nat -> (random' i < 32)%nat) ->
  generateOrderNumber random = generateOrderNumber random' ->
  forall i, (i < 6)%nat -> random i = random' i.
Proof.
  intros random random' Hr Hr' Heq.
  destruct (generateOrderNumber_drawn random Hr)
    as [c0 [c1 [c2 [c3 [c4 [c5 [E [G0 [G1 [G2 [G3 [G4 G5]]]]]]]]]]]].
  destruct (generateOrderNumber_drawn random' Hr')
    as [d0 [d1 [d2 [d3 [d4 [d5 [E' [G0' [G1' [G2' [G3' [G4' G5']]]]]]]]]]]].
  rewrite E, E' in Heq. cbn in Heq. inversion Heq; subst.
  intros i Hi.
  destruct i as [|[|[|[|[|[|i]]]]]]; [| | | | | |lia];
    (apply chars_distinct; [apply Hr; lia | apply Hr'; lia | congruence]).
Qed.

Lemma generateOrderNumber_determines_draws_witness :
  (5 * 3)%nat = Nat.min (5 * 3) 31.
Proof.
  apply (generateOrderNumber_determines_draws
           (fun i => (5 * i)%nat) (fun i => Nat.min (5 * i) 31)).
  - intros i Hi. lia.
  - intros i Hi. lia.
  - reflexivity.
  - lia.
Defined.

(** ** Pagination *)

Lemma validate_pagination_bounds (limit page : option Z) (l p : Z) :
  validate_pagination limit page = Some (l, p) ->
  1 <= l <= 100 /\ 1 <= p.
Proof.
  unfold validate_pagination. intros H.
  destruct ((1 <=? _) && (_ <=? 100) && (1 <=? _)) eqn:E; [|discriminate].
  inversion H; subst. clear H.
  apply andb_true_iff in E. destruct E as [E Hp].
  apply andb_true_iff in E. destruct E as [Hl Hu].
  apply Z.leb_le in Hp, Hl, Hu. lia.
Qed.

(** X16.  For a limit and a page that [paginationSchema] accepts, a page
    has at most [limit] rows; the rows from the start of the page on are
    the page followed by the rows from the start of the next page, so that
    consecutive pages neither overlap nor leave a row out; and [hasMore] is
    true exactly when the next page has a row. *)
Theorem pagination_pages :
  forall (A : Type) (rows : list A) (limit page : option Z) (l p : Z),
  validate_pagination limit page = Some (l, p) ->
  Z.of_nat (List.length (pageRows rows l p)) <= l
  /\ skipn (Z.to_nat ((p - 1) * l)) rows
     = pageRows rows l p ++ skipn (Z.to_nat (p * l)) rows
  /\ (hasMore rows l p = true <-> pageRows rows l (p + 1) <> []).
Proof.
  intros A rows limit page l p Hv.
  destruct (validate_pagination_bounds _ _ _ _ Hv) as [Hl Hp].
  split; [|split].
  - unfold pageRows. rewrite length_firstn. lia.
  - unfold pageRows.
    replace (Z.to_nat (p * l))
      with (Z.to_nat l + Z.to_nat ((p - 1) * l))%nat.
    2:{ rewrite <- Z2Nat.inj_add; [f_equal; lia | lia | nia]. }
    rewrite <- skipn_skipn. symmetry. apply firstn_skipn.
  - unfold hasMore, pageRows.
    replace ((p + 1 - 1) * l) with (p * l) by lia.
    rewrite Z.ltb_lt.
    assert (Hlen : List.length (skipn (Z.to_nat (p * l)) rows)
                   = (List.length rows - Z.to_nat (p * l))%nat)
      by apply length_skipn.
    destruct (skipn (Z.to_nat (p * l)) rows) as [|x rest] eqn:E.
    + rewrite firstn_nil. simpl in Hlen. split; [|congruence].
      intros Hlt. exfalso.
      assert (0 <= p * l) by nia. lia.
    + destruct (Z.to_nat l) as [|n] eqn:El; [lia|].
      simpl. simpl in Hlen. split; [discriminate|].
      intros _. assert (0 <= p * l) by nia. lia.
Qed.

Lemma pagination_pages_witness :
  Z.of_nat (List.length (pageRows ["a"; "b"; "c"; "d"; "e"] 2 2)) <= 2
  /\ skipn (Z.to_nat ((2 - 1) * 2)) ["a"; "b"; "c"; "d"; "e"]
     = pageRows ["a"; "b"; "c"; "d"; "e"] 2 2
       ++ skipn (Z.to_nat (2 * 2)) ["a"; "b"; "c"; "d"; "e"]
  /\ (hasMore ["a"; "b"; "c"; "d"; "e"] 2 2 = true
      <-> pageRows ["a"; "b"; "c"; "d"; "e"] 2 (2 + 1) <> []).
Proof.
  apply (pagination_pages string ["a"; "b"; "c"; "d"; "e"] (Some 2) (Some 2)).
  reflexivity.
Defined.

(** ** The authentication middleware *)

Lemma prefix_app (a s : string) :
  String.prefix a s = true -> exists tail, s = String.append a tail.
Proof.
  revert s. induction a as [|c a IH]; intros s H.
  - exists s. reflexivity.
  - destruct s as [|d s]; [discriminate|]. simpl in H.
    destruct (ascii_dec c d) as [->|]; [|discriminate].
    destruct (IH s H) as [tail ->]. exists tail. reflexivity.
Qed.

Lemma app_prefix (a tail : string) :
  String.prefix a (String.append a tail) = true.
Proof.
  induction a as [|c a IH]; simpl; [destruct tail; reflexivity|].
  destruct (ascii_dec c c); [exact IH | congruence].
Qed.

(** A string up to its first occurrence of a character. *)
Lemma first_field (c : ascii) (s : string) :
  exists field rest,
    s = String.append field rest
    /\ contains c field = false
    /\ (rest = EmptyString \/ exists r, rest = String c r).
Proof.
  induction s as [|x s [field [rest [E [Hf Hr]]]]].
  - exists EmptyString, EmptyString. auto.
  - destruct (Ascii.eqb x c) eqn:Ex.
    + apply Ascii.eqb_eq in Ex. subst x.
      exists EmptyString, (String c s). repeat split; eauto.
    + exists (String x field), rest. simpl. rewrite Ex, Hf, E. auto.
Qed.

Lemma second_field (c : ascii) (first field rest : string) :
  contains c first = false ->
  contains c field = false ->
  rest = EmptyString \/ (exists r, rest = String c r) ->
  nth_error
    (split c (String.append first (String c (String.append field rest)))) 1
  = Some field.
Proof.
  intros Hfirst Hfield Hrest. rewrite split_app by exact Hfirst.
  destruct Hrest as [-> | [r ->]].
  - replace (String.append field EmptyString) with field.
    + rewrite split_free by exact Hfield. reflexivity.
    + clear. induction field; simpl; congruence.
  - rewrite split_app by exact Hfield. reflexivity.
Qed.

Lemma authenticate_bearer (verifyAccessToken : string -> result Auth.JwtPayload)
  (token rest : string) :
  contains " " token = false ->
  rest = EmptyString \/ (exists r, rest = String " " r) ->
  Auth.authenticate verifyAccessToken
    (Some (String.append "Bearer " (String.append token rest)))
  = match verifyAccessToken token with
    | Ok payload => Auth.Next (Some payload)
    | Throw e => Auth.caught e
    end.
Proof.
  intros Htoken Hrest. unfold Auth.authenticate.
  rewrite app_prefix.
  change (String.append "Bearer " (String.append token rest))
    with (String.append "Bearer" (String " " (String.append token rest))).
  rewrite (second_field " " "Bearer" token rest);
    [reflexivity | reflexivity | exact Htoken | exact Hrest].
Qed.

(** X17.  The guard of the business routes lets a request through exactly
    when its authorization header is 'Bearer ', then a token that
    [verifyAccessToken] accepts with the role business, then nothing or a
    space and anything; the user put on the request is that token's
    payload.  What follows a second space is never read. *)
Theorem businessGuard_passes_iff :
  forall (verifyAccessToken : string -> result Auth.JwtPayload)
         (authorization : option string) (user : option Auth.JwtPayload),
  Auth.businessGuard verifyAccessToken authorization = Auth.Next user
  <-> exists token rest payload,
        authorization
        = Some (String.append "Bearer " (String.append token rest))
        /\ contains " " token = false
        /\ (rest = EmptyString \/ exists r, rest = String " " r)
        /\ verifyAccessToken token = Ok payload
        /\ Auth.role payload = Auth.business
        /\ user = Some payload.
Proof.
  intros verify authorization user. split.
  - intros H. unfold Auth.businessGuard in H.
    destruct authorization as [authHeader|].
    2:{ cbn in H. discriminate. }
    destruct (String.prefix "Bearer " authHeader) eqn:Hp.
    2:{ unfold Auth.authenticate in H. rewrite Hp, orb_true_r in H.
        cbn in H. discriminate. }
    destruct (prefix_app _ _ Hp) as [tail ->].
    destruct (first_field " " tail) as [token [rest [-> [Htoken Hrest]]]].
    rewrite (authenticate_bearer verify token rest Htoken Hrest) in H.
    destruct (verify token) as [payload|e] eqn:Hv.
    2:{ destruct e; cbn in H; discriminate. }
    unfold Auth.requireRole in H.
    destruct (Auth.role payload) eqn:Hrole; cbn in H; try discriminate.
    inversion H; subst. exists token, rest, payload. auto 7.
  - intros [token [rest [payload [-> [Htoken [Hrest [Hv [Hrole ->]]]]]]]].
    unfold Auth.businessGuard.
    rewrite (authenticate_bearer verify token rest Htoken Hrest), Hv.
    unfold Auth.requireRole. rewrite Hrole. reflexivity.
Qed.

(** X18.  [optionalAuth] never answers itself: it calls [next] on every
    request, with the user that [authenticate] would have put on it when
    [authenticate] lets the request through, and with none when
    [authenticate] refuses it. *)
Theorem optionalAuth_never_refuses :
  forall (verifyAccessToken : string -> result Auth.JwtPayload)
         (authorization : option string),
  Auth.optionalAuth verifyAccessToken authorization
  = match Auth.authenticate verifyAccessToken authorization with
    | Auth.Next user => Auth.Next user
    | Auth.Responds _ _ => Auth.Next None
    end.
Proof.
  intros verify authorization.
  unfold Auth.optionalAuth, Auth.authenticate.
  destruct authorization as [authHeader|]; [|reflexivity].
  destruct (truthy (Some authHeader)); cbn [negb orb andb];
    [|reflexivity].
  destruct (String.prefix "Bearer " authHeader); cbn [negb]; [|reflexivity].
  destruct (nth_error (split " " authHeader) 1) as [token|]; [|reflexivity].
  destruct (verify token) as [payload|e]; [reflexivity|].
  destruct e; reflexivity.
Qed.

(** ** GET /api/v1/payments/status/:orderId *)

Lemma find_app_none {R : Type} (w : R -> bool) (t t' : list R) :
  find w t = None -> find w (t ++ t') = find w t'.
Proof.
  induction t as [|x t IH]; simpl; [reflexivity|].
  destruct (w x); [discriminate | exact IH].
Qed.

Lemma createOrder_created_payment (APP_URL : string)
  (onDelete : ReferentialAction) (s : Store) (sub bagId : string)
  (quantity : option Z) (now : Z)
  (newId orderNumber qrCode paymentId : string)
  (post : Yoco.CheckoutRequest -> result Yoco.YocoCheckoutResponse)
  (s' : Store) (body : Body) :
  createOrder APP_URL onDelete s sub bagId quantity now newId orderNumber
    qrCode paymentId post = (s', Json 201 body) ->
  exists q r checkout,
    reserveTransaction s sub bagId q now newId orderNumber qrCode = Ok r
    /\ orders s' = orders (r_store r)
    /\ payments s'
       = payments (r_store r) ++ [pendingPayment paymentId r checkout].
Proof.
  unfold createOrder.
  destruct (validate_quantity quantity) as [q|]; [|discriminate].
  destruct (reserveTransaction s sub bagId q now newId orderNumber qrCode)
    as [r|e] eqn:Hr; [|discriminate].
  match goal with
  | |- context [bind ?m ?k] => destruct (bind m k) as [[s2 checkout]|e] eqn:Hb
  end.
  2:{ destruct (order_delete _ _ _); discriminate. }
  intros H. inversion H; subst s2; clear H.
  apply bind_Ok in Hb. destruct Hb as [c [_ Hb]].
  apply bind_Ok in Hb. destruct Hb as [s3 [Hs3 Hb]].
  inversion Hb; subst s3 checkout; clear Hb.
  unfold payment_create in Hs3. apply bind_Ok in Hs3.
  destruct Hs3 as [t [Ht Hs3]]. inversion Hs3; subst s'. clear Hs3.
  unfold create in Ht. destruct (existsb _ _); [discriminate|].
  inversion Ht; subst t.
  exists q, r, c. repeat split; auto.
Qed.

(** X19.  In a store where every payment belongs to an order, once an
    order has been created (201) the status route answers its buyer with
    the new order's id and number, the order status pending, the payment
    status pending and no payment time; it answers every other user 403. *)
Theorem status_after_order :
  forall (APP_URL : string) (onDelete : ReferentialAction) (s : Store)
         (sub bagId : string) (quantity : option Z) (now : Z)
         (newId orderNumber qrCode paymentId : string)
         (post : Yoco.CheckoutRequest -> result Yoco.YocoCheckoutResponse)
         (s1 : Store) (body : Body),
  (forall p, In p (payments s) ->
     existsb (has_key Order.id (Payment.orderId p)) (orders s) = true) ->
  createOrder APP_URL onDelete s sub bagId quantity now newId orderNumber
    qrCode paymentId post = (s1, Json 201 body) ->
  getPaymentStatus s1 sub newId
  = StatusData newId orderNumber pending p_pending None
  /\ forall other, other <> sub ->
       getPaymentStatus s1 other newId = StatusError 403 "Not authorized".
Proof.
  intros APP_URL onDelete s sub bagId quantity now newId orderNumber qrCode
    paymentId post s1 body Hfk Hcreate.
  apply createOrder_created_payment in Hcreate.
  destruct Hcreate as [q [r [checkout [Hr [Ho1 Hp1]]]]].
  assert (Hfresh := reserveTransaction_fresh _ _ _ _ _ _ _ _ _ Hr).
  apply reserveTransaction_inv in Hr.
  destruct Hr as [bag [_ [_ [_ [Horder [Horders [Hpays _]]]]]]].
  assert (Hid : Order.id (r_order r) = newId) by (rewrite Horder; reflexivity).
  assert (Hfound : findUnique Order.id (orders s1) newId = Some (r_order r)).
  { rewrite Ho1, Horders, <- Hid. apply findUnique_app_fresh.
    rewrite Hid. exact Hfresh. }
  assert (Hnone : find (fun p => String.eqb (Payment.orderId p) newId)
                    (payments s) = None).
  { destruct (find _ (payments s)) as [p|] eqn:E; [|reflexivity].
    exfalso. apply find_some in E. destruct E as [Hin Heq].
    apply String.eqb_eq in Heq. specialize (Hfk p Hin).
    rewrite Heq, Hfresh in Hfk. discriminate. }
  assert (Hpay : payment_of_order s1 newId
                 = Some (pendingPayment paymentId r checkout)).
  { unfold payment_of_order. rewrite Hp1, Hpays, (find_app_none _ _ _ Hnone).
    cbn [find pendingPayment Payment.orderId]. rewrite Hid, String.eqb_refl.
    reflexivity. }
  unfold getPaymentStatus. rewrite Hfound, Hid, Hpay.
  assert (Huser : Order.userId (r_order r) = sub)
    by (rewrite Horder; reflexivity).
  assert (Hnum : Order.orderNumber (r_order r) = orderNumber)
    by (rewrite Horder; reflexivity).
  assert (Hst : Order.status (r_order r) = pending)
    by (rewrite Horder; reflexivity).
  rewrite Huser, Hnum, Hst. split.
  - rewrite String.eqb_refl. reflexivity.
  - intros other Hne. apply String.eqb_neq in Hne.
    rewrite String.eqb_sym, Hne. reflexivity.
Qed.

Lemma status_after_order_witness :
  getPaymentStatus Scenario.ordered "user-1" "order-1"
  = StatusData "order-1" "KULA-ABC234" pending p_pending None
  /\ forall other, other <> "user-1" ->
       getPaymentStatus Scenario.ordered other "order-1"
       = StatusError 403 "Not authorized".
Proof.
  apply (status_after_order Scenario.APP_URL Cascade (Scenario.market 1 1)
           "user-1" "bag-1" (Some 1) 1500 "order-1" "KULA-ABC234" "SAVR-0001"
           "pay-1" Scenario.gatewayUp Scenario.ordered
           (CheckoutBody (Scenario.placed 1) "chk-1"
              "https://pay.example/chk-1")).
  - intros p [].
  - reflexivity.
Defined.

(** ** The success redirect and the declared statuses *)

(** X20.  When the provider answers the poll with one of the four statuses
    that [YocoPaymentResponse] declares (succeeded, completed, failed,
    pending), the success redirect writes nothing, whatever the order: the
    handler tests for the word 'successful'. *)
Theorem yocoSuccess_declared_statuses_write_nothing :
  forall (APP_SCHEME : string) (s : Store) (orderId : option string) (now : Z)
         (get : string -> result Yoco.YocoPaymentResponse),
  (forall checkoutId r,
     get checkoutId = Ok r ->
     In (Yoco.pay_status r) ["succeeded"; "completed"; "failed"; "pending"]) ->
  fst (yocoSuccess APP_SCHEME s orderId now get) = s
  /\ forall order,
       findUnique Order.id (orders s) (template orderId) = Some order ->
       snd (yocoSuccess APP_SCHEME s orderId now get)
       <> Redirect
            (String.append APP_SCHEME
               (String.append "payment/success?orderId="
                  (String.append (Order.id order)
                     (String.append "&orderNumber="
                        (Order.orderNumber order))))).
Proof.
  intros APP_SCHEME s orderId now get Hdeclared.
  assert (Hnot : forall checkoutId r, get checkoutId = Ok r ->
                   isSuccessful r = false).
  { intros checkoutId r Hr. unfold isSuccessful.
    destruct (Hdeclared checkoutId r Hr) as [<- | [<- | [<- | [<- | []]]]];
      reflexivity. }
  assert (Hlink : forall (a b c : string),
            String.append APP_SCHEME (String.append "payment/pending" a)
            <> String.append APP_SCHEME (String.append "payment/success" b)
            /\ String.append APP_SCHEME (String.append "payment/error" c)
               <> String.append APP_SCHEME (String.append "payment/success" b)).
  { intros a b c. induction APP_SCHEME as [|x rest IH]; cbn.
    - split; discriminate.
    - destruct IH as [IH1 IH2]. split; intros H; inversion H; auto. }
  unfold yocoSuccess, deeplink, Yoco.getCheckoutStatus.
  destruct (negb (truthy orderId)).
  { split; [reflexivity|]. intros order _ H. cbn in H. inversion H as [H'].
    apply (proj2 (Hlink "" _ "?message=Missing order ID")) in H'. exact H'. }
  destruct (findUnique Order.id (orders s) (template orderId)) as [order|].
  2:{ split; [reflexivity|]. intros order H. discriminate. }
  assert (Hpending :
    forall order',
      Redirect
        (String.append APP_SCHEME
           (String.append "payment/pending?orderId=" (Order.id order)))
      <> Redirect
           (String.append APP_SCHEME
              (String.append "payment/success?orderId="
                 (String.append (Order.id order')
                    (String.append "&orderNumber="
                       (Order.orderNumber order')))))).
  { intros order' H. inversion H as [H'].
    apply (proj1 (Hlink (String.append "?orderId=" (Order.id order))
                    (String.append "?orderId="
                       (String.append (Order.id order')
                          (String.append "&orderNumber="
                             (Order.orderNumber order'))))
                    "")) in H'.
    exact H'. }
  assert (Herror :
    forall order',
      Redirect
        (String.append APP_SCHEME
           "payment/error?message=Payment verification failed")
      <> Redirect
           (String.append APP_SCHEME
              (String.append "payment/success?orderId="
                 (String.append (Order.id order')
                    (String.append "&orderNumber="
                       (Order.orderNumber order')))))).
  { intros order' H. inversion H as [H'].
    apply (proj2 (Hlink ""
                    (String.append "?orderId="
                       (String.append (Order.id order')
                          (String.append "&orderNumber="
                             (Order.orderNumber order'))))
                    "?message=Payment verification failed")) in H'.
    exact H'. }
  destruct (payment_of_order s (Order.id order)) as [payment|].
  2:{ split; [reflexivity|]. intros order' _. apply Hpending. }
  destruct (negb (truthy (Payment.stripePaymentIntentId payment))).
  { split; [reflexivity|]. intros order' _. apply Hpending. }
  destruct (get (template (Payment.stripePaymentIntentId payment)))
    as [checkoutStatus|e] eqn:Hget.
  2:{ split; [reflexivity|]. intros order' _. apply Herror. }
  rewrite (Hnot _ _ Hget).
  split; [reflexivity|]. intros order' _. apply Hpending.
Qed.

Lemma yocoSuccess_declared_statuses_write_nothing_witness :
  fst (yocoSuccess Scenario.APP_SCHEME Scenario.ordered (Some "order-1") 1800
         (Scenario.polled "succeeded"))
  = Scenario.ordered
  /\ forall order,
       findUnique Order.id (orders Scenario.ordered) (template (Some "order-1"))
       = Some order ->
       snd (yocoSuccess Scenario.APP_SCHEME Scenario.ordered (Some "order-1")
              1800 (Scenario.polled "succeeded"))
       <> Redirect
            (String.append Scenario.APP_SCHEME
               (String.append "payment/success?orderId="
                  (String.append (Order.id order)
                     (String.append "&orderNumber="
                        (Order.orderNumber order))))).
Proof.
  apply (yocoSuccess_declared_statuses_write_nothing Scenario.APP_SCHEME
           Scenario.ordered (Some "order-1") 1800 (Scenario.polled "succeeded")).
  intros checkoutId r H. inversion H. simpl. auto.
Defined.

(** ** The webhook's payment.failed case *)

Lemma webhookEvent_failed (onDelete : ReferentialAction) (s : Store)
  (p : Payload) (now : Z) :
  webhookEvent onDelete s "payment.failed" p now
  = match paymentFailed onDelete s p now with
    | Ok s' => (s', Json 200 ReceivedBody)
    | Throw _ => (s, Json 500 (ErrorBody "Webhook processing failed"))
    end.
Proof. reflexivity. Qed.

Lemma paymentFailed_inv (onDelete : ReferentialAction) (s s' : Store)
  (p : Payload) (now : Z) :
  paymentFailed onDelete s p now = Ok s' ->
  s' = s
  \/ exists payment order f s2,
       find (fun x => where_eq (Payment.stripePaymentIntentId x)
                        (js_or (metadata_checkoutId p) (payload_id p)))
         (payments s) = Some payment
       /\ findUnique Order.id (orders s) (Payment.orderId payment) = Some order
       /\ (forall x, Payment.orderId (f x) = Payment.orderId x)
       /\ payments s2 = rewritten Payment.id (Payment.id payment) f (payments s)
       /\ order_delete onDelete s2 (Payment.orderId payment) = Ok s'.
Proof.
  unfold paymentFailed.
  destruct (payment_with_order s _) as [[payment order]|] eqn:Hpo.
  2:{ intros H. inversion H. left. reflexivity. }
  apply payment_with_order_inv in Hpo. destruct Hpo as [Hfind Horder].
  cbn [transaction]. intros H.
  apply bind_Ok in H. destruct H as [s1 [H1 H]].
  apply bind_Ok in H. destruct H as [s2 [H2 H]].
  apply bind_Ok in H. destruct H as [s3 [H3 H]].
  inversion H; subst s3; clear H.
  unfold bag_update in H1. apply bind_Ok in H1.
  destruct H1 as [t1 [_ H1]]. inversion H1; subst s1; clear H1.
  unfold payment_update in H2. apply bind_Ok in H2.
  destruct H2 as [t2 [Ht2 H2]]. inversion H2; subst s2; clear H2.
  apply update_inv in Ht2. destruct Ht2 as [_ ->].
  right.
  exists payment, order,
    (Payment_fail now (js_or (failureReason p) (Some "Payment failed"))).
  eexists.
  split; [exact Hfind|]. split; [exact Horder|].
  split; [|split; [|exact H3]]; reflexivity.
Qed.

(** X21.  With unique payment ids, the payment.failed case never leaves a
    payment marked failed behind: every payment in the store after the
    event was in it, unchanged, before (the update to failed is undone with
    the transaction or removed with the order).  When the schema refuses to
    delete an order that has a payment, the case changes nothing at all. *)
Theorem payment_failed_never_recorded :
  forall (onDelete : ReferentialAction) (s : Store) (p : Payload) (now : Z),
  NoDup (map Payment.id (payments s)) ->
  (forall x,
     In x (payments (fst (webhookEvent onDelete s "payment.failed" p now))) ->
     In x (payments s))
  /\ (onDelete = Restrict ->
      fst (webhookEvent onDelete s "payment.failed" p now) = s).
Proof.
  intros onDelete s p now Hnd. rewrite webhookEvent_failed.
  destruct (paymentFailed onDelete s p now) as [s'|e] eqn:E.
  2:{ split; [intros x Hx; exact Hx | reflexivity]. }
  cbn [fst]. apply paymentFailed_inv in E.
  destruct E as [-> | [payment [order [f [s2 [Hfind [_ [Hf [Hp2 Hdel]]]]]]]]].
  { split; [intros x Hx; exact Hx | reflexivity]. }
  apply find_some in Hfind. destruct Hfind as [Hin _].
  unfold order_delete in Hdel. apply bind_Ok in Hdel.
  destruct Hdel as [t [_ Hdel]].
  assert (Hreferenced :
    existsb (fun x => String.eqb (Payment.orderId x) (Payment.orderId payment))
      (payments s2) = true).
  { rewrite Hp2. apply existsb_exists.
    exists (if has_key Payment.id (Payment.id payment) payment
            then f payment else payment).
    split.
    - unfold rewritten.
      apply (in_map (fun r => if has_key Payment.id (Payment.id payment) r
                              then f r else r)), Hin.
    - destruct (has_key _ _ payment); rewrite ?Hf; apply String.eqb_refl. }
  destruct onDelete.
  - split; [|discriminate]. inversion Hdel; subst s'; clear Hdel.
    cbn [payments]. intros x Hx. apply filter_In in Hx.
    destruct Hx as [Hx Hkept]. rewrite Hp2 in Hx. unfold rewritten in Hx.
    apply in_map_iff in Hx. destruct Hx as [r [Hr Hrin]].
    destruct (has_key Payment.id (Payment.id payment) r) eqn:Hk.
    + exfalso. apply has_key_eq in Hk.
      assert (r = payment) by apply (NoDup_keys_row Payment.id _ _ _ Hnd Hrin Hin Hk).
      subst r x. rewrite Hf, String.eqb_refl in Hkept. discriminate.
    + subst x. exact Hrin.
  - rewrite Hreferenced in Hdel. discriminate.
Qed.

Lemma payment_failed_never_recorded_witness :
  (forall x,
     In x (payments
             (fst (webhookEvent Cascade Scenario.ordered "payment.failed"
                     Scenario.event1 1700))) ->
     In x (payments Scenario.ordered))
  /\ (Cascade = Restrict ->
      fst (webhookEvent Cascade Scenario.ordered "payment.failed"
             Scenario.event1 1700)
      = Scenario.ordered).
Proof.
  apply (payment_failed_never_recorded Cascade Scenario.ordered
           Scenario.event1 1700).
  vm_compute. constructor; [intros [] | constructor].
Defined.

(** ** An order abandoned through the cancel redirect *)

Lemma reserveTransaction_available (s : Store) (sub bagId : string) (q now : Z)
  (newId orderNumber qrCode : string) (r : Reservation) :
  reserveTransaction s sub bagId q now newId orderNumber qrCode = Ok r ->
  exists bag,
    findUnique Bag.id (bags s) bagId = Some bag
    /\ Bag.isSoldOut bag = false
    /\ restaurants (r_store r) = restaurants s.
Proof.
  unfold reserveTransaction.
  destruct (findUnique Bag.id (bags s) bagId) as [bag|]; [|discriminate].
  destruct (Bag.isSoldOut bag) eqn:Hsold.
  { rewrite orb_true_r. discriminate. }
  destruct (negb (Bag.isActive bag) || false); [discriminate|].
  destruct (Bag.quantityRemaining bag <? q); [discriminate|].
  destruct (Bag.pickupEnd bag <? now); [discriminate|].
  intros H. apply bind_Ok in H. destruct H as [s1 [Hs1 H]].
  unfold bag_update in Hs1. apply bind_Ok in Hs1.
  destruct Hs1 as [t [_ Hs1]]. inversion Hs1; subst s1; clear Hs1.
  destruct (findUnique Bag.id _ bagId) as [updatedBag|]; [|discriminate].
  destruct (Bag.quantityRemaining updatedBag <? 0); [discriminate|].
  apply bind_Ok in H. destruct H as [s2 [Hs2 H]].
  inversion H; subst r; clear H.
  unfold order_create in Hs2.
  destruct (existsb _ _); [discriminate|].
  destruct (existsb _ _); [discriminate|].
  apply bind_Ok in Hs2. destruct Hs2 as [t' [_ Hs2]].
  inversion Hs2; subst s2.
  exists bag. repeat split; auto.
Qed.

Lemma createOrder_created_store (APP_URL : string)
  (onDelete : ReferentialAction) (s : Store) (sub bagId : string)
  (quantity : option Z) (now : Z)
  (newId orderNumber qrCode paymentId : string)
  (post : Yoco.CheckoutRequest -> result Yoco.YocoCheckoutResponse)
  (s' : Store) (body : Body) :
  createOrder APP_URL onDelete s sub bagId quantity now newId orderNumber
    qrCode paymentId post = (s', Json 201 body) ->
  exists q r checkout,
    reserveTransaction s sub bagId q now newId orderNumber qrCode = Ok r
    /\ s' = mkStore (bags (r_store r)) (orders (r_store r))
              (payments (r_store r) ++ [pendingPayment paymentId r checkout])
              (users (r_store r)) (restaurants (r_store r)).
Proof.
  unfold createOrder.
  destruct (validate_quantity quantity) as [q|]; [|discriminate].
  destruct (reserveTransaction s sub bagId q now newId orderNumber qrCode)
    as [r|e] eqn:Hr; [|discriminate].
  match goal with
  | |- context [bind ?m ?k] => destruct (bind m k) as [[s2 checkout]|e] eqn:Hb
  end.
  2:{ destruct (order_delete _ _ _); discriminate. }
  intros H. inversion H; subst s2; clear H.
  apply bind_Ok in Hb. destruct Hb as [c [_ Hb]].
  apply bind_Ok in Hb. destruct Hb as [s3 [Hs3 Hb]].
  inversion Hb; subst s3 checkout; clear Hb.
  unfold payment_create in Hs3. apply bind_Ok in Hs3.
  destruct Hs3 as [t [Ht Hs3]]. inversion Hs3; subst s'. clear Hs3.
  unfold create in Ht. destruct (existsb _ _); [discriminate|].
  inversion Ht; subst t.
  exists q, r, c. split; [exact Hr | reflexivity].
Qed.

Lemma rewritten_fixed {R : Type} (key : R -> string) (k : string)
  (h : R -> R) (t : list R) :
  (forall r, In r t -> key r = k -> h r = r) ->
  rewritten key k h t = t.
Proof.
  intros Hh. unfold rewritten.
  induction t as [|x t IH]; simpl; [reflexivity|].
  rewrite IH by (intros r Hr; apply Hh; right; exact Hr).
  destruct (has_key key k x) eqn:E; [|reflexivity].
  rewrite Hh; [reflexivity | left; reflexivity | apply has_key_eq, E].
Qed.

Lemma filter_keeps_all {R : Type} (w : R -> bool) (t : list R) :
  existsb w t = false -> filter (fun r => negb (w r)) t = t.
Proof.
  induction t as [|x t IH]; simpl; [reflexivity|].
  intros H. apply orb_false_iff in H. destruct H as [Hx Ht].
  rewrite Hx. simpl. rewrite (IH Ht). reflexivity.
Qed.

(** X22.  Round trip through the cancel redirect.  Where the schema deletes
    the payment with its order, in a store with unique listing ids whose
    payments all belong to an order: when an order has been created (201)
    and the cancel redirect is then followed with its id, the store is
    exactly the store before the order; listing, orders, payments and users
    are as they were. *)
Theorem order_then_cancel_redirect_round_trip :
  forall (APP_URL APP_SCHEME : string) (s : Store) (sub bagId : string)
         (quantity : option Z) (now : Z)
         (newId orderNumber qrCode paymentId : string)
         (post : Yoco.CheckoutRequest -> result Yoco.YocoCheckoutResponse)
         (s1 : Store) (body : Body),
  NoDup (map Bag.id (bags s)) ->
  (forall p, In p (payments s) ->
     existsb (has_key Order.id (Payment.orderId p)) (orders s) = true) ->
  newId <> "" ->
  createOrder APP_URL Cascade s sub bagId quantity now newId orderNumber
    qrCode paymentId post = (s1, Json 201 body) ->
  yocoCancel APP_SCHEME Cascade s1 (Some newId)
  = (s, Redirect (String.append APP_SCHEME "payment/cancelled")).
Proof.
  intros APP_URL APP_SCHEME s sub bagId quantity now newId orderNumber qrCode
    paymentId post s1 body Hnd Hfk Hid Hcreate.
  apply createOrder_created_store in Hcreate.
  destruct Hcreate as [q [r [checkout [Hr ->]]]].
  assert (Hfresh := reserveTransaction_fresh _ _ _ _ _ _ _ _ _ Hr).
  destruct (reserveTransaction_available _ _ _ _ _ _ _ _ _ Hr)
    as [bag [Hbag [Hsold Hrest]]].
  apply reserveTransaction_inv in Hr.
  destruct Hr as [bag' [Hbag' [_ [_ [Horder [Horders [Hpays [Husers [Hbags _]]]]]]]]].
  rewrite Hbag in Hbag'. inversion Hbag'; subst bag'; clear Hbag'.
  assert (Hkey : Bag.id bag = bagId) by apply (findUnique_key Bag.id _ _ _ Hbag).
  assert (Hoid : Order.id (r_order r) = newId) by (rewrite Horder; reflexivity).
  assert (Hobag : Order.bagId (r_order r) = bagId)
    by (rewrite Horder; exact Hkey).
  assert (Hoq : Order.quantity (r_order r) = q) by (rewrite Horder; reflexivity).
  rewrite Hbags, Horders, Hpays, Husers, Hrest.
  unfold yocoCancel, deeplink. f_equal.
  unfold abandonOrder.
  assert (Ht : truthy (Some newId) = true).
  { cbn. apply String.eqb_neq in Hid. rewrite Hid. reflexivity. }
  rewrite Ht. cbn [template]. unfold restoreInventory. cbn [orders].
  assert (Hfound : findUnique Order.id (orders s ++ [r_order r]) newId
                   = Some (r_order r)).
  { rewrite <- Hoid. apply findUnique_app_fresh. rewrite Hoid. exact Hfresh. }
  rewrite Hfound, Hobag, Hoq.
  rewrite bag_update_found.
  2:{ cbn [bags].
      rewrite (existsb_rewritten Bag.id _ (Bag_reserve_id bag q)).
      apply (findUnique_existsb _ _ _ _ Hbag). }
  unfold order_delete, delete, with_bags. cbn [orders bags payments users restaurants].
  rewrite (findUnique_existsb Order.id _ _ _ Hfound). cbn [bind].
  assert (Hb : rewritten Bag.id bagId (Bag_restore q)
                 (rewritten Bag.id bagId (Bag_reserve bag q) (bags s))
               = bags s).
  { rewrite (rewritten_twice Bag.id) by apply Bag_reserve_id.
    apply rewritten_fixed. intros x Hx Hk.
    assert (x = bag).
    { apply (NoDup_keys_row Bag.id _ _ _ Hnd Hx
               (findUnique_In Bag.id _ _ _ Hbag)).
      rewrite Hk, Hkey. reflexivity. }
    subst x. clear - Hsold. revert Hsold.
    destruct bag as [i ri ti pc qt qr ps pe ac so]. cbn. intros ->.
    unfold Bag_restore, Bag_reserve. cbn. f_equal. lia. }
  assert (Ho : filter (fun x => negb (has_key Order.id newId x))
                 (orders s ++ [r_order r])
               = orders s).
  { rewrite filter_app, (filter_keeps_all _ _ Hfresh). cbn [filter].
    assert (Hself : has_key Order.id newId (r_order r) = true)
      by (apply has_key_eq; exact Hoid).
    rewrite Hself. cbn. apply app_nil_r. }
  assert (Hp : filter (fun x => negb (String.eqb (Payment.orderId x) newId))
                 (payments s ++ [pendingPayment paymentId r checkout])
               = payments s).
  { rewrite filter_app. rewrite filter_keeps_all.
    - cbn [filter pendingPayment Payment.orderId].
      rewrite Hoid, String.eqb_refl. cbn. apply app_nil_r.
    - destruct (existsb _ (payments s)) eqn:E; [|reflexivity].
      exfalso. apply existsb_exists in E. destruct E as [x [Hx Heq]].
      apply String.eqb_eq in Heq. specialize (Hfk x Hx).
      rewrite Heq, Hfresh in Hfk. discriminate. }
  rewrite Hb, Ho, Hp. destruct s. reflexivity.
Qed.

Lemma order_then_cancel_redirect_round_trip_witness :
  yocoCancel Scenario.APP_SCHEME Cascade Scenario.ordered (Some "order-1")
  = (Scenario.market 1 1,
     Redirect (String.append Scenario.APP_SCHEME "payment/cancelled")).
Proof.
  apply (order_then_cancel_redirect_round_trip Scenario.APP_URL
           Scenario.APP_SCHEME (Scenario.market 1 1) "user-1" "bag-1" (Some 1)
           1500 "order-1" "KULA-ABC234" "SAVR-0001" "pay-1" Scenario.gatewayUp
           Scenario.ordered
           (CheckoutBody (Scenario.placed 1) "chk-1"
              "https://pay.example/chk-1")).
  - constructor; [intros [] | constructor].
  - intros p [].
  - discriminate.
  - reflexivity.
Defined.
